(** * Laboratory reagent inventory

    A shallow embedding of the two front-ends of the reagent inventory:
    the Flask web application ([app.py], module [App]) and the Streamlit
    dashboard ([streamlit_app.py], module [StreamlitApp]), followed by the
    properties of the inventory's usage ledger, alert evaluator, bulk
    importer, edit policy, authentication and catalogue search.

    Conventions of the embedding.
    - SQL tables are lists of row records in rowid order; a primary key is
      the [id] field, generated on insert as SQLite does.
    - Quantities and thresholds (Python [float], SQL [REAL]) are rationals
      [Q], the doubles that are numbers; subtraction rounds to the nearest
      double ([Float.sub]).  Infinities and not-a-number are not held.
    - Text is a [string] holding the UTF-8 bytes of a Python [str].
      [strip] removes the white space of Unicode; [lower] and the
      comparisons up to case are those of ASCII letters, which is what
      Python does on ASCII text and what SQLite's [LIKE] does on any text.
    - Calendar dates are (year, month, day) triples compared
      lexicographically, as [datetime.date] compares.
    - Messages shown to the user ([flash], [st.error], [st.success], alert
      lines) are constructors carrying the values the source interpolates
      into the text.
    - What the program calls of a library and is not given here (Python's
      [re], the rendering of a float as text) is a parameter of the
      definitions that call it; what a property takes from the library is
      a hypothesis of that property. *)

From Stdlib Require Import ZArith QArith Qminmax Qabs Bool List String Ascii
  Lia Permutation Sorted.
Import ListNotations.

Local Open Scope string_scope.
Local Open Scope Z_scope.

(** ** Python text primitives *)

Module Text.

(** The characters [str.isspace] holds of, by the bytes of their UTF-8
    encoding.  One byte: TAB, LF, VT, FF, CR, the four separators FS, GS,
    RS, US, and the space. *)
Definition is_space (c : ascii) : bool :=
  let n := Z.of_N (N_of_ascii c) in
  ((9 <=? n) && (n <=? 13)) || ((28 <=? n) && (n <=? 32)).

(** Two bytes: U+0085 (next line) and U+00A0 (no-break space). *)
Definition is_space2 (a b : ascii) : bool :=
  let a := N_of_ascii a in
  let b := N_of_ascii b in
  ((a =? 194) && ((b =? 133) || (b =? 160)))%N.

(** Three bytes: U+1680, U+2000 to U+200A, U+2028, U+2029, U+202F,
    U+205F and U+3000. *)
Definition is_space3 (a b c : ascii) : bool :=
  let a := N_of_ascii a in
  let b := N_of_ascii b in
  let c := N_of_ascii c in
  (((a =? 225) && (b =? 154) && (c =? 128)) ||
   ((a =? 226) && (b =? 128) &&
    (((128 <=? c) && (c <=? 138)) || (c =? 168) || (c =? 169) || (c =? 175))) ||
   ((a =? 226) && (b =? 129) && (c =? 159)) ||
   ((a =? 227) && (b =? 128) && (c =? 128)))%N.

(** The bytes of a text without its leading white space. *)
Fixpoint lstrip_bytes (l : list ascii) : list ascii :=
  match l with
  | [] => []
  | a :: l1 =>
      if is_space a then lstrip_bytes l1
      else
        match l1 with
        | [] => l
        | b :: l2 =>
            if is_space2 a b then lstrip_bytes l2
            else
              match l2 with
              | [] => l
              | c :: l3 => if is_space3 a b c then lstrip_bytes l3 else l
              end
        end
  end.

(** The same from the end, on the bytes in reverse order. *)
Fixpoint rstrip_reversed (l : list ascii) : list ascii :=
  match l with
  | [] => []
  | c :: l1 =>
      if is_space c then rstrip_reversed l1
      else
        match l1 with
        | [] => l
        | b :: l2 =>
            if is_space2 b c then rstrip_reversed l2
            else
              match l2 with
              | [] => l
              | a :: l3 => if is_space3 a b c then rstrip_reversed l3 else l
              end
        end
  end.

Definition lstrip (s : string) : string :=
  string_of_list_ascii (lstrip_bytes (list_ascii_of_string s)).

Definition rstrip (s : string) : string :=
  string_of_list_ascii
    (rev (rstrip_reversed (rev (list_ascii_of_string s)))).

(** [s.strip()] *)
Definition strip (s : string) : string := rstrip (lstrip s).

(** Every character of [s] is an ASCII character. *)
Fixpoint is_ascii (s : string) : bool :=
  match s with
  | EmptyString => true
  | String c s' => (N_of_ascii c <? 128)%N && is_ascii s'
  end.

(** [c.lower()] for one ASCII character; a byte of another character is
    left as it is. *)
Definition lower_char (c : ascii) : ascii :=
  let n := N_of_ascii c in
  if ((65 <=? n) && (n <=? 90))%N then ascii_of_N (n + 32) else c.

Fixpoint lower (s : string) : string :=
  match s with
  | EmptyString => EmptyString
  | String c s' => String (lower_char c) (lower s')
  end.

(** Truthiness of a [str]: the empty string is false. *)
Definition nonempty (s : string) : bool :=
  match s with EmptyString => false | _ => true end.

(** [s or None] *)
Definition or_None (s : string) : option string :=
  if nonempty s then Some s else None.

(** Two characters equal up to ASCII case. *)
Definition eqb_nocase (a b : ascii) : bool :=
  Ascii.eqb (lower_char a) (lower_char b).

(** [needle] occurs at the start of [hay], ignoring ASCII case. *)
Fixpoint prefix_nocase (needle hay : string) : bool :=
  match needle, hay with
  | EmptyString, _ => true
  | String _ _, EmptyString => false
  | String a n', String b h' => eqb_nocase a b && prefix_nocase n' h'
  end.

(** [needle] is a substring of [hay], ignoring ASCII case. *)
Fixpoint substring_nocase (needle hay : string) : bool :=
  prefix_nocase needle hay ||
  match hay with
  | EmptyString => false
  | String _ h' => substring_nocase needle h'
  end.

(** [needle in hay] on [str]. *)
Fixpoint str_in (needle hay : string) : bool :=
  String.prefix needle hay ||
  match hay with
  | EmptyString => false
  | String _ h' => str_in needle h'
  end.

End Text.

(** ** Python floats *)

Module Float.

(** A [float] that is a number is a rational, one of the doubles of IEEE
    754 (binary64).  Arithmetic returns the double nearest the exact
    result, the one of even significand when two are equally near.  A
    result of size [huge] or more is an infinity in Python, which [Q]
    does not hold: [round] is the rounding below that size. *)

(** The integer part of the binary logarithm of [n/d]. *)
Definition floor_log2 (n d : positive) : Z :=
  let e := Z.log2 (Zpos n) - Z.log2 (Zpos d) in
  let reaches :=
    if 0 <=? e then Zpos d * 2 ^ e <=? Zpos n
    else Zpos d <=? Zpos n * 2 ^ (- e) in
  if reaches then e else e - 1.

(** The nearest integer, the even one of two equally near. *)
Definition nearest_even (num den : Z) : Z :=
  let q := num / den in
  let r := num mod den in
  if 2 * r <? den then q
  else if den <? 2 * r then q + 1
  else if Z.even q then q else q + 1.

(** [n/d] rounded to 53 significant bits, or to a multiple of 2^-1074
    where the doubles are no finer. *)
Definition round_pos (n d : positive) : Q :=
  let k := Z.max (floor_log2 n d - 52) (-1074) in
  if 0 <=? k then inject_Z (nearest_even (Zpos n) (Zpos d * 2 ^ k) * 2 ^ k)
  else Qred (nearest_even (Zpos n * 2 ^ (- k)) (Zpos d)
             # Z.to_pos (2 ^ (- k))).

Definition round (x : Q) : Q :=
  match Qnum x with
  | Z0 => 0
  | Zpos n => round_pos n (Qden x)
  | Zneg n => - round_pos n (Qden x)
  end.

(** [a - b] on floats. *)
Definition sub (a b : Q) : Q := round (a - b).

(** The least size that rounds to an infinity. *)
Definition huge : Q := inject_Z (2 ^ 1024 - 2 ^ 970).

(** The double nearest [x] is a number. *)
Definition finite (x : Q) : Prop := (Qabs x < huge)%Q.

End Float.

(** ** Calendar dates ([datetime.date]) *)

Record date := mkDate { year : Z; month : Z; day : Z }.

(** [d1 < d2] on dates. *)
Definition date_ltb (d1 d2 : date) : bool :=
  (year d1 <? year d2) ||
  ((year d1 =? year d2) &&
   ((month d1 <? month d2) ||
    ((month d1 =? month d2) && (day d1 <? day d2)))).

(** [d1 == d2] on dates. *)
Definition date_eqb (d1 d2 : date) : bool :=
  (year d1 =? year d2) && (month d1 =? month d2) && (day d1 =? day d2).

(** A clock reading ([datetime.utcnow()], [datetime.now()]). *)
Definition instant := Z.

(** The outcome of a request handler: the new store, or the error raised. *)
Inductive result (E A : Type) : Type :=
| Ok (a : A)
| Raise (e : E).
Arguments Ok {E A} a.
Arguments Raise {E A} e.

(** ** SHA-256 ([hashlib.sha256(...).hexdigest()], FIPS 180-4) *)

Module Sha256.

Definition word (x : Z) : Z := x mod 2 ^ 32.
Definition add32 (x y : Z) : Z := word (x + y).
Definition rotr (n x : Z) : Z :=
  Z.lor (Z.shiftr x n) (word (Z.shiftl x (32 - n))).
Definition shr (n x : Z) : Z := Z.shiftr x n.
Definition not32 (x : Z) : Z := Z.lxor x 0xffffffff.

Definition Ch (x y z : Z) : Z := Z.lxor (Z.land x y) (Z.land (not32 x) z).
Definition Maj (x y z : Z) : Z :=
  Z.lxor (Z.lxor (Z.land x y) (Z.land x z)) (Z.land y z).
Definition Sigma0 (x : Z) : Z :=
  Z.lxor (Z.lxor (rotr 2 x) (rotr 13 x)) (rotr 22 x).
Definition Sigma1 (x : Z) : Z :=
  Z.lxor (Z.lxor (rotr 6 x) (rotr 11 x)) (rotr 25 x).
Definition sigma0 (x : Z) : Z :=
  Z.lxor (Z.lxor (rotr 7 x) (rotr 18 x)) (shr 3 x).
Definition sigma1 (x : Z) : Z :=
  Z.lxor (Z.lxor (rotr 17 x) (rotr 19 x)) (shr 10 x).

(** The constants are read off the primes, as the standard defines them:
    the round constants are the first 32 bits of the fractional parts of
    the cube roots of the first 64 primes, the initial hash value those of
    the square roots of the first 8. *)
Definition is_prime (n : Z) : bool :=
  (1 <? n) &&
  forallb (fun d => negb (n mod Z.of_nat d =? 0))
          (seq 2 (Z.to_nat n - 2)).

Definition primes (count : nat) : list Z :=
  firstn count (filter is_prime (map Z.of_nat (seq 2 310))).

(** The integer cube root, found bit by bit below bit [b]. *)
Fixpoint cube_root_bits (b : nat) (n r : Z) : Z :=
  match b with
  | O => r
  | S b' =>
      let c := r + 2 ^ Z.of_nat b' in
      cube_root_bits b' n (if c * c * c <=? n then c else r)
  end.

Definition cube_root (n : Z) : Z := cube_root_bits 40 n 0.

Definition K : list Z :=
  Eval vm_compute in
    map (fun p => word (cube_root (p * 2 ^ 96))) (primes 64).

Definition H0 : list Z :=
  Eval vm_compute in
    map (fun p => word (Z.sqrt (p * 2 ^ 64))) (primes 8).

(** The message as bytes ([str.encode()]: the text is held as its UTF-8
    bytes). *)
Fixpoint encode (s : string) : list Z :=
  match s with
  | EmptyString => []
  | String c s' => Z.of_N (N_of_ascii c) :: encode s'
  end.

(** Big-endian bytes of [x], [n] of them. *)
Fixpoint be_bytes (n : nat) (x : Z) : list Z :=
  match n with
  | O => []
  | S n' => (Z.shiftr x (8 * Z.of_nat n')) mod 256 :: be_bytes n' x
  end.

(** Padding: a 1 bit, zeros up to 56 modulo 64, the bit length on 64 bits. *)
Definition pad (msg : list Z) : list Z :=
  let len := Z.of_nat (List.length msg) in
  let zeros := Z.to_nat ((55 - len) mod 64) in
  msg ++ [0x80] ++ repeat 0 zeros ++ be_bytes 8 (8 * len).

(** Big-endian 32-bit words of a byte sequence. *)
Fixpoint words (n : nat) (bs : list Z) : list Z :=
  match n with
  | O => []
  | S n' =>
      match bs with
      | b0 :: b1 :: b2 :: b3 :: rest =>
          (b0 * 2 ^ 24 + b1 * 2 ^ 16 + b2 * 2 ^ 8 + b3) :: words n' rest
      | _ => []
      end
  end.

(** Message schedule: [n] further words after the ones in [ws]. *)
Fixpoint schedule (n : nat) (ws : list Z) : list Z :=
  match n with
  | O => ws
  | S n' =>
      let t := List.length ws in
      let w k := nth (t - k) ws 0 in
      schedule n'
        (ws ++ [add32 (add32 (sigma1 (w 2%nat)) (w 7%nat))
                      (add32 (sigma0 (w 15%nat)) (w 16%nat))])
  end.

Definition round (st : list Z) (kw : Z * Z) : list Z :=
  match st with
  | [a; b; c; d; e; f; g; h] =>
      let t1 := add32 (add32 (add32 h (Sigma1 e)) (add32 (Ch e f g) (fst kw)))
                      (snd kw) in
      let t2 := add32 (Sigma0 a) (Maj a b c) in
      [add32 t1 t2; a; b; c; add32 d t1; e; f; g]
  | _ => st
  end.

Definition compress (h : list Z) (block : list Z) : list Z :=
  let w := schedule 48 block in
  let st := fold_left round (combine K w) h in
  map (fun p => add32 (fst p) (snd p)) (combine h st).

(** The blocks of sixteen words of a padded message. *)
Fixpoint blocks (n : nat) (ws : list Z) : list (list Z) :=
  match n with
  | O => []
  | S n' => firstn 16 ws :: blocks n' (skipn 16 ws)
  end.

Definition digest (msg : list Z) : list Z :=
  let p := pad msg in
  let ws := words (List.length p / 4) p in
  fold_left compress (blocks (List.length ws / 16) ws) H0.

Definition hex_digit (x : Z) : ascii :=
  if x <? 10 then ascii_of_N (Z.to_N (48 + x))
  else ascii_of_N (Z.to_N (87 + x)).

Fixpoint hex_of_word (n : nat) (x : Z) : string :=
  match n with
  | O => EmptyString
  | S n' =>
      String (hex_digit ((Z.shiftr x (4 * Z.of_nat n')) mod 16))
             (hex_of_word n' x)
  end.

(** [hashlib.sha256(s.encode()).hexdigest()] *)
Definition hexdigest (s : string) : string :=
  String.concat "" (map (hex_of_word 8) (digest (encode s))).

End Sha256.

(** ** The Flask web application ([app.py]) *)

Module App.

(** *** Models *)

Record User := mkUser {
  u_id : Z;
  username : string;
  password : string;
  role : string
}.

(** The [qr_code] column holds a file name derived from [id] and is left
    out.  [add_reagent], the only writer, always supplies [unit] and
    [low_stock_threshold]. *)
Record Reagent := mkReagent {
  id : Z;
  name : string;
  cas_number : option string;
  supplier : option string;
  location : option string;
  quantity : Q;
  unit : string;
  expiration_date : option date;
  low_stock_threshold : Q
}.

Record UsageLog := mkUsageLog {
  log_id : Z;
  reagent_id : Z;
  user_id : Z;
  quantity_used : Q;
  timestamp : instant;
  notes : option string
}.

Record db := mkDb {
  users : list User;
  reagents : list Reagent;
  usage_logs : list UsageLog
}.

Definition empty_db : db := mkDb [] [] [].

Inductive error := NotFound404 | IntegrityError.

(** An [INTEGER PRIMARY KEY] left unset takes the largest rowid plus one. *)
Definition next_id (ids : list Z) : Z := fold_right Z.max 0 ids + 1.

(** [User.query.filter_by(username=...).first()] *)
Definition find_user (us : list User) (uname : string) : option User :=
  find (fun u => String.eqb (username u) uname) us.

(** *** [create_tables] *)
Definition create_tables (d : db) : result error db :=
  match find_user (users d) "admin" with
  | Some _ => Ok d
  | None =>
      match find_user (users d) "user" with
      | Some _ => Raise IntegrityError
      | None =>
          let i := next_id (map u_id (users d)) in
          let admin := mkUser i "admin" "admin123" "admin" in
          let user := mkUser (i + 1) "user" "user123" "user" in
          Ok (mkDb (users d ++ [admin; user]) (reagents d) (usage_logs d))
      end
  end.

(** *** [login]: the user logged in, or [None] for 'Invalid credentials'. *)
Definition login (d : db) (uname pw : string) : option User :=
  match find_user (users d) uname with
  | Some user => if String.eqb (password user) pw then Some user else None
  | None => None
  end.

(** *** [index]: search *)

(** SQLite's [LIKE]: [%] stands for any run of characters, [_] for any
    one character, every other character for itself up to ASCII case.
    The pattern is matched byte by byte, which is character by character
    on ASCII text, and on any text for a pattern without [_]. *)
Fixpoint like (pat s : string) {struct pat} : bool :=
  match pat with
  | EmptyString => negb (Text.nonempty s)
  | String p pat' =>
      if Ascii.eqb p "%"%char then
        (fix skip (s : string) : bool :=
           like pat' s ||
           match s with
           | EmptyString => false
           | String _ s' => skip s'
           end) s
      else
        match s with
        | EmptyString => false
        | String c s' =>
            (Ascii.eqb p "_"%char || Text.eqb_nocase p c) && like pat' s'
        end
  end.

(** [column.contains(search)]: [column LIKE '%' || search || '%'], NULL
    on a NULL column. *)
Definition contains (column : option string) (search : string)
  : option bool :=
  match column with
  | Some s => Some (like ("%" ++ search ++ "%") s)
  | None => None
  end.

(** SQL's three-valued [OR]. *)
Definition sql_or (a b : option bool) : option bool :=
  match a, b with
  | Some true, _ | _, Some true => Some true
  | Some false, Some false => Some false
  | _, _ => None
  end.

(** A [WHERE] clause keeps the rows on which it is true. *)
Definition sql_true (a : option bool) : bool :=
  match a with Some true => true | _ => false end.

Definition index_where (search : string) (r : Reagent) : option bool :=
  sql_or (sql_or (contains (Some (name r)) search)
                 (contains (cas_number r) search))
         (contains (location r) search).

Definition index_reagents (d : db) (search : string) : list Reagent :=
  filter (fun r => sql_true (index_where search r)) (reagents d).

(** *** [index]: alerts *)

Inductive alert :=
| LowStock (name : string) (quantity : Q) (unit : string)
| Expired (name : string).

Definition low_stock (r : Reagent) : bool :=
  Qle_bool (quantity r) (low_stock_threshold r).

Definition expired (today : date) (r : Reagent) : bool :=
  match expiration_date r with
  | Some d => date_ltb d today
  | None => false
  end.

(** The body of the loop over [Reagent.query.all()]. *)
Definition alerts_of (today : date) (r : Reagent) : list alert :=
  (if low_stock r then [LowStock (name r) (quantity r) (unit r)] else []) ++
  (if expired today r then [Expired (name r)] else []).

Definition index_alerts (today : date) (d : db) : list alert :=
  flat_map (alerts_of today) (reagents d).

(** *** [add_reagent] *)

(** The posted form, numbers and date already parsed by [float] and
    [strptime]; an empty date field is [None]. *)
Record add_form := mkAddForm {
  f_name : string;
  f_cas_number : string;
  f_supplier : string;
  f_location : string;
  f_quantity : Q;
  f_unit : string;
  f_expiration_date : option date;
  f_low_stock_threshold : Q
}.

Definition add_reagent (d : db) (f : add_form) : db :=
  let reagent :=
    mkReagent (next_id (map id (reagents d)))
              (f_name f) (Some (f_cas_number f)) (Some (f_supplier f))
              (Some (f_location f)) (f_quantity f) (f_unit f)
              (f_expiration_date f) (f_low_stock_threshold f) in
  mkDb (users d) (reagents d ++ [reagent]) (usage_logs d).

(** *** [log_usage] *)

Definition set_quantity (r : Reagent) (q : Q) : Reagent :=
  mkReagent (id r) (name r) (cas_number r) (supplier r) (location r)
            q (unit r) (expiration_date r) (low_stock_threshold r).

(** [Reagent.query.get_or_404(id)] *)
Definition get (d : db) (rid : Z) : option Reagent :=
  find (fun r => id r =? rid) (reagents d).

(** [reagent.quantity -= qty] on the row of key [rid]. *)
Definition deduct (rid : Z) (qty : Q) (r : Reagent) : Reagent :=
  if id r =? rid then set_quantity r (Float.sub (quantity r) qty) else r.

Definition log_usage (d : db) (rid : Z) (current_user : Z) (qty : Q)
    (notes : option string) (now : instant) : result error db :=
  match get d rid with
  | None => Raise NotFound404
  | Some _ =>
      let log :=
        mkUsageLog (next_id (map log_id (usage_logs d)))
                   rid current_user qty now notes in
      Ok (mkDb (users d)
               (map (deduct rid qty) (reagents d))
               (usage_logs d ++ [log]))
  end.

(** *** [load_user]: [User.query.get(int(user_id))], the id already
    parsed. *)
Definition load_user (d : db) (user_id : Z) : option User :=
  find (fun u => u_id u =? user_id) (users d).

(** *** [view_reagent]: the reagent and its usage logs, or 404. *)
Definition view_reagent (d : db) (rid : Z)
  : result error (Reagent * list UsageLog) :=
  match get d rid with
  | None => Raise NotFound404
  | Some reagent =>
      Ok (reagent, filter (fun l => reagent_id l =? rid) (usage_logs d))
  end.

(** *** [admin_dashboard] *)

Inductive admin_page :=
| AdminOnly               (* flash('Admin only'), redirect to index *)
| Dashboard (total low_stock expired : nat).

Definition admin_dashboard (current_user : User) (today : date) (d : db)
  : admin_page :=
  if negb (String.eqb (role current_user) "admin") then AdminOnly
  else
    let total := List.length (reagents d) in
    let low_stock := List.length (filter low_stock (reagents d)) in
    let expired := List.length (filter (expired today) (reagents d)) in
    Dashboard total low_stock expired.

End App.

(** ** The Streamlit dashboard ([streamlit_app.py]) *)

Module StreamlitApp.

(** *** Tables *)

Record User := mkUser {
  u_id : Z;
  username : string;
  password_hash : string;
  role : string
}.

(** [expiration_date] is stored as the text of the date and parsed back
    by [load_reagents]; the column is kept as the date itself. *)
Record Reagent := mkReagent {
  id : Z;
  name : string;
  cas_number : option string;
  supplier : option string;
  location : string;
  quantity : Q;
  unit : string;
  expiration_date : option date;
  low_stock_threshold : Q
}.

Record UsageLog := mkUsageLog {
  log_id : Z;
  reagent_id : Z;
  user : string;
  quantity_used : Q;
  timestamp : instant;
  notes : string
}.

(** Each table with the counter [AUTOINCREMENT] keeps for it. *)
Record db := mkDb {
  users : list User;
  users_seq : Z;
  reagents : list Reagent;
  reagents_seq : Z;
  usage_logs : list UsageLog;
  usage_logs_seq : Z
}.

Definition empty_db : db := mkDb [] 0 [] 0 [] 0.

(** The rowid [AUTOINCREMENT] gives a new row: one more than the largest
    rowid the table holds or ever held. *)
Definition autoincrement (ids : list Z) (seq : Z) : Z :=
  Z.max (fold_right Z.max 0 ids) seq + 1.

(** [INSERT OR IGNORE INTO users (username, password_hash, role)]:
    SQLite draws the new rowid and moves the counter to it before it checks
    the UNIQUE constraint on [username]; a row that breaks the constraint
    is dropped, and the counter stays where it was moved. *)
Definition insert_or_ignore_user (d : db) (uname hash urole : string) : db :=
  let i := autoincrement (map u_id (users d)) (users_seq d) in
  let rows :=
    if existsb (fun u => String.eqb (username u) uname) (users d)
    then users d
    else (users d ++ [mkUser i uname hash urole])%list in
  mkDb rows i (reagents d) (reagents_seq d) (usage_logs d) (usage_logs_seq d).

(** [INSERT INTO reagents (name, ..., low_stock_threshold)] *)
Definition insert_reagent (d : db) (n : string) (cas sup : option string)
    (loc : string) (q : Q) (u : string) (e : option date) (t : Q) : db :=
  let i := autoincrement (map id (reagents d)) (reagents_seq d) in
  mkDb (users d) (users_seq d)
       (reagents d ++ [mkReagent i n cas sup loc q u e t]) i
       (usage_logs d) (usage_logs_seq d).

(** [INSERT INTO usage_logs (reagent_id, user, quantity_used, timestamp,
    notes)] *)
Definition insert_usage_log (d : db) (rid : Z) (who : string) (q : Q)
    (now : instant) (note : string) : db :=
  let i := autoincrement (map log_id (usage_logs d)) (usage_logs_seq d) in
  mkDb (users d) (users_seq d) (reagents d) (reagents_seq d)
       (usage_logs d ++ [mkUsageLog i rid who q now note]) i.

Definition set_reagents (d : db) (rs : list Reagent) : db :=
  mkDb (users d) (users_seq d) rs (reagents_seq d)
       (usage_logs d) (usage_logs_seq d).

(** *** [init_db] *)
Definition init_db (d : db) : db :=
  let hashed_admin := Sha256.hexdigest "admin123" in
  let hashed_user := Sha256.hexdigest "user123" in
  insert_or_ignore_user
    (insert_or_ignore_user d "admin" hashed_admin "admin")
    "user" hashed_user "user".

(** *** Login form: the role selected by
    [SELECT role FROM users WHERE username=? AND password_hash=?], or
    [None] for 'Invalid username or password'. *)
Definition login (d : db) (uname pw : string) : option string :=
  option_map role
    (find (fun u => String.eqb (username u) uname &&
                    String.eqb (password_hash u) (Sha256.hexdigest pw))
          (users d)).

(** The session once authenticated. *)
Record session := mkSession { s_username : string; s_role : string }.

(** *** [load_reagents] and its cache *)

(** [ORDER BY name]: rows in ascending byte order of [name] (SQLite's
    BINARY collation), rows of equal name in rowid order. *)
Fixpoint insert_by_name (r : Reagent) (l : list Reagent) : list Reagent :=
  match l with
  | [] => [r]
  | x :: l' =>
      if String.leb (name r) (name x) then r :: l
      else x :: insert_by_name r l'
  end.

Definition order_by_name (l : list Reagent) : list Reagent :=
  fold_right insert_by_name [] l.

(** [SELECT * FROM reagents ORDER BY name] *)
Definition select_reagents (d : db) : list Reagent :=
  order_by_name (reagents d).

(** The process: the database and the memo of [st.cache_data]. *)
Record state := mkState {
  store : db;
  cache : option (list Reagent)
}.

Definition load_reagents (s : state) : list Reagent * state :=
  match cache s with
  | Some df => (df, s)
  | None =>
      let df := select_reagents (store s) in
      (df, mkState (store s) (Some df))
  end.

(** [st.cache_data.clear()] after a write that left the database [d]. *)
Definition cache_clear (d : db) : state := mkState d None.

(** The memo lapses after [ttl] seconds. *)
Definition expire (s : state) : state := mkState (store s) None.

(** *** Alerts *)

Inductive alert :=
| LowStock (name : string) (quantity : Q) (unit : string) (threshold : Q)
| Expired (name : string) (expiration_date : date).

Definition low_stock (row : Reagent) : bool :=
  Qle_bool (quantity row) (low_stock_threshold row).

(** The body of the loop over [reagents_df.iterrows()]. *)
Definition alerts_of (today : date) (row : Reagent) : list alert :=
  (if low_stock row
   then [LowStock (name row) (quantity row) (unit row)
                  (low_stock_threshold row)]
   else []) ++
  (match expiration_date row with
   | Some d => if date_ltb d today then [Expired (name row) d] else []
   | None => []
   end).

Definition alerts (today : date) (reagents_df : list Reagent) : list alert :=
  flat_map (alerts_of today) reagents_df.

(** *** Catalogue search *)

Section Search.

(** Python's [re], to which [Series.str.contains] hands the search text
    as a pattern, is a library and no part of the program; the search is
    given over any [re]: [re_compile pat] stands for
    [re.compile(pat, re.IGNORECASE)], [None] when it raises [re.error],
    and [re_search p s] for [p.search(s) is not None]. *)
Variable pattern : Type.
Variable re_compile : string -> option pattern.
Variable re_search : pattern -> string -> bool.

(** One cell of [column.str.contains(pat, case=False, na=False)], the
    pattern compiled. *)
Definition str_contains (re : pattern) (cell : option string) : bool :=
  match cell with
  | Some s => re_search re s
  | None => false
  end.

(** The rows the catalogue displays; [None] when the search text does
    not compile: the exception ends the run of the script. *)
Definition display_df (search : string) (reagents_df : list Reagent)
  : option (list Reagent) :=
  if Text.nonempty search then
    match re_compile search with
    | Some re =>
        Some (filter (fun r => str_contains re (Some (name r)) ||
                               str_contains re (cas_number r) ||
                               str_contains re (Some (location r)))
                     reagents_df)
    | None => None
    end
  else Some reagents_df.

End Search.

Arguments str_contains {pattern} re_search re cell.
Arguments display_df {pattern} re_compile re_search search reagents_df.

(** *** Widgets *)
(** *** Widgets *)

(** [st.number_input(min_value, max_value, value)].  The last argument
    is the number the widget hands to the script, and so are the numbers
    in the forms below: what is typed outside the bounds is not taken by
    the widget, and the script goes on with the number the widget held.
    The widget is not built, and the script stops, when its initial
    [value] lies outside the bounds.  [None] says that this widget hands
    [entered] to no run of the script. *)
Definition in_bounds (min_value : Q) (max_value : option Q) (x : Q) : bool :=
  Qle_bool min_value x &&
  match max_value with Some m => Qle_bool x m | None => true end.

Definition number_input (min_value : Q) (max_value : option Q)
    (value entered : Q) : option Q :=
  if in_bounds min_value max_value value &&
     in_bounds min_value max_value entered
  then Some entered else None.

Definition units : list string :=
  ["g"; "mg"; "ml"; "L"; "bottles"; "vials"; "kg"].

(** [st.selectbox(label, options)] yields one of its options. *)
Definition selectbox (options : list string) (chosen : string)
  : option string :=
  if existsb (String.eqb chosen) options then Some chosen else None.

(** [x < y] on numbers. *)
Definition Qlt_bool (x y : Q) : bool := negb (Qle_bool y x).

(** [e_exp and e_exp < today] *)
Definition before (e : option date) (today : date) : bool :=
  match e with Some d => date_ltb d today | None => false end.

(** *** Catalogue: Save Changes (admin) *)

Record edit_form := mkEditForm {
  e_name : string;
  e_cas : string;
  e_supplier : string;
  e_location : string;
  e_quantity : Q;
  e_unit : string;
  e_exp : option date;
  e_threshold : Q
}.

Inductive edit_outcome :=
| EditNotOffered          (* not an admin, or no such row on display *)
| EditInputRefused        (* a widget of the editor cannot hold the input *)
| ExpirationInPast (today : date)  (* st.error("Cannot save: ...") *)
| ReagentUpdated.         (* st.success("Reagent updated!") *)

(** [UPDATE reagents SET name=?, ..., low_stock_threshold=? WHERE id=?] *)
Definition update_row (edit_id : Z) (f : edit_form) (r : Reagent) : Reagent :=
  if id r =? edit_id then
    mkReagent (id r) (e_name f) (Text.or_None (e_cas f))
              (Text.or_None (e_supplier f)) (e_location f) (e_quantity f)
              (e_unit f) (e_exp f) (e_threshold f)
  else r.

Definition save_changes (today : date) (ses : session) (s : state)
    (edit_id : Z) (f : edit_form) : edit_outcome * state :=
  let (reagents_df, s1) := load_reagents s in
  if negb (String.eqb (s_role ses) "admin") then (EditNotOffered, s1)
  else
    match find (fun r => id r =? edit_id) reagents_df with
    | None => (EditNotOffered, s1)
    | Some reagent =>
        match number_input 0 None (quantity reagent) (e_quantity f),
              selectbox units (unit reagent),
              selectbox units (e_unit f),
              number_input 0 None (low_stock_threshold reagent)
                           (e_threshold f)
        with
        | Some _, Some _, Some _, Some _ =>
            if before (e_exp f) today then (ExpirationInPast today, s1)
            else
              let d := store s1 in
              (ReagentUpdated,
               cache_clear
                 (set_reagents d (map (update_row edit_id f) (reagents d))))
        | _, _, _, _ => (EditInputRefused, s1)
        end
    end.

(** *** Catalogue: Confirm Delete Selected (admin) *)

Inductive delete_outcome :=
| DeleteNotOffered
| Deleted (n : nat).

Definition confirm_delete (ses : session) (s : state) (to_delete : list Z)
  : delete_outcome * state :=
  let (reagents_df, s1) := load_reagents s in
  if negb (String.eqb (s_role ses) "admin") then (DeleteNotOffered, s1)
  else
    match to_delete with
    | [] => (DeleteNotOffered, s1)
    | _ =>
        if forallb (fun rid => existsb (fun r => id r =? rid) reagents_df)
                   to_delete
        then
          let d := store s1 in
          (Deleted (List.length to_delete),
           cache_clear
             (set_reagents d
                (filter (fun r => negb (existsb (Z.eqb (id r)) to_delete))
                        (reagents d))))
        else (DeleteNotOffered, s1)
    end.

(** *** Add Reagent: bulk import from a sheet *)

(** A cell of the sheet as [pd.read_excel] delivers it: text, the
    not-a-number of an empty cell, or a value of another type (number,
    date, boolean) given by the text [str] prints for it. *)
Inductive cell :=
| CStr (s : string)
| CNaN
| COther (printed : string).

(** A row of the sheet: column label to cell. *)
Definition Series := string -> option cell.

(** [row.get(key, default)] *)
Definition row_get (row : Series) (key default : string) : cell :=
  match row key with
  | Some c => c
  | None => CStr default
  end.

(** [str(cell)] *)
Definition str (c : cell) : string :=
  match c with
  | CStr s => s
  | CNaN => "nan"
  | COther printed => printed
  end.

(** The body of the loop over [df_excel.iterrows()], on the connection's
    pending database and the running count. *)
Definition import_row (acc : db * Z) (row : Series) : db * Z :=
  let (d, imported) := acc in
  let name := Text.strip (str (row_get row "name" "")) in
  if negb (Text.nonempty name) then acc
  else
    let cas := Text.or_None (Text.strip (str (row_get row "cas_number" ""))) in
    let supplier :=
      Text.or_None (Text.strip (str (row_get row "supplier" ""))) in
    let location := "Default Location" in
    let quantity := 1%Q in
    let unit := "bottles" in
    let exp_date := @None date in
    let threshold := 1%Q in
    (insert_reagent d name cas supplier location quantity unit exp_date
                    threshold,
     imported + 1).

Inductive import_outcome :=
| Imported (imported : Z)   (* st.success("Imported ... reagents") *)
| NoValidRows.              (* st.info("No valid rows were imported.") *)

(** The button is offered for a sheet that has a [name] column. *)
Definition confirm_import (s : state) (df_excel : list Series)
  : import_outcome * state :=
  let (_, s1) := load_reagents s in
  let (d, imported) := fold_left import_row df_excel (store s1, 0) in
  if 0 <? imported then (Imported imported, cache_clear d)
  else (NoValidRows, mkState d (cache s1)).

(** *** Add Reagent: the single-entry form *)

Definition location_presets : list string :=
  ["Scrappy-Doo"; "Daphne"; "Tom"; "Jerry"; "Scooby-Doo"; "Velma";
   "Custom input"].

Record add_form := mkAddForm {
  a_name : string;
  a_cas : string;
  a_supplier : string;
  a_location_preset : string;
  a_custom_location : string;
  a_quantity : Q;
  a_unit : string;
  a_exp_date : option date;
  a_threshold : Q
}.

Inductive date_notice :=
| AlreadyPassed (exp_date today : date)   (* st.error("Warning: ...") *)
| ExpiresToday (exp_date : date).         (* st.warning("Note: ...") *)

Inductive form_error :=
| NameRequired
| CustomLocationEmpty
| LocationRequired.

Inductive add_outcome :=
| AddInputRefused
| AddErrors (errors : list form_error)
| Added (name location : string).

Definition exp_notice (today : date) (exp_date : option date)
  : option date_notice :=
  match exp_date with
  | Some d =>
      if date_ltb d today then Some (AlreadyPassed d today)
      else if date_eqb d today then Some (ExpiresToday d)
      else None
  | None => None
  end.

Definition final_location (f : add_form) : string :=
  if String.eqb (a_location_preset f) "Custom input"
  then Text.strip (a_custom_location f)
  else a_location_preset f.

Definition form_errors (f : add_form) : list form_error :=
  (if negb (Text.nonempty (Text.strip (a_name f))) then [NameRequired]
   else []) ++
  (if negb (Text.nonempty (final_location f)) then
     if String.eqb (a_location_preset f) "Custom input"
     then [CustomLocationEmpty] else [LocationRequired]
   else []).

Definition add_reagent (today : date) (s : state) (f : add_form)
  : option date_notice * add_outcome * state :=
  let (_, s1) := load_reagents s in
  match selectbox location_presets (a_location_preset f),
        number_input 0 None 0 (a_quantity f),
        selectbox units (a_unit f),
        number_input 0 None 1 (a_threshold f)
  with
  | Some _, Some quantity, Some unit, Some threshold =>
      let notice := exp_notice today (a_exp_date f) in
      match form_errors f with
      | [] =>
          (notice,
           Added (Text.strip (a_name f)) (final_location f),
           cache_clear
             (insert_reagent (store s1) (Text.strip (a_name f))
                (Text.or_None (a_cas f)) (Text.or_None (a_supplier f))
                (final_location f) quantity unit (a_exp_date f) threshold))
      | errors => (notice, AddErrors errors, s1)
      end
  | _, _, _, _ => (None, AddInputRefused, s1)
  end.

(** *** Log Usage: Record Usage *)

Record usage_form := mkUsageForm {
  show_all : bool;        (* "Show all reagents (including empty)" *)
  selected_id : Z;
  qty_used : Q;
  usage_notes : string
}.

Inductive usage_outcome :=
| NoInventory             (* st.warning("No reagents in inventory yet.") *)
| Stopped                 (* st.stop(): nothing to select *)
| NothingSelected
| OutOfStock (name unit : string)
| UsageInputRefused       (* the quantity widget cannot hold the input *)
| CannotUseMore           (* st.error("Cannot use more than available ...") *)
| UsageLogged (qty : Q) (unit name : string).

(** [UPDATE reagents SET quantity = quantity - ? WHERE id = ?] *)
Definition deduct (qty : Q) (rid : Z) (r : Reagent) : Reagent :=
  if id r =? rid then
    mkReagent (id r) (name r) (cas_number r) (supplier r) (location r)
              (Float.sub (quantity r) qty) (unit r) (expiration_date r)
              (low_stock_threshold r)
  else r.

Definition record_usage (ses : session) (now : instant) (s : state)
    (f : usage_form) : usage_outcome * state :=
  let (reagents_df, s1) := load_reagents s in
  match reagents_df with
  | [] => (NoInventory, s1)
  | _ =>
      let (current_reagents, s2) := load_reagents s1 in
      let with_stock :=
        filter (fun r => Qlt_bool 0 (quantity r)) current_reagents in
      let usable_reagents :=
        match with_stock with
        | [] => if show_all f then current_reagents else with_stock
        | _ => with_stock
        end in
      let reagent_options := map id usable_reagents in
      match reagent_options with
      | [] => (Stopped, s2)
      | _ =>
          if negb (existsb (Z.eqb (selected_id f)) reagent_options)
          then (NothingSelected, s2)   (* the selectbox holds an option *)
          else if selected_id f =? 0 then (NothingSelected, s2)
          else
            match find (fun r => id r =? selected_id f) usable_reagents with
            | None => (NothingSelected, s2)
            | Some row =>
                let available := quantity row in
                if Qle_bool available 0 then
                  (OutOfStock (name row) (unit row), s2)
                else
                  let default_qty := Qmin (1 # 100) available in
                  match number_input (1 # 100) (Some available) default_qty
                                     (qty_used f) with
                  | None => (UsageInputRefused, s2)
                  | Some qty_used =>
                      if Qlt_bool available qty_used
                      then (CannotUseMore, s2)
                      else
                        let d := store s2 in
                        let d1 :=
                          set_reagents d
                            (map (deduct qty_used (selected_id f))
                                 (reagents d)) in
                        let d2 :=
                          insert_usage_log d1 (selected_id f)
                            (s_username ses) qty_used now (usage_notes f) in
                        (UsageLogged qty_used (unit row) (name row),
                         cache_clear d2)
                  end
            end
      end
  end.

(** *** Session *)

(** [st.session_state]: the keys [authenticated], [username] and [role]
    are set together by the login form and deleted together by the logout
    button; [None] is the state without them. *)
Definition session_state := option session.

Inductive login_notice :=
| Welcome (username role : string)   (* st.success("Welcome, ...") *)
| InvalidLogin.                      (* st.error("Invalid username or password") *)

(** The login form, submitted. *)
Definition login_form (d : db) (uname pw : string)
  : login_notice * session_state :=
  match login d uname pw with
  | Some r => (Welcome uname r, Some (mkSession uname r))
  | None => (InvalidLogin, None)
  end.

(** *** Add Reagent: the uploaded sheet *)

(** [df_excel.columns.str.strip().str.lower()], one label. *)
Definition normalize_column (c : string) : string :=
  Text.lower (Text.strip c).

(** [rename_map], applied to one label. *)
Definition rename_map (c : string) : string :=
  if String.eqb c "item" then "name"
  else if String.eqb c "supplier item identifier" then "cas_number"
  else c.

(** The labels of [df_excel] after both steps. *)
Definition excel_columns (columns : list string) : list string :=
  map rename_map (map normalize_column columns).

Definition keep_cols : list string := ["name"; "cas_number"; "supplier"].

Definition available_cols (columns : list string) : list string :=
  filter (fun c => existsb (String.eqb c) columns) keep_cols.

(** A row of the frame as a [Series]: the cell under the label.  Labels
    are taken distinct; pandas answers with all the cells when a label
    repeats, which is not modelled. *)
Fixpoint series (labels : list string) (cells : list cell) : Series :=
  fun key =>
    match labels, cells with
    | l :: labels', c :: cells' =>
        if String.eqb l key then Some c else series labels' cells' key
    | _, _ => None
    end.

Inductive upload_outcome :=
| MissingNameColumn       (* st.error("Excel must contain a column ...") *)
| PreviewShown            (* the button was not pressed *)
| ImportRun (outcome : import_outcome).

(** The upload block for a sheet of the given header and rows; [confirm]
    says whether "Confirm Import All Valid Rows" was pressed. *)
Definition bulk_add (s : state) (columns : list string)
    (data : list (list cell)) (confirm : bool) : upload_outcome * state :=
  let columns := excel_columns columns in
  if negb (existsb (String.eqb "name") (available_cols columns))
  then (MissingNameColumn, snd (load_reagents s))
  else if confirm then
    let (outcome, s') := confirm_import s (map (series columns) data) in
    (ImportRun outcome, s')
  else (PreviewShown, snd (load_reagents s)).

(** *** Admin tab *)

Definition digit (n : Z) : ascii :=
  nth (Z.to_nat (n mod 10)) (list_ascii_of_string "0123456789") "0"%char.

(** [str(d)] for a date: YYYY-MM-DD. *)
Definition isoformat (d : date) : string :=
  string_of_list_ascii
    [digit (year d / 1000); digit (year d / 100); digit (year d / 10);
     digit (year d); "-"%char;
     digit (month d / 10); digit (month d); "-"%char;
     digit (day d / 10); digit (day d)].

(** The alert lines as text.  The two renderings of a number, [:.2f] and
    [str], are left to the caller. *)
Definition alert_text (fixed2 str_float : Q -> string) (a : alert) : string :=
  match a with
  | LowStock name quantity unit threshold =>
      "⚠️ **Low Stock**: " ++ name ++ " — " ++ fixed2 quantity ++ " " ++
      unit ++ " (threshold: " ++ str_float threshold ++ ")"
  | Expired name expiration_date =>
      "❌ **Expired**: " ++ name ++ " (" ++ isoformat expiration_date ++ ")"
  end.

Inductive admin_tab :=
| AdminAccessOnly         (* st.error("Admin access only") *)
| Metrics (total low_stock expired : nat).

Definition admin (fixed2 str_float : Q -> string) (ses : session)
    (reagents_df : list Reagent) (alerts : list alert) : admin_tab :=
  if negb (String.eqb (s_role ses) "admin") then AdminAccessOnly
  else
    Metrics
      (List.length reagents_df)
      (List.length
         (filter (fun a => Text.str_in "Low" (alert_text fixed2 str_float a))
                 alerts))
      (List.length
         (filter (fun a => Text.str_in "Expired"
                             (alert_text fixed2 str_float a))
                 alerts)).

(** *** One run of the script *)

(** What the user did to start the run. *)
Inductive action :=
| SubmitLogin (username password : string)
| Logout
| View                    (* no button pressed *)
| SaveChanges (today : date) (edit_id : Z) (f : edit_form)
| ConfirmDelete (to_delete : list Z)
| BulkAdd (columns : list string) (data : list (list cell)) (confirm : bool)
| AddReagent (today : date) (f : add_form)
| RecordUsage (now : instant) (f : usage_form).

(** [init_db()], the first statement of the script: it writes to the
    database file and leaves the memo of [load_reagents] alone. *)
Definition run_init_db (s : state) : state :=
  mkState (init_db (store s)) (cache s).

(** The script below [init_db()]: without a session only the login form
    is served and the script stops; with one, the logout button comes
    first, then the listing is loaded and the pressed button's handler
    runs. *)
Definition script_body (ss : session_state) (s : state) (a : action)
  : session_state * state :=
  match ss with
  | None =>
      match a with
      | SubmitLogin uname pw => (snd (login_form (store s) uname pw), s)
      | _ => (None, s)
      end
  | Some ses =>
      match a with
      | Logout => (None, s)
      | SubmitLogin _ _ | View => (ss, snd (load_reagents s))
      | SaveChanges today edit_id f =>
          (ss, snd (save_changes today ses s edit_id f))
      | ConfirmDelete to_delete => (ss, snd (confirm_delete ses s to_delete))
      | BulkAdd columns data confirm =>
          (ss, snd (bulk_add s columns data confirm))
      | AddReagent today f => (ss, snd (add_reagent today s f))
      | RecordUsage now f => (ss, snd (record_usage ses now s f))
      end
  end.

(** The script from top to bottom. *)
Definition script_run (ss : session_state) (s : state) (a : action)
  : session_state * state :=
  script_body ss (run_init_db s) a.

(** A sequence of runs. *)
Fixpoint script_runs (ss : session_state) (s : state) (acts : list action)
  : session_state * state :=
  match acts with
  | [] => (ss, s)
  | a :: acts' =>
      let (ss', s') := script_run ss s a in
      script_runs ss' s' acts'
  end.

End StreamlitApp.

(** ** Vocabulary of the properties *)

(** [d1] is strictly before [d2]. *)
Definition date_lt (d1 d2 : date) : Prop :=
  year d1 < year d2 \/
  (year d1 = year d2 /\
   (month d1 < month d2 \/ (month d1 = month d2 /\ day d1 < day d2))).

(** [s] is a substring of [t] up to the case of ASCII letters. *)
Definition ci_substring (s t : string) : Prop :=
  exists pre post, Text.lower t = pre ++ Text.lower s ++ post.

(** *** Scenario: the web app with one reagent *)

Definition web_fresh : App.db :=
  match App.create_tables App.empty_db with
  | Ok d => d
  | Raise _ => App.empty_db
  end.

(** NaCl, 100 g, threshold 10, on the fresh store. *)
Definition web_nacl : App.db :=
  App.add_reagent web_fresh
    (App.mkAddForm "NaCl" "7647-14-5" "Sigma" "Shelf A" 100 "g" None 10).

(** The store after the user (id 2) has logged the use of 95 g. *)
Definition web_nacl_5 : App.db :=
  match App.log_usage web_nacl 1 2 95 None 0 with
  | Ok d => d
  | Raise _ => web_nacl
  end.

(** The alert line of a row that is low on stock. *)
Definition web_low_stock_alert (r : App.Reagent) : App.alert :=
  App.LowStock (App.name r) (App.quantity r) (App.unit r).

Definition low_stock_alert (r : StreamlitApp.Reagent) : StreamlitApp.alert :=
  StreamlitApp.LowStock (StreamlitApp.name r) (StreamlitApp.quantity r)
    (StreamlitApp.unit r) (StreamlitApp.low_stock_threshold r).

(** A row with another expiration date. *)
Definition web_with_expiration (r : App.Reagent) (e : option date)
  : App.Reagent :=
  App.mkReagent (App.id r) (App.name r) (App.cas_number r) (App.supplier r)
    (App.location r) (App.quantity r) (App.unit r) e
    (App.low_stock_threshold r).

Definition with_expiration (r : StreamlitApp.Reagent) (e : option date)
  : StreamlitApp.Reagent :=
  StreamlitApp.mkReagent (StreamlitApp.id r) (StreamlitApp.name r)
    (StreamlitApp.cas_number r) (StreamlitApp.supplier r)
    (StreamlitApp.location r) (StreamlitApp.quantity r)
    (StreamlitApp.unit r) e (StreamlitApp.low_stock_threshold r).

(** *** Sample rows for the alerts *)

(** An empty bottle with threshold zero that expires on 2026-01-15. *)
Definition empty_bottle : StreamlitApp.Reagent :=
  StreamlitApp.mkReagent 7 "EtOH" None None "Tom" 0 "L"
    (Some (mkDate 2026 1 15)) 0.

Definition web_empty_bottle : App.Reagent :=
  App.mkReagent 7 "EtOH" None None (Some "Shelf A") 0 "L"
    (Some (mkDate 2026 1 15)) 0.

(** An edit form, and an add form, with another expiration date. *)
Definition edit_with_exp (f : StreamlitApp.edit_form) (e : option date)
  : StreamlitApp.edit_form :=
  StreamlitApp.mkEditForm (StreamlitApp.e_name f) (StreamlitApp.e_cas f)
    (StreamlitApp.e_supplier f) (StreamlitApp.e_location f)
    (StreamlitApp.e_quantity f) (StreamlitApp.e_unit f) e
    (StreamlitApp.e_threshold f).

Definition add_with_exp (f : StreamlitApp.add_form) (e : option date)
  : StreamlitApp.add_form :=
  StreamlitApp.mkAddForm (StreamlitApp.a_name f) (StreamlitApp.a_cas f)
    (StreamlitApp.a_supplier f) (StreamlitApp.a_location_preset f)
    (StreamlitApp.a_custom_location f) (StreamlitApp.a_quantity f)
    (StreamlitApp.a_unit f) e (StreamlitApp.a_threshold f).

(** *** Scenario: the dashboard with one reagent *)

Definition dash_fresh : StreamlitApp.state :=
  StreamlitApp.mkState (StreamlitApp.init_db StreamlitApp.empty_db) None.

Definition nacl_form : StreamlitApp.add_form :=
  StreamlitApp.mkAddForm "NaCl" "7647-14-5" "Sigma" "Tom" "" 100 "g" None 10.

(** NaCl, 100 g, threshold 10, added through the form. *)
Definition dash_nacl : StreamlitApp.state :=
  snd (StreamlitApp.add_reagent (mkDate 2026 1 15) dash_fresh nacl_form).

Definition admin_session : StreamlitApp.session :=
  StreamlitApp.mkSession "admin" "admin".

Definition user_session : StreamlitApp.session :=
  StreamlitApp.mkSession "user" "user".

(** An edit of the NaCl row and a new entry, both dated 2025-12-31. *)
Definition past_edit : StreamlitApp.edit_form :=
  StreamlitApp.mkEditForm "NaCl" "7647-14-5" "Sigma" "Tom" 80 "g"
    (Some (mkDate 2025 12 31)) 10.

Definition past_entry : StreamlitApp.add_form :=
  StreamlitApp.mkAddForm "KCl" "" "" "Custom input" " Cabinet B " 2 "kg"
    (Some (mkDate 2025 12 31)) 1.

(** *** Bulk import *)

(** The name the importer reads off a row, and whether it keeps the row. *)
Definition name_of (row : StreamlitApp.Series) : string :=
  Text.strip (StreamlitApp.str (StreamlitApp.row_get row "name" "")).

Definition kept (row : StreamlitApp.Series) : bool :=
  Text.nonempty (name_of row).

(** The reagent the importer makes of a kept row, under the id [i]. *)
Definition reagent_of_row (i : Z) (row : StreamlitApp.Series)
  : StreamlitApp.Reagent :=
  StreamlitApp.mkReagent i (name_of row)
    (Text.or_None
       (Text.strip (StreamlitApp.str (StreamlitApp.row_get row "cas_number" ""))))
    (Text.or_None
       (Text.strip (StreamlitApp.str (StreamlitApp.row_get row "supplier" ""))))
    "Default Location" 1 "bottles" None 1.

(** The specification's reading of a blank name: the name of a row is
    the text in its name cell, and an empty cell or a cell of blanks is a
    blank name. *)
Definition spec_blank_name (row : StreamlitApp.Series) : bool :=
  match row "name" with
  | Some (StreamlitApp.CStr s) => negb (Text.nonempty (Text.strip s))
  | Some StreamlitApp.CNaN => true
  | Some (StreamlitApp.COther printed) =>
      negb (Text.nonempty (Text.strip printed))
  | None => true
  end.

(** A sheet of three rows: a named item, a row whose Item cell is empty,
    and a row whose Item cell holds blanks. *)
Definition sheet_row (name : StreamlitApp.cell) (supplier : StreamlitApp.cell)
  : StreamlitApp.Series :=
  fun label =>
    if String.eqb label "name" then Some name
    else if String.eqb label "supplier" then Some supplier
    else None.

Definition sheet : list StreamlitApp.Series :=
  [ sheet_row (StreamlitApp.CStr "NaCl") (StreamlitApp.CStr "Sigma");
    sheet_row StreamlitApp.CNaN (StreamlitApp.CStr "Merck");
    sheet_row (StreamlitApp.CStr "   ") StreamlitApp.CNaN ].

(** *** Catalogue search *)

(** The characters [re] gives a meaning of their own. *)
Definition is_meta (c : ascii) : bool :=
  existsb (Ascii.eqb c)
    (list_ascii_of_string ".^$*+?{}[]\|()").

(** The search text has no character [re] reads as syntax. *)
Fixpoint no_meta (s : string) : bool :=
  match s with
  | EmptyString => true
  | String c s' => negb (is_meta c) && no_meta s'
  end.

(** The text has a character other than the newline. *)
Definition has_visible (s : string) : bool :=
  existsb (fun c => negb (Ascii.eqb c "010"%char)) (list_ascii_of_string s).

(** What the properties take from Python's [re].  First: the pattern
    [.] compiles, and it is found in a text exactly when the text has a
    character other than the newline. *)
Definition re_dot {pattern : Type} (re_compile : string -> option pattern)
    (re_search : pattern -> string -> bool) : Prop :=
  exists p, re_compile "." = Some p /\
            forall s, re_search p s = has_visible s.

(** Second: an ASCII text without metacharacter compiles, and under
    [re.IGNORECASE] it is found in an ASCII text exactly when it occurs
    there up to the case of the letters. *)
Definition re_literal {pattern : Type} (re_compile : string -> option pattern)
    (re_search : pattern -> string -> bool) : Prop :=
  forall pat,
    no_meta pat = true -> Text.is_ascii pat = true ->
    exists p, re_compile pat = Some p /\
              forall s, Text.is_ascii s = true ->
                        re_search p s = Text.substring_nocase pat s.

(** A matcher for the patterns made of literal characters and [.], which
    shows that both can be met; it gives no pattern to a text with
    another metacharacter. *)
Module SampleRe.

Inductive atom := Lit (c : ascii) | AnyChar.

Fixpoint re_compile (pat : string) : option (list atom) :=
  match pat with
  | EmptyString => Some []
  | String c pat' =>
      match re_compile pat' with
      | None => None
      | Some re =>
          if Ascii.eqb c "."%char then Some (AnyChar :: re)
          else if is_meta c then None
          else Some (Lit c :: re)
      end
  end.

Definition atom_matches (a : atom) (c : ascii) : bool :=
  match a with
  | Lit p => Text.eqb_nocase p c
  | AnyChar => negb (Ascii.eqb c "010"%char)
  end.

Fixpoint re_match (re : list atom) (s : string) : bool :=
  match re, s with
  | [], _ => true
  | _ :: _, EmptyString => false
  | a :: re', String c s' => atom_matches a c && re_match re' s'
  end.

Fixpoint re_search (re : list atom) (s : string) : bool :=
  re_match re s ||
  match s with
  | EmptyString => false
  | String _ s' => re_search re s'
  end.

End SampleRe.

(** The name, the CAS number and the location of the row are ASCII
    text. *)
Definition ascii_row (r : StreamlitApp.Reagent) : Prop :=
  Text.is_ascii (StreamlitApp.name r) = true /\
  (forall c, StreamlitApp.cas_number r = Some c -> Text.is_ascii c = true) /\
  Text.is_ascii (StreamlitApp.location r) = true.

(** The rows the search text [.] displays: those with a character other
    than the newline in one of the three columns. *)
Definition shown_by_dot (r : StreamlitApp.Reagent) : bool :=
  has_visible (StreamlitApp.name r) ||
  match StreamlitApp.cas_number r with
  | Some c => has_visible c
  | None => false
  end ||
  has_visible (StreamlitApp.location r).

(** The search text has none of the wildcards of [LIKE]. *)
Fixpoint no_wildcard (s : string) : bool :=
  match s with
  | EmptyString => true
  | String c s' =>
      negb (Ascii.eqb c "%"%char) && negb (Ascii.eqb c "_"%char) &&
      no_wildcard s'
  end.

(** [s] is a substring, up to case, of a column that may be NULL. *)
Definition ci_substring_opt (s : string) (column : option string) : Prop :=
  match column with
  | Some t => ci_substring s t
  | None => False
  end.

(** [s] occurs, up to case, in the name, the CAS number or the location
    of the row. *)
Definition matches (s : string) (r : StreamlitApp.Reagent) : Prop :=
  ci_substring s (StreamlitApp.name r) \/
  ci_substring_opt s (StreamlitApp.cas_number r) \/
  ci_substring s (StreamlitApp.location r).

Definition web_matches (s : string) (r : App.Reagent) : Prop :=
  ci_substring s (App.name r) \/
  ci_substring_opt s (App.cas_number r) \/
  ci_substring_opt s (App.location r).

(** The rows follow each other in ascending order of name. *)
Definition name_le (r1 r2 : StreamlitApp.Reagent) : Prop :=
  String.leb (StreamlitApp.name r1) (StreamlitApp.name r2) = true.

(** [LIKE] under a leading [%]: the pattern matches some suffix. *)
Fixpoint like_suffix (pat s : string) : bool :=
  App.like pat s ||
  match s with
  | EmptyString => false
  | String _ s' => like_suffix pat s'
  end.

(** Two reagents entered in the web app, zinc first. *)
Definition web_two : App.db :=
  App.add_reagent
    (App.add_reagent web_fresh
       (App.mkAddForm "Zinc" "7440-66-6" "Merck" "Shelf B" 5 "g" None 1))
    (App.mkAddForm "Acetone" "67-64-1" "Sigma" "Shelf C" 2 "L" None 1).

(** Two reagents entered on the dashboard, "acetone" before "Zinc". *)
Definition dash_two : StreamlitApp.state :=
  snd (StreamlitApp.add_reagent (mkDate 2026 1 15)
         (snd (StreamlitApp.add_reagent (mkDate 2026 1 15) dash_fresh
                 (StreamlitApp.mkAddForm "acetone" "67-64-1" "Sigma" "Tom" ""
                    2 "L" None 1)))
         (StreamlitApp.mkAddForm "Zinc" "7440-66-6" "Merck" "Jerry" ""
            5 "g" None 1)).

(** *** States of the dashboard *)

(** The memo, when filled, is the listing of the database as it stands. *)
Definition coherent (s : StreamlitApp.state) : Prop :=
  match StreamlitApp.cache s with
  | Some df => df = StreamlitApp.select_reagents (StreamlitApp.store s)
  | None => True
  end.

(** The primary key is a key, and no quantity or threshold is negative. *)
Definition sound_db (d : StreamlitApp.db) : Prop :=
  NoDup (map StreamlitApp.id (StreamlitApp.reagents d)) /\
  Forall (fun r => (0 <= StreamlitApp.quantity r)%Q /\
                   (0 <= StreamlitApp.low_stock_threshold r)%Q)
         (StreamlitApp.reagents d).

Definition well_formed (s : StreamlitApp.state) : Prop :=
  coherent s /\ sound_db (StreamlitApp.store s).

(** The states the dashboard can be in: the fresh one, and those the
    steps of its script lead to. *)
Inductive reachable : StreamlitApp.state -> Prop :=
| reach_fresh : reachable dash_fresh
| reach_expire s : reachable s -> reachable (StreamlitApp.expire s)
| reach_load s : reachable s -> reachable (snd (StreamlitApp.load_reagents s))
| reach_save today ses s edit_id f :
    reachable s ->
    reachable (snd (StreamlitApp.save_changes today ses s edit_id f))
| reach_delete ses s to_delete :
    reachable s ->
    reachable (snd (StreamlitApp.confirm_delete ses s to_delete))
| reach_import s df_excel :
    reachable s ->
    reachable (snd (StreamlitApp.confirm_import s df_excel))
| reach_add today s f :
    reachable s ->
    reachable (snd (StreamlitApp.add_reagent today s f))
| reach_usage ses now s f :
    reachable s ->
    reachable (snd (StreamlitApp.record_usage ses now s f))
| reach_init s : reachable s -> reachable (StreamlitApp.run_init_db s).

(** *** Counting alerts *)

Definition web_is_low (a : App.alert) : bool :=
  match a with App.LowStock _ _ _ => true | App.Expired _ => false end.

Definition web_is_expired (a : App.alert) : bool :=
  match a with App.LowStock _ _ _ => false | App.Expired _ => true end.

(** The seeded administrator of the web app. *)
Definition web_admin : App.User := App.mkUser 1 "admin" "admin123" "admin".

(** *** The header of an uploaded sheet *)

(** The no-break space U+00A0, in UTF-8. *)
Definition nbsp : string := String "194"%char (String "160"%char "").

(** Every label of the header is ASCII text once stripped; on such text
    [str.lower] changes the ASCII letters and nothing else. *)
Definition ascii_labels (columns : list string) : Prop :=
  Forall (fun h => Text.is_ascii (Text.strip h) = true) columns.

(** A header whose first label is padded with a space and a no-break
    space. *)
Definition sample_header : list string :=
  [" ITEM" ++ nbsp; "Supplier Item Identifier"].

(** *** The users of the dashboard *)

(** The two accounts [init_db] seeds. *)
Definition seeded (x : StreamlitApp.User) : Prop :=
  (StreamlitApp.username x = "admin" /\
   StreamlitApp.password_hash x = Sha256.hexdigest "admin123" /\
   StreamlitApp.role x = "admin") \/
  (StreamlitApp.username x = "user" /\
   StreamlitApp.password_hash x = Sha256.hexdigest "user123" /\
   StreamlitApp.role x = "user").

(** Both seeded names are in the users table. *)
Definition has_seeds (d : StreamlitApp.db) : Prop :=
  In "admin" (map StreamlitApp.username (StreamlitApp.users d)) /\
  In "user" (map StreamlitApp.username (StreamlitApp.users d)).

(** The largest rowid the users table holds or ever gave. *)
Definition users_high (d : StreamlitApp.db) : Z :=
  Z.max (fold_right Z.max 0 (map StreamlitApp.u_id (StreamlitApp.users d)))
        (StreamlitApp.users_seq d).

(** [d'] holds the rows of [d] in its three tables, and the counters of
    the reagents and of the usage logs stand as in [d]. *)
Definition same_tables (d d' : StreamlitApp.db) : Prop :=
  StreamlitApp.users d' = StreamlitApp.users d /\
  StreamlitApp.reagents d' = StreamlitApp.reagents d /\
  StreamlitApp.reagents_seq d' = StreamlitApp.reagents_seq d /\
  StreamlitApp.usage_logs d' = StreamlitApp.usage_logs d /\
  StreamlitApp.usage_logs_seq d' = StreamlitApp.usage_logs_seq d.

(** An entry of the ledger records a use of 0.01 or more. *)
Definition positive_use (l : StreamlitApp.UsageLog) : Prop :=
  (0 < StreamlitApp.quantity_used l)%Q /\
  (1 # 100 <= StreamlitApp.quantity_used l)%Q.

(** *** Writes to the dashboard's database *)

(** The rows deleted by "Confirm Delete Selected". *)
Definition not_selected (to_delete : list Z) (r : StreamlitApp.Reagent) : bool :=
  negb (existsb (Z.eqb (StreamlitApp.id r)) to_delete).

(** The single writes the script commits, with what the widgets
    guarantee of their inputs. *)
Inductive written (d : StreamlitApp.db) : StreamlitApp.db -> Prop :=
| wr_update edit_id f :
    (0 <= StreamlitApp.e_quantity f)%Q ->
    (0 <= StreamlitApp.e_threshold f)%Q ->
    In (StreamlitApp.e_unit f) StreamlitApp.units ->
    written d
      (StreamlitApp.set_reagents d
         (map (StreamlitApp.update_row edit_id f) (StreamlitApp.reagents d)))
| wr_delete to_delete :
    written d
      (StreamlitApp.set_reagents d
         (filter (not_selected to_delete) (StreamlitApp.reagents d)))
| wr_insert n cas sup loc q u e t :
    (0 <= q)%Q -> (0 <= t)%Q -> In u StreamlitApp.units ->
    written d (StreamlitApp.insert_reagent d n cas sup loc q u e t)
| wr_deduct sel q who now note :
    (1 # 100 <= q)%Q ->
    written d
      (StreamlitApp.insert_usage_log
         (StreamlitApp.set_reagents d
            (map (StreamlitApp.deduct q sel) (StreamlitApp.reagents d)))
         sel who q now note)
| wr_init : written d (StreamlitApp.init_db d).

(** Any number of writes, one after the other. *)
Inductive writes : StreamlitApp.db -> StreamlitApp.db -> Prop :=
| writes_none d : writes d d
| writes_more d d' d'' : written d d' -> writes d' d'' -> writes d d''.

(** The ids of the reagents table. *)
Definition reagent_ids (d : StreamlitApp.db) : list Z :=
  map StreamlitApp.id (StreamlitApp.reagents d).

(** The runs that edit or delete reagents in the catalogue. *)
Definition is_edit (a : StreamlitApp.action) : bool :=
  match a with
  | StreamlitApp.SaveChanges _ _ _ | StreamlitApp.ConfirmDelete _ => true
  | _ => false
  end.

(** The dashboard before anyone has logged in. *)
Definition dash_start : StreamlitApp.session_state * StreamlitApp.state :=
  (None, dash_fresh).

(** *** The admin tab of the dashboard *)

(** [c] occurs in [s]. *)
Fixpoint has_char (c : ascii) (s : string) : bool :=
  match s with
  | EmptyString => false
  | String x s' => Ascii.eqb c x || has_char c s'
  end.

(** A rendering of numbers that never writes a capital E: Python's
    [:.2f] and [str] of a float write digits, a sign, a point, and in
    lower case the exponent mark, inf and nan. *)
Definition no_capital_E (render : Q -> string) : Prop :=
  forall q, has_char "E" (render q) = false.

(** The row's expiration date is set and before [today]. *)
Definition dash_expired (today : date) (r : StreamlitApp.Reagent) : bool :=
  match StreamlitApp.expiration_date r with
  | Some d => date_ltb d today
  | None => false
  end.

(** Lowry reagent, 50 mL over a threshold of 10, expired on 2025-01-01. *)
Definition lowry : StreamlitApp.Reagent :=
  StreamlitApp.mkReagent 1 "Lowry reagent" None None "Shelf 2" 50 "mL"
    (Some (mkDate 2025 1 1)) 10.

(** ** Dates *)

Lemma date_ltb_spec (d1 d2 : date) : date_ltb d1 d2 = true <-> date_lt d1 d2.
Proof.
  unfold date_ltb, date_lt.
  rewrite !orb_true_iff, !andb_true_iff, !orb_true_iff, !andb_true_iff.
  rewrite !Z.ltb_lt, !Z.eqb_eq. tauto.
Qed.

Lemma date_lt_irrefl (d : date) : ~ date_lt d d.
Proof. unfold date_lt. lia. Qed.

Lemma date_lt_trans (a b c : date) : date_lt a b -> date_lt b c -> date_lt a c.
Proof. unfold date_lt. lia. Qed.

Lemma date_eqb_spec (d1 d2 : date) : date_eqb d1 d2 = true <-> d1 = d2.
Proof.
  destruct d1 as [y1 m1 a1], d2 as [y2 m2 a2]. unfold date_eqb. simpl.
  rewrite !andb_true_iff, !Z.eqb_eq. split.
  - intros [[-> ->] ->]. reflexivity.
  - intros H. injection H as -> -> ->. auto.
Qed.

(** ** Text primitives on examples *)

Example strip_examples :
  Text.strip "  NaCl  " = "NaCl" /\
  Text.strip "   " = "" /\
  Text.strip "sodium chloride" = "sodium chloride" /\
  Text.strip "nan" = "nan" /\
  Text.lower "NaCl 99%" = "nacl 99%".
Proof. repeat split. Qed.

Example substring_examples :
  Text.substring_nocase "nacl" "Pure NaCl, 99%" = true /\
  Text.substring_nocase "kcl" "Pure NaCl, 99%" = false /\
  Text.substring_nocase "" "" = true.
Proof. repeat split. Qed.

Example like_examples :
  App.like "%a_c%" "xxABCxx" = true /\
  App.like "%a_c%" "xxACxx" = false /\
  App.like "%%" "" = true /\
  App.like "nacl" "NaCl" = true /\
  App.like "nacl" "NaCl " = false.
Proof. repeat split. Qed.

Example re_examples :
  option_map (fun re => SampleRe.re_search re "NaCl")
             (SampleRe.re_compile "a.l") = Some true /\
  option_map (fun re => SampleRe.re_search re "NaCl")
             (SampleRe.re_compile "ACL") = Some true /\
  option_map (fun re => SampleRe.re_search re "NaCl")
             (SampleRe.re_compile "a.c") = Some false.
Proof. repeat split. Qed.

(** White space beyond ASCII is stripped as well: the no-break space,
    the ideographic space U+3000, the line separator U+2028; a letter
    with an accent is not. *)
Example strip_unicode_examples :
  Text.strip nbsp = "" /\
  Text.strip (nbsp ++ "NaCl" ++ nbsp ++ " ") = "NaCl" /\
  Text.strip (String "227" (String "128" (String "128" "Item"))) = "Item" /\
  Text.strip ("Item" ++ String "226" (String "128" (String "168" "")))
  = "Item" /\
  Text.strip (String "195" (String "137" "ther"))
  = String "195" (String "137" "ther") /\
  Text.is_ascii "Item" = true /\
  Text.is_ascii nbsp = false.
Proof. vm_compute. repeat split. Qed.

(** ** Floats *)

(** 1.0 - 0.3 is the double 0.7, not the exact difference of the two
    doubles; 100 - 95 and 5 - 10 are exact; the least positive double
    minus its half is zero. *)
Example float_sub_examples :
  Float.sub 1 (5404319552844595 # 18014398509481984)
  = (3152519739159347 # 4503599627370496)%Q /\
  (1 - (5404319552844595 # 18014398509481984)
   == 12610078956637389 # 18014398509481984)%Q /\
  Float.sub 100 95 = 5%Q /\
  Float.sub 5 10 = (-5 # 1)%Q /\
  Float.sub (1 # Z.to_pos (2 ^ 1074)) (1 # Z.to_pos (2 ^ 1075)) = 0%Q.
Proof. vm_compute. repeat split. Qed.

Lemma nearest_even_nonneg (num den : Z) :
  0 <= num -> 0 < den -> 0 <= Float.nearest_even num den.
Proof.
  intros Hn Hd. unfold Float.nearest_even.
  pose proof (Z.div_pos num den Hn Hd) as Hq.
  destruct (2 * (num mod den) <? den); [exact Hq|].
  destruct (den <? 2 * (num mod den)); [lia|].
  destruct (Z.even (num / den)); lia.
Qed.

Lemma float_round_pos_nonneg (n d : positive) : (0 <= Float.round_pos n d)%Q.
Proof.
  unfold Float.round_pos.
  set (k := Z.max (Float.floor_log2 n d - 52) (-1074)).
  destruct (0 <=? k) eqn:K.
  - apply Z.leb_le in K.
    assert (H : 0 <= Float.nearest_even (Z.pos n) (Z.pos d * 2 ^ k)).
    { apply nearest_even_nonneg; [lia|].
      apply Z.mul_pos_pos; [lia | apply Z.pow_pos_nonneg; lia]. }
    assert (P : 0 <= 2 ^ k) by (apply Z.pow_nonneg; lia).
    unfold Qle, inject_Z. cbn [Qnum Qden]. nia.
  - rewrite Qred_correct.
    assert (H : 0 <= Float.nearest_even (Z.pos n * 2 ^ (- k)) (Z.pos d)).
    { apply nearest_even_nonneg; [|lia].
      apply Z.mul_nonneg_nonneg; [lia | apply Z.pow_nonneg; lia]. }
    unfold Qle. cbn [Qnum Qden]. lia.
Qed.

(** Rounding keeps the sign: the double nearest a number that is not
    negative is not negative. *)
Lemma float_round_nonneg (x : Q) : (0 <= x)%Q -> (0 <= Float.round x)%Q.
Proof.
  intros H. unfold Float.round. destruct x as [n d]. cbn [Qnum Qden].
  destruct n as [|n|n].
  - apply Qle_refl.
  - apply float_round_pos_nonneg.
  - exfalso. revert H. unfold Qle. cbn [Qnum Qden]. lia.
Qed.

Lemma float_sub_nonneg (a b : Q) : (b <= a)%Q -> (0 <= Float.sub a b)%Q.
Proof.
  intros H. apply float_round_nonneg.
  unfold Qminus. apply -> Qle_minus_iff. exact H.
Qed.

(** ** SHA-256 test vectors *)

Example sha256_empty :
  Sha256.hexdigest "" =
  "e3b0c44298fc1c149afbf4c8996fb92427ae41e4649b934ca495991b7852b855".
Proof. vm_compute. reflexivity. Qed.

Example sha256_abc :
  Sha256.hexdigest "abc" =
  "ba7816bf8f01cfea414140de5dae2223b00361a396177a9cb410ff61f20015ad".
Proof. vm_compute. reflexivity. Qed.

(** A message of two blocks (FIPS 180-4, 56 bytes). *)
Example sha256_two_blocks :
  Sha256.hexdigest "abcdbcdecdefdefgefghfghighijhijkijkljklmklmnlmnomnopnopq" =
  "248d6a61d20638b8e5c026930c3e6039a33ce45964ff2167f6ecedd419db06c1".
Proof. vm_compute. reflexivity. Qed.

(** ** The web app's usage route *)

Example web_nacl_quantities :
  App.create_tables App.empty_db = Ok web_fresh /\
  map App.quantity (App.reagents web_nacl) = [100%Q] /\
  App.log_usage web_nacl 1 2 95 None 0 = Ok web_nacl_5 /\
  map App.quantity (App.reagents web_nacl_5) = [5%Q].
Proof. vm_compute. repeat split. Qed.

(** C1, at the failing input.  With 5 g of NaCl left, [log_usage] of 10 g
    raises nothing: it commits, and the stored quantity is -5, below
    zero. *)
Theorem web_log_usage_overdraws :
  exists d,
    App.log_usage web_nacl_5 1 2 10 None 1 = Ok d /\
    map App.quantity (App.reagents d) = [(-5 # 1)%Q] /\
    Forall (fun r => (App.quantity r < 0)%Q) (App.reagents d).
Proof.
  eexists. split; [vm_compute; reflexivity|]. split; [reflexivity|].
  repeat constructor.
Qed.

(** C2, at the failing input.  The same call, 10 g asked of the 5 g left:
    the deduction is not refused, the quantity changes and the ledger
    gains the entry. *)
Theorem web_log_usage_writes_beyond_stock :
  exists d,
    App.log_usage web_nacl_5 1 2 10 None 1 = Ok d /\
    map App.quantity (App.reagents web_nacl_5) = [5%Q] /\
    map App.quantity (App.reagents d) = [(-5 # 1)%Q] /\
    App.usage_logs d =
      (App.usage_logs web_nacl_5 ++ [App.mkUsageLog 2 1 2 10 1 None])%list.
Proof.
  eexists. split; [vm_compute; reflexivity|]. repeat split.
Qed.

(** C6, at the failing inputs.  [log_usage] takes a quantity of zero and
    a negative quantity: neither is refused, each appends its ledger
    entry, and the negative one raises the stock from 5 to 10. *)
Theorem web_log_usage_takes_nonpositive :
  exists d0 d1,
    App.log_usage web_nacl_5 1 2 0 None 1 = Ok d0 /\
    App.usage_logs d0 =
      (App.usage_logs web_nacl_5 ++ [App.mkUsageLog 2 1 2 0 1 None])%list /\
    App.log_usage web_nacl_5 1 2 (-5 # 1) None 1 = Ok d1 /\
    map App.quantity (App.reagents d1) = [10%Q] /\
    App.usage_logs d1 =
      (App.usage_logs web_nacl_5 ++
         [App.mkUsageLog 2 1 2 (-5 # 1) 1 None])%list.
Proof.
  do 2 eexists. split; [vm_compute; reflexivity|]. split; [reflexivity|].
  split; [vm_compute; reflexivity|]. split; reflexivity.
Qed.

(** What [log_usage] does on a known id, whatever the quantity: it
    deducts and appends, and raises only on an unknown id, when it writes
    nothing. *)
Lemma web_log_usage_known (d : App.db) (rid u : Z) (q : Q)
    (n : option string) (t : instant) (r : App.Reagent) :
  App.get d rid = Some r ->
  App.log_usage d rid u q n t =
    Ok (App.mkDb (App.users d)
          (map (App.deduct rid q) (App.reagents d))
          (App.usage_logs d ++
             [App.mkUsageLog (App.next_id (map App.log_id (App.usage_logs d)))
                rid u q t n])).
Proof. intros H. unfold App.log_usage. rewrite H. reflexivity. Qed.

Lemma web_log_usage_unknown (d : App.db) (rid u : Z) (q : Q)
    (n : option string) (t : instant) :
  App.get d rid = None ->
  App.log_usage d rid u q n t = Raise App.NotFound404.
Proof. intros H. unfold App.log_usage. rewrite H. reflexivity. Qed.

(** ** Alert evaluator *)

Section Alerts.

Variable today : date.

Lemma alerts_of_low_stock (r : StreamlitApp.Reagent) :
  In (low_stock_alert r) (StreamlitApp.alerts_of today r) <->
  (StreamlitApp.quantity r <= StreamlitApp.low_stock_threshold r)%Q.
Proof.
  unfold StreamlitApp.alerts_of, StreamlitApp.low_stock, low_stock_alert.
  rewrite in_app_iff, <- Qle_bool_iff.
  destruct (Qle_bool _ _); simpl.
  - intuition.
  - split; [|discriminate].
    intros [[]|H].
    destruct (StreamlitApp.expiration_date r) as [d|]; [|contradiction].
    destruct (date_ltb d today); simpl in H; [|contradiction].
    destruct H as [H|[]]. discriminate H.
Qed.

Lemma web_alerts_of_low_stock (r : App.Reagent) :
  In (web_low_stock_alert r) (App.alerts_of today r) <->
  (App.quantity r <= App.low_stock_threshold r)%Q.
Proof.
  unfold App.alerts_of, App.low_stock, web_low_stock_alert.
  rewrite in_app_iff, <- Qle_bool_iff.
  destruct (Qle_bool _ _); simpl.
  - intuition.
  - split; [|discriminate].
    intros [[]|H].
    destruct (App.expired today r); simpl in H; [|contradiction].
    destruct H as [H|[]]. discriminate H.
Qed.

Lemma alerts_of_expired (r : StreamlitApp.Reagent) (d : date) :
  In (StreamlitApp.Expired (StreamlitApp.name r) d)
     (StreamlitApp.alerts_of today r) <->
  StreamlitApp.expiration_date r = Some d /\ date_lt d today.
Proof.
  unfold StreamlitApp.alerts_of. rewrite in_app_iff, <- date_ltb_spec.
  split.
  - intros [H|H].
    + destruct (StreamlitApp.low_stock r); simpl in H;
        [destruct H as [H|[]]; discriminate H | contradiction].
    + destruct (StreamlitApp.expiration_date r) as [e|]; [|contradiction].
      destruct (date_ltb e today) eqn:E; simpl in H; [|contradiction].
      destruct H as [H|[]]. injection H as <-. auto.
  - intros [-> ->]. right. left. reflexivity.
Qed.

Lemma web_alerts_of_expired (r : App.Reagent) :
  In (App.Expired (App.name r)) (App.alerts_of today r) <->
  exists d, App.expiration_date r = Some d /\ date_lt d today.
Proof.
  unfold App.alerts_of, App.expired. rewrite in_app_iff.
  split.
  - intros [H|H].
    + destruct (App.low_stock r); simpl in H;
        [destruct H as [H|[]]; discriminate H | contradiction].
    + destruct (App.expiration_date r) as [e|]; [|contradiction].
      destruct (date_ltb e today) eqn:E; simpl in H; [|contradiction].
      exists e. rewrite <- date_ltb_spec. auto.
  - intros [d [-> H]]. apply date_ltb_spec in H. rewrite H.
    right. left. reflexivity.
Qed.

End Alerts.

Lemma alerts_of_LowStock_inv (today : date) (r : StreamlitApp.Reagent)
    (n : string) (q : Q) (u : string) (t : Q) :
  In (StreamlitApp.LowStock n q u t) (StreamlitApp.alerts_of today r) ->
  StreamlitApp.LowStock n q u t = low_stock_alert r /\
  (StreamlitApp.quantity r <= StreamlitApp.low_stock_threshold r)%Q.
Proof.
  intros H. assert (E : StreamlitApp.LowStock n q u t = low_stock_alert r).
  { unfold StreamlitApp.alerts_of in H. apply in_app_or in H.
    destruct H as [H|H].
    - destruct (StreamlitApp.low_stock r); simpl in H; [|contradiction].
      destruct H as [H|[]]. symmetry. exact H.
    - destruct (StreamlitApp.expiration_date r) as [d|]; [|contradiction].
      destruct (date_ltb d today); simpl in H; [|contradiction].
      destruct H as [H|[]]. discriminate H. }
  split; [exact E|]. rewrite E in H. apply alerts_of_low_stock in H. exact H.
Qed.

Lemma alerts_of_Expired_inv (today : date) (r : StreamlitApp.Reagent)
    (n : string) (d : date) :
  In (StreamlitApp.Expired n d) (StreamlitApp.alerts_of today r) ->
  n = StreamlitApp.name r /\
  StreamlitApp.expiration_date r = Some d /\ date_lt d today.
Proof.
  intros H. assert (E : n = StreamlitApp.name r).
  { unfold StreamlitApp.alerts_of in H. apply in_app_or in H.
    destruct H as [H|H].
    - destruct (StreamlitApp.low_stock r); simpl in H; [|contradiction].
      destruct H as [H|[]]. discriminate H.
    - destruct (StreamlitApp.expiration_date r) as [e|]; [|contradiction].
      destruct (date_ltb e today); simpl in H; [|contradiction].
      destruct H as [H|[]]. injection H as <- _. reflexivity. }
  split; [exact E|]. subst n. apply alerts_of_expired in H. exact H.
Qed.

Lemma web_alerts_of_Expired_inv (today : date) (r : App.Reagent) (n : string) :
  In (App.Expired n) (App.alerts_of today r) ->
  n = App.name r /\
  exists d, App.expiration_date r = Some d /\ date_lt d today.
Proof.
  intros H. assert (E : n = App.name r).
  { unfold App.alerts_of in H. apply in_app_or in H.
    destruct H as [H|H].
    - destruct (App.low_stock r); simpl in H; [|contradiction].
      destruct H as [H|[]]. discriminate H.
    - destruct (App.expired today r); simpl in H; [|contradiction].
      destruct H as [H|[]]. injection H as <-. reflexivity. }
  split; [exact E|]. subst n. apply web_alerts_of_expired in H. exact H.
Qed.

(** C3.  In both front-ends the loop emits the low-stock alert of a row
    exactly when its quantity is at most its threshold: equality flags, a
    quantity of zero flags under every threshold that is not negative,
    and the decision is the same whatever the row's expiration date.  On
    the dashboard's whole frame the alert of a listed row is present
    exactly under that condition; in the web app the alert list holds the
    alerts of the stored rows and nothing else. *)
Theorem low_stock_alert_iff_quantity_le_threshold (today : date) :
  (forall r,
      In (low_stock_alert r) (StreamlitApp.alerts_of today r) <->
      (StreamlitApp.quantity r <= StreamlitApp.low_stock_threshold r)%Q) /\
  (forall df r, In r df ->
      (In (low_stock_alert r) (StreamlitApp.alerts today df) <->
       (StreamlitApp.quantity r <= StreamlitApp.low_stock_threshold r)%Q)) /\
  (forall r e,
      In (low_stock_alert r)
         (StreamlitApp.alerts_of today (with_expiration r e)) <->
      In (low_stock_alert r) (StreamlitApp.alerts_of today r)) /\
  (forall r,
      (0 <= StreamlitApp.low_stock_threshold r)%Q ->
      (StreamlitApp.quantity r == 0)%Q ->
      In (low_stock_alert r) (StreamlitApp.alerts_of today r)) /\
  (forall r,
      In (web_low_stock_alert r) (App.alerts_of today r) <->
      (App.quantity r <= App.low_stock_threshold r)%Q) /\
  (forall d a,
      In a (App.index_alerts today d) <->
      exists r, In r (App.reagents d) /\ In a (App.alerts_of today r)) /\
  (forall r e,
      In (web_low_stock_alert r)
         (App.alerts_of today (web_with_expiration r e)) <->
      In (web_low_stock_alert r) (App.alerts_of today r)) /\
  (forall r,
      (0 <= App.low_stock_threshold r)%Q ->
      (App.quantity r == 0)%Q ->
      In (web_low_stock_alert r) (App.alerts_of today r)).
Proof.
  repeat apply conj.
  - apply alerts_of_low_stock.
  - intros df r Hr. unfold StreamlitApp.alerts. rewrite in_flat_map. split.
    + intros [r2 [_ H]]. destruct r as [i n c s l q u e t].
      apply alerts_of_LowStock_inv in H. destruct H as [E H].
      unfold low_stock_alert in E. simpl in *.
      injection E as _ -> _ ->. exact H.
    + intros H. exists r. split; [exact Hr|].
      apply alerts_of_low_stock. exact H.
  - intros r e.
    change (low_stock_alert r) with (low_stock_alert (with_expiration r e))
      at 1.
    rewrite !alerts_of_low_stock. reflexivity.
  - intros r Ht Hq. apply alerts_of_low_stock. rewrite Hq. exact Ht.
  - apply web_alerts_of_low_stock.
  - intros d a. unfold App.index_alerts. rewrite in_flat_map. reflexivity.
  - intros r e.
    change (web_low_stock_alert r)
      with (web_low_stock_alert (web_with_expiration r e)) at 1.
    rewrite !web_alerts_of_low_stock. reflexivity.
  - intros r Ht Hq. apply web_alerts_of_low_stock. rewrite Hq. exact Ht.
Qed.

(** The theorem on the empty bottle, whose quantity and threshold are
    both zero: it is flagged in both front-ends. *)
Lemma low_stock_alert_iff_quantity_le_threshold_witness :
  (0 <= StreamlitApp.low_stock_threshold empty_bottle)%Q /\
  (StreamlitApp.quantity empty_bottle == 0)%Q /\
  In (low_stock_alert empty_bottle)
     (StreamlitApp.alerts_of (mkDate 2026 1 15) empty_bottle) /\
  In (web_low_stock_alert web_empty_bottle)
     (App.alerts_of (mkDate 2026 1 15) web_empty_bottle).
Proof.
  destruct (low_stock_alert_iff_quantity_le_threshold (mkDate 2026 1 15))
    as [_ [_ [_ [Z1 [_ [_ [_ Z2]]]]]]].
  assert (H0 : (0 <= 0)%Q) by apply Qle_refl.
  assert (H1 : (0 == 0)%Q) by reflexivity.
  split; [exact H0|]. split; [exact H1|]. split.
  - apply (Z1 empty_bottle); [exact H0 | exact H1].
  - apply (Z2 web_empty_bottle); [exact H0 | exact H1].
Defined.

(** C4.  In both front-ends the loop emits the expired alert of a row
    exactly when the row has an expiration date and that date is strictly
    before today; a row that expires today, or has no date, gets none.
    On the whole table the expired alerts are those of such rows. *)
Theorem expired_alert_iff_date_before_today (today : date) :
  (forall r d,
      In (StreamlitApp.Expired (StreamlitApp.name r) d)
         (StreamlitApp.alerts_of today r) <->
      StreamlitApp.expiration_date r = Some d /\ date_lt d today) /\
  (forall r n d,
      StreamlitApp.expiration_date r = Some today \/
      StreamlitApp.expiration_date r = None ->
      ~ In (StreamlitApp.Expired n d) (StreamlitApp.alerts_of today r)) /\
  (forall df n d,
      In (StreamlitApp.Expired n d) (StreamlitApp.alerts today df) <->
      exists r, In r df /\ StreamlitApp.name r = n /\
                StreamlitApp.expiration_date r = Some d /\
                date_lt d today) /\
  (forall r,
      In (App.Expired (App.name r)) (App.alerts_of today r) <->
      exists d, App.expiration_date r = Some d /\ date_lt d today) /\
  (forall r n,
      App.expiration_date r = Some today \/ App.expiration_date r = None ->
      ~ In (App.Expired n) (App.alerts_of today r)) /\
  (forall d n,
      In (App.Expired n) (App.index_alerts today d) <->
      exists r e, In r (App.reagents d) /\ App.name r = n /\
                  App.expiration_date r = Some e /\ date_lt e today).
Proof.
  repeat apply conj.
  - intros r d. apply alerts_of_expired.
  - intros r n d H Hin. apply alerts_of_Expired_inv in Hin.
    destruct Hin as [_ [E L]]. destruct H as [H|H]; rewrite H in E.
    + injection E as <-. exact (date_lt_irrefl _ L).
    + discriminate E.
  - intros df n d. unfold StreamlitApp.alerts. rewrite in_flat_map. split.
    + intros [r [Hr H]]. apply alerts_of_Expired_inv in H.
      destruct H as [-> [E L]]. exists r. auto.
    + intros [r [Hr [<- [E L]]]]. exists r. split; [exact Hr|].
      apply alerts_of_expired. auto.
  - intros r. apply web_alerts_of_expired.
  - intros r n H Hin. apply web_alerts_of_Expired_inv in Hin.
    destruct Hin as [_ [d [E L]]]. destruct H as [H|H]; rewrite H in E.
    + injection E as <-. exact (date_lt_irrefl _ L).
    + discriminate E.
  - intros d n. unfold App.index_alerts. rewrite in_flat_map. split.
    + intros [r [Hr H]]. apply web_alerts_of_Expired_inv in H.
      destruct H as [-> [e [E L]]]. exists r, e. auto.
    + intros [r [e [Hr [<- [E L]]]]]. exists r. split; [exact Hr|].
      apply web_alerts_of_expired. exists e. auto.
Qed.

(** The theorem on the bottle that expires on 2026-01-15: not flagged
    on that day, flagged on the next. *)
Lemma expired_alert_iff_date_before_today_witness :
  StreamlitApp.expiration_date empty_bottle = Some (mkDate 2026 1 15) /\
  date_lt (mkDate 2026 1 15) (mkDate 2026 1 16) /\
  ~ In (StreamlitApp.Expired "EtOH" (mkDate 2026 1 15))
       (StreamlitApp.alerts_of (mkDate 2026 1 15) empty_bottle) /\
  In (StreamlitApp.Expired "EtOH" (mkDate 2026 1 15))
     (StreamlitApp.alerts_of (mkDate 2026 1 16) empty_bottle) /\
  ~ In (App.Expired "EtOH")
       (App.alerts_of (mkDate 2026 1 15) web_empty_bottle) /\
  In (App.Expired "EtOH")
     (App.alerts_of (mkDate 2026 1 16) web_empty_bottle).
Proof.
  assert (L : date_lt (mkDate 2026 1 15) (mkDate 2026 1 16)).
  { unfold date_lt. simpl. lia. }
  destruct (expired_alert_iff_date_before_today (mkDate 2026 1 15))
    as [_ [N1 [_ [_ [N2 _]]]]].
  destruct (expired_alert_iff_date_before_today (mkDate 2026 1 16))
    as [P1 [_ [_ [P2 _]]]].
  split; [reflexivity|]. split; [exact L|]. split; [|split; [|split]].
  - apply N1. left. reflexivity.
  - apply (P1 empty_bottle). split; [reflexivity | exact L].
  - apply N2. left. reflexivity.
  - apply (P2 web_empty_bottle). exists (mkDate 2026 1 15).
    split; [reflexivity | exact L].
Defined.

(** ** Authentication *)

(** In a list without two elements of the same key, [find] returns the
    element it is asked for when the predicate holds of that key only. *)
Lemma find_unique_key {A K : Type} (key : A -> K) (f : A -> bool)
    (l : list A) (x : A) :
  NoDup (map key l) -> In x l -> f x = true ->
  (forall y, In y l -> f y = true -> key y = key x) ->
  find f l = Some x.
Proof.
  induction l as [|a l IH]; simpl; intros Hnd Hin Hfx Hkey; [contradiction|].
  inversion Hnd as [|k ks Hnotin Hnd']; subst.
  destruct (f a) eqn:Hfa.
  - destruct Hin as [->|Hin]; [reflexivity|].
    exfalso. apply Hnotin. rewrite (Hkey a (or_introl eq_refl) Hfa).
    apply in_map. exact Hin.
  - destruct Hin as [->|Hin]; [congruence|].
    apply IH; auto.
Qed.

(** The UNIQUE constraint on [users.username] is kept by the only insert. *)
Lemma insert_or_ignore_user_unique (d : StreamlitApp.db) (u h r : string) :
  NoDup (map StreamlitApp.username (StreamlitApp.users d)) ->
  NoDup (map StreamlitApp.username
           (StreamlitApp.users (StreamlitApp.insert_or_ignore_user d u h r))).
Proof.
  intros H. unfold StreamlitApp.insert_or_ignore_user.
  destruct (existsb _ _) eqn:E; [exact H|]. simpl.
  rewrite map_app. simpl.
  apply NoDup_rev in H. rewrite <- (rev_involutive (_ ++ _)%list).
  apply NoDup_rev. rewrite rev_app_distr. simpl. constructor; [|exact H].
  rewrite <- in_rev, in_map_iff. intros [x [Hx Hin]].
  assert (F : existsb (fun u0 => String.eqb (StreamlitApp.username u0) u)
                (StreamlitApp.users d) = true).
  { apply existsb_exists. exists x. split; [exact Hin|].
    apply String.eqb_eq. exact Hx. }
  congruence.
Qed.

Lemma init_db_unique (d : StreamlitApp.db) :
  NoDup (map StreamlitApp.username (StreamlitApp.users d)) ->
  NoDup (map StreamlitApp.username
           (StreamlitApp.users (StreamlitApp.init_db d))).
Proof.
  intros H. unfold StreamlitApp.init_db.
  do 2 apply insert_or_ignore_user_unique. exact H.
Qed.

Lemma max_ids_nonneg (ids : list Z) : 0 <= fold_right Z.max 0 ids.
Proof. induction ids as [|a ids IH]; simpl; lia. Qed.

Lemma max_ids_snoc (ids : list Z) (x : Z) :
  fold_right Z.max 0 (ids ++ [x])%list
  = Z.max (fold_right Z.max 0 ids) (Z.max x 0).
Proof. induction ids as [|a ids IH]; simpl; lia. Qed.

Lemma username_stored (d : StreamlitApp.db) (u : string) :
  existsb (fun x => String.eqb (StreamlitApp.username x) u)
          (StreamlitApp.users d) = true <->
  In u (map StreamlitApp.username (StreamlitApp.users d)).
Proof.
  rewrite existsb_exists, in_map_iff. split.
  - intros [x [Hx E]]. apply String.eqb_eq in E. exists x. auto.
  - intros [x [E Hx]]. exists x. split; [exact Hx|].
    apply String.eqb_eq. exact E.
Qed.

(** One [INSERT OR IGNORE]: the row is appended under the next rowid
    when the name is free and dropped when it is taken; either way the
    counter of the users moves up by one, and nothing else changes. *)
Lemma insert_or_ignore_user_spec (d : StreamlitApp.db) (u h r : string) :
  exists extra,
    StreamlitApp.users (StreamlitApp.insert_or_ignore_user d u h r)
    = (StreamlitApp.users d ++ extra)%list /\
    (forall x, In x extra ->
               x = StreamlitApp.mkUser (users_high d + 1) u h r /\
               ~ In u (map StreamlitApp.username (StreamlitApp.users d))) /\
    In u (map StreamlitApp.username
            (StreamlitApp.users (StreamlitApp.insert_or_ignore_user d u h r))) /\
    StreamlitApp.users_seq (StreamlitApp.insert_or_ignore_user d u h r)
    = users_high d + 1 /\
    users_high (StreamlitApp.insert_or_ignore_user d u h r)
    = users_high d + 1 /\
    StreamlitApp.reagents (StreamlitApp.insert_or_ignore_user d u h r)
    = StreamlitApp.reagents d /\
    StreamlitApp.reagents_seq (StreamlitApp.insert_or_ignore_user d u h r)
    = StreamlitApp.reagents_seq d /\
    StreamlitApp.usage_logs (StreamlitApp.insert_or_ignore_user d u h r)
    = StreamlitApp.usage_logs d /\
    StreamlitApp.usage_logs_seq (StreamlitApp.insert_or_ignore_user d u h r)
    = StreamlitApp.usage_logs_seq d.
Proof.
  pose proof (max_ids_nonneg (map StreamlitApp.u_id (StreamlitApp.users d)))
    as Hm.
  unfold users_high, StreamlitApp.insert_or_ignore_user,
    StreamlitApp.autoincrement.
  cbn [StreamlitApp.users StreamlitApp.users_seq StreamlitApp.reagents
       StreamlitApp.reagents_seq StreamlitApp.usage_logs
       StreamlitApp.usage_logs_seq].
  destruct (existsb _ (StreamlitApp.users d)) eqn:E.
  - exists []. rewrite app_nil_r.
    split; [reflexivity|]. split; [intros x []|].
    split; [apply username_stored; exact E|].
    split; [reflexivity|]. split; [lia|]. repeat split.
  - eexists. split; [reflexivity|]. split.
    { intros x [<-|[]]. split; [reflexivity|]. intros Hin.
      apply username_stored in Hin. congruence. }
    split.
    { rewrite map_app. apply in_or_app. right. left. reflexivity. }
    split; [reflexivity|]. split.
    { rewrite map_app. cbn [map StreamlitApp.u_id].
      rewrite max_ids_snoc. lia. }
    repeat split.
Qed.

Lemma insert_or_ignore_user_present (d : StreamlitApp.db) (u h r : string) :
  In u (map StreamlitApp.username (StreamlitApp.users d)) ->
  StreamlitApp.users (StreamlitApp.insert_or_ignore_user d u h r)
  = StreamlitApp.users d.
Proof.
  intros Hin. apply username_stored in Hin.
  unfold StreamlitApp.insert_or_ignore_user. cbn [StreamlitApp.users].
  rewrite Hin. reflexivity.
Qed.

(** [init_db]: the users already stored are kept, a seeded account is
    appended for each of the two names that is missing, under a rowid
    above all that were given; the counter of the users moves up by two
    whether or not a row is appended; the other tables and counters are
    left alone. *)
Lemma init_db_spec (d : StreamlitApp.db) :
  (exists extra,
      StreamlitApp.users (StreamlitApp.init_db d)
      = (StreamlitApp.users d ++ extra)%list /\
      forall x, In x extra ->
                seeded x /\
                ~ In (StreamlitApp.username x)
                     (map StreamlitApp.username (StreamlitApp.users d)) /\
                users_high d < StreamlitApp.u_id x) /\
  has_seeds (StreamlitApp.init_db d) /\
  StreamlitApp.users_seq (StreamlitApp.init_db d) = users_high d + 2 /\
  users_high (StreamlitApp.init_db d) = users_high d + 2 /\
  StreamlitApp.reagents (StreamlitApp.init_db d) = StreamlitApp.reagents d /\
  StreamlitApp.reagents_seq (StreamlitApp.init_db d)
  = StreamlitApp.reagents_seq d /\
  StreamlitApp.usage_logs (StreamlitApp.init_db d)
  = StreamlitApp.usage_logs d /\
  StreamlitApp.usage_logs_seq (StreamlitApp.init_db d)
  = StreamlitApp.usage_logs_seq d.
Proof.
  unfold StreamlitApp.init_db, has_seeds.
  set (ha := Sha256.hexdigest "admin123").
  set (hu := Sha256.hexdigest "user123").
  destruct (insert_or_ignore_user_spec d "admin" ha "admin")
    as [e1 [U1 [X1 [P1 [S1 [M1 [R1 [RS1 [L1 LS1]]]]]]]]].
  set (d1 := StreamlitApp.insert_or_ignore_user d "admin" ha "admin") in *.
  destruct (insert_or_ignore_user_spec d1 "user" hu "user")
    as [e2 [U2 [X2 [P2 [S2 [M2 [R2 [RS2 [L2 LS2]]]]]]]]].
  set (d2 := StreamlitApp.insert_or_ignore_user d1 "user" hu "user") in *.
  split.
  { exists (e1 ++ e2)%list. split.
    - rewrite U2, U1, app_assoc. reflexivity.
    - intros x Hx. apply in_app_or in Hx. destruct Hx as [Hx|Hx].
      + destruct (X1 x Hx) as [-> Hn]. cbn [StreamlitApp.username
          StreamlitApp.u_id]. split; [left; repeat split|].
        split; [exact Hn | lia].
      + destruct (X2 x Hx) as [-> Hn]. cbn [StreamlitApp.username
          StreamlitApp.u_id]. split; [right; repeat split|].
        split; [|lia]. intros Hin. apply Hn.
        rewrite U1, map_app. apply in_or_app. left. exact Hin. }
  split.
  { split; [|exact P2]. rewrite U2, map_app. apply in_or_app. left. exact P1. }
  split; [lia|]. split; [lia|].
  repeat split; congruence.
Qed.

(** Once both seeded names are stored, [init_db] changes no row. *)
Lemma init_db_seeded (d : StreamlitApp.db) :
  has_seeds d ->
  StreamlitApp.users (StreamlitApp.init_db d) = StreamlitApp.users d.
Proof.
  intros [Ha Hu]. unfold StreamlitApp.init_db.
  rewrite insert_or_ignore_user_present.
  - apply insert_or_ignore_user_present. exact Ha.
  - rewrite insert_or_ignore_user_present; assumption.
Qed.

Lemma init_db_same_tables (d : StreamlitApp.db) :
  has_seeds d -> same_tables d (StreamlitApp.init_db d).
Proof.
  intros H. destruct (init_db_spec d) as [_ [_ [_ [_ [R [RS [L LS]]]]]]].
  split; [apply init_db_seeded; exact H|]. auto.
Qed.

Lemma has_seeds_users (d d' : StreamlitApp.db) :
  StreamlitApp.users d' = StreamlitApp.users d -> has_seeds d -> has_seeds d'.
Proof. unfold has_seeds. intros ->. auto. Qed.

Lemma login_sound (d : StreamlitApp.db) (u p r : string) :
  StreamlitApp.login d u p = Some r ->
  exists usr, In usr (StreamlitApp.users d) /\
              StreamlitApp.username usr = u /\
              StreamlitApp.password_hash usr = Sha256.hexdigest p /\
              StreamlitApp.role usr = r.
Proof.
  unfold StreamlitApp.login. intros H.
  destruct (find _ _) as [usr|] eqn:F; [|discriminate H].
  injection H as <-. apply find_some in F. destruct F as [Hin Hf].
  apply andb_true_iff in Hf. destruct Hf as [Hu Hp].
  apply String.eqb_eq in Hu, Hp. exists usr. auto.
Qed.

Lemma login_complete (d : StreamlitApp.db) (u p : string)
    (usr : StreamlitApp.User) :
  NoDup (map StreamlitApp.username (StreamlitApp.users d)) ->
  In usr (StreamlitApp.users d) ->
  StreamlitApp.username usr = u ->
  StreamlitApp.password_hash usr = Sha256.hexdigest p ->
  StreamlitApp.login d u p = Some (StreamlitApp.role usr).
Proof.
  intros Hnd Hin Hu Hp. unfold StreamlitApp.login.
  rewrite (find_unique_key StreamlitApp.username _ _ usr Hnd Hin).
  - reflexivity.
  - rewrite Hu, Hp, !String.eqb_refl. reflexivity.
  - intros y _ Hy. apply andb_true_iff in Hy. destruct Hy as [Hy _].
    apply String.eqb_eq in Hy. congruence.
Qed.

Lemma web_login_sound (w : App.db) (u p : string) (usr : App.User) :
  App.login w u p = Some usr ->
  In usr (App.users w) /\ App.username usr = u /\ App.password usr = p.
Proof.
  unfold App.login, App.find_user. intros H.
  destruct (find _ _) as [x|] eqn:F; [|discriminate H].
  destruct (String.eqb (App.password x) p) eqn:P; [|discriminate H].
  injection H as <-. apply find_some in F. destruct F as [Hin Hu].
  apply String.eqb_eq in Hu, P. auto.
Qed.

Lemma web_login_complete (w : App.db) (u p : string) (usr : App.User) :
  NoDup (map App.username (App.users w)) ->
  In usr (App.users w) -> App.username usr = u -> App.password usr = p ->
  App.login w u p = Some usr.
Proof.
  intros Hnd Hin Hu Hp. unfold App.login, App.find_user.
  rewrite (find_unique_key App.username _ _ usr Hnd Hin).
  - rewrite Hp, String.eqb_refl. reflexivity.
  - rewrite Hu. apply String.eqb_refl.
  - intros y _ Hy. apply String.eqb_eq in Hy. congruence.
Qed.

(** C8.  With user names unique, as both schemas require: the dashboard's
    login yields a role exactly when a stored user has that name, the
    SHA-256 digest of the password as its [password_hash], and that role,
    and is refused otherwise; the web app's login yields a user exactly
    when that stored user has the name and the password, and is refused
    otherwise.  On the freshly initialised stores "admin" with
    "admin123" gets the role "admin", and "admin" with "wrong" is
    refused. *)
Theorem authenticate_iff_credentials_match
    (d : StreamlitApp.db) (w : App.db) :
  NoDup (map StreamlitApp.username (StreamlitApp.users d)) ->
  NoDup (map App.username (App.users w)) ->
  (forall u p r,
      StreamlitApp.login d u p = Some r <->
      exists usr, In usr (StreamlitApp.users d) /\
                  StreamlitApp.username usr = u /\
                  StreamlitApp.password_hash usr = Sha256.hexdigest p /\
                  StreamlitApp.role usr = r) /\
  (forall u p,
      StreamlitApp.login d u p = None <->
      ~ exists usr, In usr (StreamlitApp.users d) /\
                    StreamlitApp.username usr = u /\
                    StreamlitApp.password_hash usr = Sha256.hexdigest p) /\
  (forall u p usr,
      App.login w u p = Some usr <->
      In usr (App.users w) /\ App.username usr = u /\
      App.password usr = p) /\
  (forall u p,
      App.login w u p = None <->
      ~ exists usr, In usr (App.users w) /\ App.username usr = u /\
                    App.password usr = p) /\
  StreamlitApp.login (StreamlitApp.init_db StreamlitApp.empty_db)
    "admin" "admin123" = Some "admin" /\
  StreamlitApp.login (StreamlitApp.init_db StreamlitApp.empty_db)
    "admin" "wrong" = None /\
  App.create_tables App.empty_db = Ok web_fresh /\
  option_map App.role (App.login web_fresh "admin" "admin123")
    = Some "admin" /\
  App.login web_fresh "admin" "wrong" = None.
Proof.
  intros Hd Hw. repeat apply conj.
  - intros u p r. split; [apply login_sound|].
    intros [usr [Hin [Hu [Hp <-]]]]. apply login_complete; assumption.
  - intros u p. split.
    + intros H [usr [Hin [Hu Hp]]].
      rewrite (login_complete d u p usr Hd Hin Hu Hp) in H. discriminate H.
    + intros H. destruct (StreamlitApp.login d u p) as [r|] eqn:E;
        [|reflexivity].
      exfalso. apply H. apply login_sound in E.
      destruct E as [usr [Hin [Hu [Hp _]]]]. exists usr. auto.
  - intros u p usr. split; [apply web_login_sound|].
    intros [Hin [Hu Hp]]. apply web_login_complete; assumption.
  - intros u p. split.
    + intros H [usr [Hin [Hu Hp]]].
      rewrite (web_login_complete w u p usr Hw Hin Hu Hp) in H.
      discriminate H.
    + intros H. destruct (App.login w u p) as [usr|] eqn:E; [|reflexivity].
      exfalso. apply H. exists usr. apply web_login_sound. exact E.
  - vm_compute. reflexivity.
  - vm_compute. reflexivity.
  - vm_compute. reflexivity.
  - vm_compute. reflexivity.
  - vm_compute. reflexivity.
Qed.

(** The theorem at the two fresh stores: the seeded standard user logs in
    on both front-ends. *)
Lemma authenticate_iff_credentials_match_witness :
  NoDup (map StreamlitApp.username
           (StreamlitApp.users (StreamlitApp.init_db StreamlitApp.empty_db)))
  /\ NoDup (map App.username (App.users web_fresh))
  /\ StreamlitApp.login (StreamlitApp.init_db StreamlitApp.empty_db)
       "user" "user123" = Some "user"
  /\ App.login web_fresh "user" "user123"
     = Some (App.mkUser 2 "user" "user123" "user").
Proof.
  assert (H1 : NoDup (map StreamlitApp.username
             (StreamlitApp.users (StreamlitApp.init_db StreamlitApp.empty_db)))).
  { apply init_db_unique. constructor. }
  assert (H2 : NoDup (map App.username (App.users web_fresh))).
  { vm_compute. repeat constructor; simpl; intuition discriminate. }
  split; [exact H1|]. split; [exact H2|].
  destruct (authenticate_iff_credentials_match _ _ H1 H2)
    as [S1 [_ [W1 _]]].
  split.
  - apply S1.
    exists (StreamlitApp.mkUser 2 "user" (Sha256.hexdigest "user123") "user").
    repeat split. vm_compute. right. left. reflexivity.
  - apply W1. repeat split. vm_compute. right. left. reflexivity.
Defined.

(** ** Edit policy *)

Lemma load_reagents_store (s : StreamlitApp.state) :
  StreamlitApp.store (snd (StreamlitApp.load_reagents s)) = StreamlitApp.store s.
Proof.
  unfold StreamlitApp.load_reagents.
  destruct (StreamlitApp.cache s); reflexivity.
Qed.

Lemma before_past (e : option date) (d today : date) :
  e = Some d -> date_lt d today -> StreamlitApp.before e today = true.
Proof. intros -> H. apply date_ltb_spec. exact H. Qed.

Lemma exp_notice_past (d today : date) :
  date_lt d today ->
  StreamlitApp.exp_notice today (Some d)
  = Some (StreamlitApp.AlreadyPassed d today).
Proof.
  intros H. apply date_ltb_spec in H. unfold StreamlitApp.exp_notice.
  rewrite H. reflexivity.
Qed.

(** C7.  Take an expiration date strictly before today.  Save Changes
    with that date never updates: the database is left as it was, and
    whenever the same edit without a date would be saved, the edit with
    the date ends in the error "expiration date is in the past".  The
    Add Reagent form with that date, whenever the same form without a
    date would add the reagent, shows the warning and still adds it, the
    new row carrying the past date. *)
Theorem update_rejects_past_expiration_create_warns
    (today d : date) (ses : StreamlitApp.session) (s : StreamlitApp.state)
    (edit_id : Z) (f : StreamlitApp.edit_form) (g : StreamlitApp.add_form) :
  StreamlitApp.e_exp f = Some d ->
  StreamlitApp.a_exp_date g = Some d ->
  date_lt d today ->
  (StreamlitApp.store (snd (StreamlitApp.save_changes today ses s edit_id f))
   = StreamlitApp.store s /\
   fst (StreamlitApp.save_changes today ses s edit_id f)
   <> StreamlitApp.ReagentUpdated /\
   (fst (StreamlitApp.save_changes today ses s edit_id (edit_with_exp f None))
    = StreamlitApp.ReagentUpdated ->
    fst (StreamlitApp.save_changes today ses s edit_id f)
    = StreamlitApp.ExpirationInPast today)) /\
  (forall n l,
      snd (fst (StreamlitApp.add_reagent today s (add_with_exp g None)))
      = StreamlitApp.Added n l ->
      exists i cas sup q u t,
        StreamlitApp.add_reagent today s g =
        (Some (StreamlitApp.AlreadyPassed d today),
         StreamlitApp.Added n l,
         StreamlitApp.cache_clear
           (StreamlitApp.insert_reagent (StreamlitApp.store s)
              n cas sup l q u (Some d) t)) /\
        StreamlitApp.reagents
          (StreamlitApp.store (snd (StreamlitApp.add_reagent today s g)))
        = (StreamlitApp.reagents (StreamlitApp.store s) ++
           [StreamlitApp.mkReagent i n cas sup l q u (Some d) t])%list).
Proof.
  intros He Ha Hlt. split.
  - unfold StreamlitApp.save_changes.
    pose proof (load_reagents_store s) as Hs.
    destruct (StreamlitApp.load_reagents s) as [df s1]. simpl in Hs.
    destruct f as [fn fc fs fl fq fu fe ft]. simpl in *. subst fe.
    destruct (negb _); [simpl; repeat split; auto; discriminate|].
    destruct (find _ df) as [r|]; [|simpl; repeat split; auto; discriminate].
    destruct (StreamlitApp.number_input 0 None _ fq);
      [|simpl; repeat split; auto; discriminate].
    destruct (StreamlitApp.selectbox _ (StreamlitApp.unit r));
      [|simpl; repeat split; auto; discriminate].
    destruct (StreamlitApp.selectbox _ fu);
      [|simpl; repeat split; auto; discriminate].
    destruct (StreamlitApp.number_input 0 None _ ft);
      [|simpl; repeat split; auto; discriminate].
    rewrite (before_past _ d today eq_refl Hlt). simpl.
    repeat split; auto. discriminate.
  - intros n l. unfold StreamlitApp.add_reagent.
    pose proof (load_reagents_store s) as Hs.
    destruct (StreamlitApp.load_reagents s) as [df s1]. simpl in Hs.
    destruct g as [gn gc gs gp gl gq gu ge gt]. simpl in *. subst ge.
    unfold StreamlitApp.form_errors, StreamlitApp.final_location. simpl.
    destruct (StreamlitApp.selectbox _ gp); [|discriminate].
    destruct (StreamlitApp.number_input 0 None 0 gq) as [q|]; [|discriminate].
    destruct (StreamlitApp.selectbox _ gu) as [u|]; [|discriminate].
    destruct (StreamlitApp.number_input 0 None 1 gt) as [t|]; [|discriminate].
    pose proof (proj2 (date_ltb_spec d today) Hlt) as Hb. rewrite Hb.
    destruct (_ ++ _)%list; [|discriminate].
    simpl. intros H. injection H as <- <-. rewrite Hs.
    do 6 eexists. split; reflexivity.
Qed.

(** The theorem on the dashboard holding NaCl, on 2026-01-15, for an
    admin's edit and a new entry dated 2025-12-31: the edit is refused
    with the error, the entry is added. *)
Lemma update_rejects_past_expiration_create_warns_witness :
  date_lt (mkDate 2025 12 31) (mkDate 2026 1 15) /\
  fst (StreamlitApp.save_changes (mkDate 2026 1 15) admin_session dash_nacl 1
         past_edit)
  = StreamlitApp.ExpirationInPast (mkDate 2026 1 15) /\
  StreamlitApp.store
    (snd (StreamlitApp.save_changes (mkDate 2026 1 15) admin_session dash_nacl
            1 past_edit))
  = StreamlitApp.store dash_nacl /\
  fst (StreamlitApp.add_reagent (mkDate 2026 1 15) dash_nacl past_entry)
  = (Some (StreamlitApp.AlreadyPassed (mkDate 2025 12 31) (mkDate 2026 1 15)),
     StreamlitApp.Added "KCl" "Cabinet B").
Proof.
  assert (L : date_lt (mkDate 2025 12 31) (mkDate 2026 1 15)).
  { unfold date_lt. simpl. lia. }
  destruct (update_rejects_past_expiration_create_warns
              (mkDate 2026 1 15) (mkDate 2025 12 31) admin_session dash_nacl 1
              past_edit past_entry eq_refl eq_refl L)
    as [[U1 [_ U2]] C].
  split; [exact L|]. split; [apply U2; vm_compute; reflexivity|].
  split; [exact U1|].
  destruct (C "KCl" "Cabinet B") as [i [c [sp [q [u [t [E _]]]]]]].
  - vm_compute. reflexivity.
  - rewrite E. reflexivity.
Defined.

(** ** Bulk import *)

Lemma import_row_kept (d : StreamlitApp.db) (k : Z)
    (row : StreamlitApp.Series) :
  kept row = true ->
  StreamlitApp.import_row (d, k) row =
  (StreamlitApp.insert_reagent d (name_of row)
     (StreamlitApp.cas_number (reagent_of_row 0 row))
     (StreamlitApp.supplier (reagent_of_row 0 row))
     "Default Location" 1 "bottles" None 1,
   k + 1).
Proof.
  unfold kept, name_of, StreamlitApp.import_row. intros H. rewrite H.
  reflexivity.
Qed.

Lemma import_row_skipped (d : StreamlitApp.db) (k : Z)
    (row : StreamlitApp.Series) :
  kept row = false -> StreamlitApp.import_row (d, k) row = (d, k).
Proof.
  unfold kept, name_of, StreamlitApp.import_row. intros H. rewrite H.
  reflexivity.
Qed.

(** The loop over a sheet: the reagents table grows by one row for each
    kept row, in order, made as [reagent_of_row] says; the count grows by
    their number; the other tables stay. *)
Lemma import_rows_spec (rows : list StreamlitApp.Series) :
  forall (d : StreamlitApp.db) (k : Z),
  exists new,
    StreamlitApp.reagents (fst (fold_left StreamlitApp.import_row rows (d, k)))
    = (StreamlitApp.reagents d ++ new)%list /\
    Forall2 (fun r row => exists i, r = reagent_of_row i row)
            new (filter kept rows) /\
    snd (fold_left StreamlitApp.import_row rows (d, k))
    = k + Z.of_nat (List.length (filter kept rows)) /\
    StreamlitApp.users (fst (fold_left StreamlitApp.import_row rows (d, k)))
    = StreamlitApp.users d /\
    StreamlitApp.usage_logs
      (fst (fold_left StreamlitApp.import_row rows (d, k)))
    = StreamlitApp.usage_logs d.
Proof.
  induction rows as [|row rows IH]; intros d k; cbn [fold_left filter].
  - exists []. rewrite app_nil_r. simpl. repeat split; [constructor | lia].
  - destruct (kept row) eqn:K.
    + rewrite (import_row_kept d k row K).
      destruct (IH (StreamlitApp.insert_reagent d (name_of row)
                      (StreamlitApp.cas_number (reagent_of_row 0 row))
                      (StreamlitApp.supplier (reagent_of_row 0 row))
                      "Default Location" 1 "bottles" None 1) (k + 1))
        as [new [E [F [C [U L]]]]].
      eexists (_ :: new). split.
      { rewrite E. cbn [StreamlitApp.insert_reagent StreamlitApp.reagents].
        rewrite <- app_assoc. reflexivity. }
      split.
      * constructor; [|exact F]. eexists. reflexivity.
      * rewrite C, U, L. cbn [List.length]. repeat split. lia.
    + rewrite (import_row_skipped d k row K). apply IH.
Qed.

Lemma Forall2_In_right {A B : Type} (P : A -> B -> Prop)
    (l1 : list A) (l2 : list B) (y : B) :
  Forall2 P l1 l2 -> In y l2 -> exists x, In x l1 /\ P x y.
Proof.
  induction 1 as [|a b l1 l2 Hab _ IH]; simpl; [contradiction|].
  intros [<-|Hin].
  - exists a. auto.
  - destruct (IH Hin) as [x [Hx Hp]]. exists x. auto.
Qed.

(** The import button on a sheet: the reagents table gains, in order,
    one row per kept row of the sheet, each with the fixed location,
    quantity, unit, expiration date and threshold; the count reported is
    the number of kept rows, or "no valid rows" when there is none. *)
Lemma confirm_import_spec (s : StreamlitApp.state)
    (rows : list StreamlitApp.Series) :
  exists new,
    StreamlitApp.reagents
      (StreamlitApp.store (snd (StreamlitApp.confirm_import s rows)))
    = (StreamlitApp.reagents (StreamlitApp.store s) ++ new)%list /\
    Forall2 (fun r row => exists i, r = reagent_of_row i row)
            new (filter kept rows) /\
    fst (StreamlitApp.confirm_import s rows)
    = (if 0 <? Z.of_nat (List.length (filter kept rows))
       then StreamlitApp.Imported (Z.of_nat (List.length (filter kept rows)))
       else StreamlitApp.NoValidRows).
Proof.
  unfold StreamlitApp.confirm_import.
  pose proof (load_reagents_store s) as Hs.
  destruct (StreamlitApp.load_reagents s) as [df s1]. simpl in Hs.
  destruct (import_rows_spec rows (StreamlitApp.store s1) 0)
    as [new [E [F [C _]]]].
  destruct (fold_left _ rows _) as [d imported]. simpl in E, C.
  change (0 + ?x) with x in C. subst imported. rewrite Hs in E.
  exists new. destruct (0 <? _); simpl; auto.
Qed.

(** C10.  A row whose name cell is the not-a-number of an empty cell:
    [str] turns the cell into the text "nan" before the blank check, the
    check lets the row through, and the loop inserts a reagent named
    "nan" and counts it.  A sheet holding such a row ends with a reagent
    named "nan" among the rows the import adds, and reports a count. *)
Theorem nan_name_cell_imported_as_nan
    (row : StreamlitApp.Series) (d : StreamlitApp.db) (k : Z) :
  row "name" = Some StreamlitApp.CNaN ->
  StreamlitApp.str (StreamlitApp.row_get row "name" "") = "nan" /\
  Text.nonempty (Text.strip "nan") = true /\
  (exists cas sup,
      StreamlitApp.import_row (d, k) row =
      (StreamlitApp.insert_reagent d "nan" cas sup "Default Location" 1
         "bottles" None 1,
       k + 1)) /\
  (forall s rows, In row rows ->
      exists new r n,
        StreamlitApp.reagents
          (StreamlitApp.store (snd (StreamlitApp.confirm_import s rows)))
        = (StreamlitApp.reagents (StreamlitApp.store s) ++ new)%list /\
        In r new /\ StreamlitApp.name r = "nan" /\
        fst (StreamlitApp.confirm_import s rows) = StreamlitApp.Imported n /\
        0 < n).
Proof.
  intros H.
  assert (N : name_of row = "nan").
  { unfold name_of, StreamlitApp.row_get. rewrite H. reflexivity. }
  assert (K : kept row = true).
  { unfold kept. rewrite N. reflexivity. }
  split; [unfold StreamlitApp.row_get; rewrite H; reflexivity|].
  split; [reflexivity|]. split.
  - do 2 eexists. rewrite (import_row_kept d k row K), N. reflexivity.
  - intros s rows Hin.
    destruct (confirm_import_spec s rows) as [new [E [F C]]].
    assert (Hk : In row (filter kept rows)).
    { apply filter_In. auto. }
    destruct (Forall2_In_right _ _ _ _ F Hk) as [r [Hr [i Hi]]].
    assert (L : 0 < Z.of_nat (List.length (filter kept rows))).
    { destruct (filter kept rows); [contradiction | simpl; lia]. }
    exists new, r, (Z.of_nat (List.length (filter kept rows))).
    split; [exact E|]. split; [exact Hr|]. split.
    + rewrite Hi. simpl. exact N.
    + rewrite C. apply Z.ltb_lt in L. rewrite L. split; [reflexivity|].
      apply Z.ltb_lt. exact L.
Qed.

(** The theorem on the second row of the sample sheet, whose Item cell
    is empty. *)
Lemma nan_name_cell_imported_as_nan_witness :
  sheet_row StreamlitApp.CNaN (StreamlitApp.CStr "Merck") "name"
  = Some StreamlitApp.CNaN /\
  exists cas sup,
    StreamlitApp.import_row
      (StreamlitApp.init_db StreamlitApp.empty_db, 0)
      (sheet_row StreamlitApp.CNaN (StreamlitApp.CStr "Merck")) =
    (StreamlitApp.insert_reagent (StreamlitApp.init_db StreamlitApp.empty_db)
       "nan" cas sup "Default Location" 1 "bottles" None 1,
     0 + 1).
Proof.
  split; [reflexivity|].
  exact (proj1 (proj2 (proj2
    (nan_name_cell_imported_as_nan
       (sheet_row StreamlitApp.CNaN (StreamlitApp.CStr "Merck"))
       (StreamlitApp.init_db StreamlitApp.empty_db) 0 eq_refl)))).
Defined.

(** C5, at the failing input.  Of the three rows of the sample sheet one
    has a name that is not blank; the row with the empty Item cell is not
    skipped: the import reports 2 and the table holds a reagent named
    "nan" beside NaCl. *)
Theorem bulk_import_keeps_row_with_empty_name_cell :
  List.length sheet = 3%nat /\
  List.length (filter (fun row => negb (spec_blank_name row)) sheet) = 1%nat /\
  fst (StreamlitApp.confirm_import dash_fresh sheet)
  = StreamlitApp.Imported 2 /\
  map StreamlitApp.name
    (StreamlitApp.reagents
       (StreamlitApp.store (snd (StreamlitApp.confirm_import dash_fresh sheet))))
  = ["NaCl"; "nan"].
Proof. vm_compute. repeat split. Qed.

(** ** Text *)

Lemma eqb_nocase_spec (a b : ascii) :
  Text.eqb_nocase a b = true <-> Text.lower_char a = Text.lower_char b.
Proof. unfold Text.eqb_nocase. apply Ascii.eqb_eq. Qed.

Lemma prefix_nocase_spec (s t : string) :
  Text.prefix_nocase s t = true <->
  exists post, Text.lower t = Text.lower s ++ post.
Proof.
  revert t. induction s as [|a s IH]; intros t; simpl.
  - split; [|reflexivity]. intros _. exists (Text.lower t). reflexivity.
  - destruct t as [|b t]; simpl.
    + split; [discriminate|]. intros [post H]. discriminate H.
    + rewrite andb_true_iff, eqb_nocase_spec, IH. split.
      * intros [-> [post ->]]. exists post. reflexivity.
      * intros [post H]. injection H as -> H. split; [reflexivity|].
        exists post. exact H.
Qed.

Lemma substring_nocase_spec (s t : string) :
  Text.substring_nocase s t = true <-> ci_substring s t.
Proof.
  unfold ci_substring. induction t as [|c t IH]; simpl.
  - rewrite orb_false_r, prefix_nocase_spec. split.
    + intros [post H]. exists "", post. exact H.
    + intros [pre [post H]]. destruct pre; [|discriminate H].
      exists post. exact H.
  - rewrite orb_true_iff, prefix_nocase_spec, IH. split.
    + intros [[post H]|[pre [post H]]].
      * exists "", post. exact H.
      * exists (String (Text.lower_char c) pre), post. simpl. rewrite H.
        reflexivity.
    + intros [pre [post H]]. destruct pre as [|x pre].
      * left. exists post. exact H.
      * right. simpl in H. injection H as _ H. exists pre, post. exact H.
Qed.

(** ** Order of names *)

Lemma ascii_compare_refl (c : ascii) : Ascii.compare c c = Eq.
Proof. unfold Ascii.compare. apply N.compare_refl. Qed.

Lemma ascii_compare_lt_trans (a b c : ascii) :
  Ascii.compare a b = Lt -> Ascii.compare b c = Lt -> Ascii.compare a c = Lt.
Proof.
  unfold Ascii.compare. rewrite !N.compare_lt_iff. apply N.lt_trans.
Qed.

Lemma string_leb_trans (a b c : string) :
  String.leb a b = true -> String.leb b c = true -> String.leb a c = true.
Proof.
  unfold String.leb. revert b c.
  induction a as [|x a IH]; intros [|y b] [|z c]; simpl; try easy.
  destruct (Ascii.compare x y) eqn:Exy; try easy;
    destruct (Ascii.compare y z) eqn:Eyz; try easy.
  - apply Ascii.compare_eq_iff in Exy, Eyz. subst.
    rewrite ascii_compare_refl. apply IH.
  - apply Ascii.compare_eq_iff in Exy. subst. rewrite Eyz. reflexivity.
  - apply Ascii.compare_eq_iff in Eyz. subst. rewrite Exy. reflexivity.
  - rewrite (ascii_compare_lt_trans _ _ _ Exy Eyz). reflexivity.
Qed.

Lemma insert_by_name_In (r x : StreamlitApp.Reagent)
    (l : list StreamlitApp.Reagent) :
  In x (StreamlitApp.insert_by_name r l) <-> x = r \/ In x l.
Proof.
  induction l as [|a l IH]; simpl.
  - intuition.
  - destruct (String.leb _ _); simpl; [intuition|].
    rewrite IH. intuition.
Qed.

Lemma insert_by_name_sorted (r : StreamlitApp.Reagent)
    (l : list StreamlitApp.Reagent) :
  StronglySorted name_le l ->
  StronglySorted name_le (StreamlitApp.insert_by_name r l).
Proof.
  induction 1 as [|a l Hs IH Ha]; simpl.
  - repeat constructor.
  - destruct (String.leb (StreamlitApp.name r) (StreamlitApp.name a)) eqn:E.
    + constructor; [constructor; assumption|].
      constructor; [exact E|].
      rewrite Forall_forall in Ha |- *. intros x Hx.
      apply (string_leb_trans _ (StreamlitApp.name a)); [exact E|].
      apply Ha. exact Hx.
    + constructor; [exact IH|].
      rewrite Forall_forall in Ha |- *. intros x Hx.
      apply insert_by_name_In in Hx. destruct Hx as [->|Hx].
      * destruct (String.leb_total (StreamlitApp.name a) (StreamlitApp.name r))
          as [T|T]; [exact T|congruence].
      * apply Ha. exact Hx.
Qed.

Lemma insert_by_name_perm (r : StreamlitApp.Reagent)
    (l : list StreamlitApp.Reagent) :
  Permutation (r :: l) (StreamlitApp.insert_by_name r l).
Proof.
  induction l as [|a l IH]; simpl.
  - apply Permutation_refl.
  - destruct (String.leb _ _); [apply Permutation_refl|].
    eapply perm_trans; [apply perm_swap|]. apply perm_skip. exact IH.
Qed.

(** [ORDER BY name] sorts and neither adds nor drops a row. *)
Lemma order_by_name_sorted (l : list StreamlitApp.Reagent) :
  StronglySorted name_le (StreamlitApp.order_by_name l).
Proof.
  induction l as [|a l IH]; simpl.
  - constructor.
  - apply insert_by_name_sorted. exact IH.
Qed.

Lemma order_by_name_perm (l : list StreamlitApp.Reagent) :
  Permutation l (StreamlitApp.order_by_name l).
Proof.
  induction l as [|a l IH]; simpl.
  - constructor.
  - eapply perm_trans; [apply perm_skip, IH|]. apply insert_by_name_perm.
Qed.

Lemma filter_sorted {A : Type} (R : A -> A -> Prop) (f : A -> bool)
    (l : list A) :
  StronglySorted R l -> StronglySorted R (filter f l).
Proof.
  induction 1 as [|a l Hs IH Ha]; simpl.
  - constructor.
  - destruct (f a); [|exact IH].
    constructor; [exact IH|].
    rewrite Forall_forall in Ha |- *. intros x Hx.
    apply filter_In in Hx. apply Ha. tauto.
Qed.

(** ** Catalogue search *)

Lemma dot_is_meta (c : ascii) :
  Ascii.eqb c "."%char = true -> is_meta c = true.
Proof. intros H. apply Ascii.eqb_eq in H. subst c. reflexivity. Qed.

Lemma re_compile_plain (s : string) :
  no_meta s = true ->
  SampleRe.re_compile s = Some (map SampleRe.Lit (list_ascii_of_string s)).
Proof.
  induction s as [|c s IH]; simpl; [reflexivity|].
  rewrite andb_true_iff, negb_true_iff. intros [Hc Hs].
  rewrite (IH Hs), Hc.
  destruct (Ascii.eqb c "."%char) eqn:E; [|reflexivity].
  apply dot_is_meta in E. congruence.
Qed.

Lemma re_match_plain (s t : string) :
  SampleRe.re_match (map SampleRe.Lit (list_ascii_of_string s)) t
  = Text.prefix_nocase s t.
Proof.
  revert t. induction s as [|a s IH]; intros [|b t]; simpl; try reflexivity.
  rewrite IH. reflexivity.
Qed.

Lemma re_search_plain (s t : string) :
  SampleRe.re_search (map SampleRe.Lit (list_ascii_of_string s)) t
  = Text.substring_nocase s t.
Proof.
  induction t as [|b t IH]; simpl.
  - rewrite re_match_plain. reflexivity.
  - rewrite re_match_plain, IH. reflexivity.
Qed.

(** The sample matcher meets both assumptions on [re]. *)
Lemma sample_re_literal : re_literal SampleRe.re_compile SampleRe.re_search.
Proof.
  intros pat Hm _. eexists. split; [apply re_compile_plain; exact Hm|].
  intros s _. apply re_search_plain.
Qed.

Lemma sample_re_dot : re_dot SampleRe.re_compile SampleRe.re_search.
Proof.
  exists [SampleRe.AnyChar]. split; [reflexivity|].
  intros s. unfold has_visible.
  induction s as [|c s IH]; [reflexivity|].
  cbn [SampleRe.re_search SampleRe.re_match SampleRe.atom_matches
       list_ascii_of_string existsb].
  rewrite IH. destruct s; rewrite andb_true_r; reflexivity.
Qed.

Lemma ci_substring_empty (t : string) : ci_substring "" t.
Proof. exists "", (Text.lower t). reflexivity. Qed.

(** [LIKE] with a leading [%] tries the rest of the pattern at every
    suffix of the text. *)
Lemma like_percent (pat s : string) :
  App.like (String "%"%char pat) s = like_suffix pat s.
Proof.
  induction s as [|c s IH].
  - reflexivity.
  - change (App.like (String "%"%char pat) (String c s))
      with (App.like pat (String c s) || App.like (String "%"%char pat) s).
    rewrite IH. reflexivity.
Qed.

Lemma like_suffix_empty (s : string) : like_suffix "" s = true.
Proof. induction s as [|c s IH]; simpl; [reflexivity | exact IH]. Qed.

Lemma like_plain_then_percent (p s : string) :
  no_wildcard p = true ->
  App.like (p ++ "%") s = Text.prefix_nocase p s.
Proof.
  revert s. induction p as [|a p IH]; intros s H.
  - change ("" ++ "%") with (String "%"%char "").
    rewrite like_percent. apply like_suffix_empty.
  - simpl in H. rewrite !andb_true_iff, !negb_true_iff in H.
    destruct H as [[H1 H2] H3].
    change (String a p ++ "%") with (String a (p ++ "%")).
    destruct s as [|c s]; simpl; rewrite H1; [reflexivity|].
    rewrite H2, (IH s H3). reflexivity.
Qed.

Lemma like_contains (p s : string) :
  no_wildcard p = true ->
  App.like ("%" ++ p ++ "%") s = Text.substring_nocase p s.
Proof.
  intros H. change ("%" ++ p ++ "%") with (String "%"%char (p ++ "%")).
  rewrite like_percent.
  induction s as [|c s IH]; simpl.
  - rewrite (like_plain_then_percent p "" H). reflexivity.
  - rewrite (like_plain_then_percent p _ H), IH. reflexivity.
Qed.

Lemma contains_plain (p : string) (column : option string) :
  no_wildcard p = true ->
  (App.contains column p = Some true <-> ci_substring_opt p column).
Proof.
  intros H. destruct column as [t|]; unfold App.contains, ci_substring_opt.
  - rewrite (like_contains p t H), <- substring_nocase_spec.
    split; [intros E; injection E; auto | intros ->; reflexivity].
  - split; [discriminate | contradiction].
Qed.

Lemma sql_or_true (a b : option bool) :
  App.sql_or a b = Some true <-> a = Some true \/ b = Some true.
Proof.
  destruct a as [[|]|], b as [[|]|]; simpl; split; intros H;
    try (destruct H as [H|H]); try discriminate H; auto.
Qed.

Lemma sql_true_spec (a : option bool) : App.sql_true a = true <-> a = Some true.
Proof.
  destruct a as [[|]|]; simpl; split; intros H; try discriminate H; auto.
Qed.

Lemma filter_all {A : Type} (l : list A) : filter (fun _ => true) l = l.
Proof. induction l as [|a l IH]; simpl; [|rewrite IH]; reflexivity. Qed.

Lemma select_reagents_In (d : StreamlitApp.db) (r : StreamlitApp.Reagent) :
  In r (StreamlitApp.select_reagents d) <-> In r (StreamlitApp.reagents d).
Proof.
  unfold StreamlitApp.select_reagents. split; apply Permutation_in.
  - apply Permutation_sym, order_by_name_perm.
  - apply order_by_name_perm.
Qed.

(** C9, at the failing inputs.  In the web app the search text "_"
    returns both rows of a store in which no underscore occurs, in the
    name, the CAS number or the location of either: the text is read as a
    pattern of [LIKE], in which [_] stands for any one character.  The
    rows come in the order they were entered, zinc before acetone, not in
    the order of their names.  The dashboard lists by character code:
    "Zinc", entered last, comes before "acetone". *)
Theorem search_text_is_read_as_pattern :
  (map App.name (App.index_reagents web_two "_") = ["Zinc"; "Acetone"] /\
   forall r, In r (App.reagents web_two) -> ~ web_matches "_" r) /\
  (map App.name (App.index_reagents web_two "") = ["Zinc"; "Acetone"] /\
   String.leb "Zinc" "Acetone" = false) /\
  (map StreamlitApp.name (StreamlitApp.reagents (StreamlitApp.store dash_two))
   = ["acetone"; "Zinc"] /\
   map StreamlitApp.name
     (fst (StreamlitApp.load_reagents dash_two))
   = ["Zinc"; "acetone"]).
Proof.
  split; [|split].
  - split; [vm_compute; reflexivity|].
    intros r Hr. unfold web_matches.
    assert (E : r = App.mkReagent 1 "Zinc" (Some "7440-66-6") (Some "Merck")
                      (Some "Shelf B") 5 "g" None 1 \/
                r = App.mkReagent 2 "Acetone" (Some "67-64-1") (Some "Sigma")
                      (Some "Shelf C") 2 "L" None 1).
    { vm_compute in Hr. intuition. }
    destruct E as [-> | ->]; simpl; unfold ci_substring_opt;
      rewrite <- !substring_nocase_spec; vm_compute; intuition discriminate.
  - split; vm_compute; reflexivity.
  - split; vm_compute; reflexivity.
Qed.

(** ** The search on plain text, and on a full stop *)

Section SearchWithRe.

Variable pattern : Type.
Variable re_compile : string -> option pattern.
Variable re_search : pattern -> string -> bool.

Lemma str_contains_literal (s : string) (p : pattern)
    (cell : option string) :
  (forall t, Text.is_ascii t = true ->
             re_search p t = Text.substring_nocase s t) ->
  (forall t, cell = Some t -> Text.is_ascii t = true) ->
  (StreamlitApp.str_contains re_search p cell = true <->
   ci_substring_opt s cell).
Proof.
  intros Hp Ha. destruct cell as [t|]; simpl.
  - rewrite (Hp t (Ha t eq_refl)). apply substring_nocase_spec.
  - split; [discriminate | contradiction].
Qed.

(** X20.  The search on plain text.  Take [re] as Python has it on ASCII
    text, and a search text of ASCII characters.  On the dashboard, when
    the text has no metacharacter of regular expressions and the stored
    names, CAS numbers and locations are ASCII text, the catalogue
    displays the rows of [load_reagents]'s listing in which the text
    occurs, up to the case of letters, in the name, the CAS number or the
    location, these and no others, in ascending order of name by
    character code.  In the web app, when the text has neither [%] nor
    [_], the index returns the stored rows in which the text occurs, up
    to the case of ASCII letters, in one of the three columns, these and
    no others, in the order of the table. *)
Theorem search_plain_text_finds_substrings
    (d : StreamlitApp.db) (w : App.db) (s : string) :
  re_literal re_compile re_search ->
  Text.is_ascii s = true ->
  (no_meta s = true ->
   Forall ascii_row (StreamlitApp.reagents d) ->
   exists rows f,
     StreamlitApp.display_df re_compile re_search s
       (StreamlitApp.select_reagents d) = Some rows /\
     rows = filter f (StreamlitApp.select_reagents d) /\
     (forall r, In r (StreamlitApp.reagents d) ->
                (f r = true <-> matches s r)) /\
     (forall r, In r rows <-> In r (StreamlitApp.reagents d) /\ matches s r) /\
     StronglySorted name_le rows) /\
  (no_wildcard s = true ->
   exists f,
     App.index_reagents w s = filter f (App.reagents w) /\
     (forall r, f r = true <-> web_matches s r) /\
     (forall r,
         In r (App.index_reagents w s) <->
         In r (App.reagents w) /\ web_matches s r)).
Proof.
  intros Hre Hs. split.
  - intros Hm Ha. rewrite Forall_forall in Ha.
    assert (G : forall f,
        (forall r, In r (StreamlitApp.reagents d) ->
                   (f r = true <-> matches s r)) ->
        (forall r, In r (filter f (StreamlitApp.select_reagents d)) <->
                   In r (StreamlitApp.reagents d) /\ matches s r) /\
        StronglySorted name_le (filter f (StreamlitApp.select_reagents d))).
    { intros f Hf. split.
      - intros r. rewrite filter_In, select_reagents_In. split.
        + intros [Hin E]. split; [exact Hin|]. apply (Hf r Hin). exact E.
        + intros [Hin M]. split; [exact Hin|]. apply (Hf r Hin). exact M.
      - apply filter_sorted, order_by_name_sorted. }
    unfold StreamlitApp.display_df.
    destruct (Text.nonempty s) eqn:E.
    + destruct (Hre s Hm Hs) as [p [Ec Ep]]. rewrite Ec.
      eexists. eexists. split; [reflexivity|]. split; [reflexivity|].
      assert (Hf : forall r, In r (StreamlitApp.reagents d) ->
        (StreamlitApp.str_contains re_search p (Some (StreamlitApp.name r)) ||
         StreamlitApp.str_contains re_search p (StreamlitApp.cas_number r) ||
         StreamlitApp.str_contains re_search p
           (Some (StreamlitApp.location r)) = true <-> matches s r)).
      { intros r Hr. destruct (Ha r Hr) as [An [Ac Al]]. unfold matches.
        rewrite !orb_true_iff.
        rewrite (str_contains_literal s p (Some (StreamlitApp.name r)) Ep),
                (str_contains_literal s p (StreamlitApp.cas_number r) Ep),
                (str_contains_literal s p (Some (StreamlitApp.location r)) Ep).
        - simpl. tauto.
        - intros t H. injection H as <-. exact Al.
        - exact Ac.
        - intros t H. injection H as <-. exact An. }
      split; [exact Hf|]. apply (G _ Hf).
    + destruct s; [|discriminate E].
      exists (StreamlitApp.select_reagents d), (fun _ => true).
      split; [reflexivity|]. split; [symmetry; apply filter_all|].
      assert (Hf : forall r : StreamlitApp.Reagent,
                 In r (StreamlitApp.reagents d) ->
                 (true = true <-> matches "" r)).
      { intros r _. split; [|reflexivity]. intros _. left.
        apply ci_substring_empty. }
      split; [exact Hf|].
      rewrite <- (filter_all (StreamlitApp.select_reagents d)).
      apply (G (fun _ => true) Hf).
  - intros Hw.
    assert (Hf : forall r,
      App.sql_true (App.index_where s r) = true <-> web_matches s r).
    { intros r. unfold App.index_where, web_matches.
      rewrite sql_true_spec, !sql_or_true.
      rewrite !(contains_plain s _ Hw). simpl. tauto. }
    eexists. split; [reflexivity|]. split; [exact Hf|].
    intros r. unfold App.index_reagents. rewrite filter_In, Hf. reflexivity.
Qed.

(** X21.  The search on a full stop.  Take [.] as Python's [re] reads
    it: any character but the newline.  On the dashboard the search text
    "." displays, of the listing, exactly the rows that have such a
    character in the name, the CAS number or the location, in the order of
    the listing: every row whose name begins with another character than
    the newline is displayed, whether or not a full stop occurs in it. *)
Theorem dashboard_search_full_stop_finds_any_text (d : StreamlitApp.db) :
  re_dot re_compile re_search ->
  StreamlitApp.display_df re_compile re_search "."
    (StreamlitApp.select_reagents d)
  = Some (filter shown_by_dot (StreamlitApp.select_reagents d)) /\
  (forall r c rest,
      In r (StreamlitApp.reagents d) ->
      StreamlitApp.name r = String c rest ->
      c <> "010"%char ->
      exists rows,
        StreamlitApp.display_df re_compile re_search "."
          (StreamlitApp.select_reagents d) = Some rows /\
        In r rows).
Proof.
  intros [p [Ec Ep]].
  assert (E : StreamlitApp.display_df re_compile re_search "."
                (StreamlitApp.select_reagents d)
              = Some (filter shown_by_dot (StreamlitApp.select_reagents d))).
  { unfold StreamlitApp.display_df. cbn [Text.nonempty]. rewrite Ec.
    f_equal. apply filter_ext. intros r.
    unfold StreamlitApp.str_contains, shown_by_dot. rewrite !Ep.
    destruct (StreamlitApp.cas_number r); [rewrite Ep|]; reflexivity. }
  split; [exact E|].
  intros r c rest Hin Hn Hc. eexists. split; [exact E|].
  apply filter_In. split; [apply select_reagents_In; exact Hin|].
  unfold shown_by_dot, has_visible. rewrite Hn.
  cbn [list_ascii_of_string existsb].
  destruct (Ascii.eqb c "010"%char) eqn:Eq;
    [apply Ascii.eqb_eq in Eq; contradiction | reflexivity].
Qed.

End SearchWithRe.

(** The theorem for the search text "nacl" on the stores holding NaCl:
    both front-ends find the row. *)
Lemma search_plain_text_finds_substrings_witness :
  re_literal SampleRe.re_compile SampleRe.re_search /\
  Text.is_ascii "nacl" = true /\
  no_meta "nacl" = true /\
  Forall ascii_row (StreamlitApp.reagents (StreamlitApp.store dash_nacl)) /\
  no_wildcard "nacl" = true /\
  (exists r, In r (StreamlitApp.reagents (StreamlitApp.store dash_nacl)) /\
             matches "nacl" r) /\
  map App.name (App.index_reagents web_nacl "nacl") = ["NaCl"] /\
  forall r, In r (App.index_reagents web_nacl "nacl") ->
            web_matches "nacl" r.
Proof.
  assert (A : Forall ascii_row
                (StreamlitApp.reagents (StreamlitApp.store dash_nacl))).
  { vm_compute. repeat constructor.
    intros c H. injection H as <-. reflexivity. }
  split; [exact sample_re_literal|]. split; [reflexivity|].
  split; [reflexivity|]. split; [exact A|]. split; [reflexivity|].
  destruct (search_plain_text_finds_substrings _ _ _
              (StreamlitApp.store dash_nacl) web_nacl "nacl"
              sample_re_literal eq_refl) as [D W].
  destruct (D eq_refl A) as [rows [f [E [_ [_ [M _]]]]]].
  destruct (W eq_refl) as [g [_ [_ N]]].
  split.
  - vm_compute in E. injection E as <-.
    eexists. apply M. left. reflexivity.
  - split; [vm_compute; reflexivity|].
    intros r H. apply N in H. tauto.
Defined.

(** The theorem on the dashboard holding NaCl: the search text "."
    displays the NaCl row, although no full stop occurs in its name, its
    CAS number or its location. *)
Lemma dashboard_search_full_stop_finds_any_text_witness :
  re_dot SampleRe.re_compile SampleRe.re_search /\
  exists r,
    StreamlitApp.display_df SampleRe.re_compile SampleRe.re_search "."
      (StreamlitApp.select_reagents (StreamlitApp.store dash_nacl))
    = Some [r] /\
    StreamlitApp.name r = "NaCl" /\
    StreamlitApp.cas_number r = Some "7647-14-5" /\
    StreamlitApp.location r = "Tom" /\
    ~ matches "." r.
Proof.
  split; [exact sample_re_dot|].
  destruct (dashboard_search_full_stop_finds_any_text _ _ _
              (StreamlitApp.store dash_nacl) sample_re_dot) as [E _].
  eexists. split; [rewrite E; vm_compute; reflexivity|].
  repeat split.
  unfold matches. simpl. unfold ci_substring_opt.
  rewrite <- !substring_nocase_spec. vm_compute. intuition discriminate.
Defined.

(** ** States of the dashboard *)

Lemma load_reagents_listing (s : StreamlitApp.state) :
  coherent s ->
  fst (StreamlitApp.load_reagents s)
  = StreamlitApp.select_reagents (StreamlitApp.store s) /\
  coherent (snd (StreamlitApp.load_reagents s)).
Proof.
  unfold coherent, StreamlitApp.load_reagents.
  destruct (StreamlitApp.cache s) as [df|] eqn:E; simpl.
  - intros ->. rewrite E. auto.
  - auto.
Qed.

Lemma well_formed_load (s : StreamlitApp.state) :
  well_formed s -> well_formed (snd (StreamlitApp.load_reagents s)).
Proof.
  intros [C D]. split.
  - apply load_reagents_listing. exact C.
  - rewrite load_reagents_store. exact D.
Qed.

Lemma well_formed_written (d : StreamlitApp.db) :
  sound_db d -> well_formed (StreamlitApp.cache_clear d).
Proof. intros H. split; [exact I | exact H]. Qed.

Lemma in_bounds_low (lo : Q) (hi : option Q) (x : Q) :
  StreamlitApp.in_bounds lo hi x = true -> (lo <= x)%Q.
Proof.
  unfold StreamlitApp.in_bounds. rewrite andb_true_iff, Qle_bool_iff. tauto.
Qed.

Lemma in_bounds_high (lo hi x : Q) :
  StreamlitApp.in_bounds lo (Some hi) x = true -> (x <= hi)%Q.
Proof.
  unfold StreamlitApp.in_bounds. rewrite andb_true_iff, !Qle_bool_iff. tauto.
Qed.

Lemma number_input_some (lo : Q) (hi : option Q) (v x y : Q) :
  StreamlitApp.number_input lo hi v x = Some y ->
  y = x /\ StreamlitApp.in_bounds lo hi x = true.
Proof.
  unfold StreamlitApp.number_input.
  destruct (StreamlitApp.in_bounds lo hi v); simpl; [|discriminate].
  destruct (StreamlitApp.in_bounds lo hi x); [|discriminate].
  intros H. injection H as <-. auto.
Qed.

Lemma max_ids_bound (ids : list Z) (x : Z) :
  In x ids -> x <= fold_right Z.max 0 ids.
Proof.
  induction ids as [|a ids IH]; simpl; [contradiction|].
  intros [->|H]; [lia|]. specialize (IH H). lia.
Qed.

Lemma autoincrement_fresh (ids : list Z) (seq : Z) :
  ~ In (StreamlitApp.autoincrement ids seq) ids.
Proof.
  unfold StreamlitApp.autoincrement. intros H.
  apply max_ids_bound in H. lia.
Qed.

Lemma NoDup_snoc {A : Type} (l : list A) (x : A) :
  NoDup l -> ~ In x l -> NoDup (l ++ [x]).
Proof.
  intros Hl Hx. apply NoDup_rev in Hl.
  rewrite <- (rev_involutive (l ++ [x])). apply NoDup_rev.
  rewrite rev_app_distr. simpl. constructor; [|exact Hl].
  rewrite <- in_rev. exact Hx.
Qed.

Lemma sound_insert_reagent (d : StreamlitApp.db) (n : string)
    (cas sup : option string) (loc : string) (q : Q) (u : string)
    (e : option date) (t : Q) :
  (0 <= q)%Q -> (0 <= t)%Q -> sound_db d ->
  sound_db (StreamlitApp.insert_reagent d n cas sup loc q u e t).
Proof.
  intros Hq Ht [N F]. unfold sound_db, StreamlitApp.insert_reagent. simpl.
  rewrite map_app. split.
  - apply NoDup_snoc; [exact N|]. simpl. apply autoincrement_fresh.
  - apply Forall_app. split; [exact F|]. constructor; [|constructor].
    simpl. auto.
Qed.

Lemma sound_import_rows (rows : list StreamlitApp.Series) :
  forall (d : StreamlitApp.db) (k : Z),
    sound_db d ->
    sound_db (fst (fold_left StreamlitApp.import_row rows (d, k))).
Proof.
  induction rows as [|row rows IH]; intros d k H; cbn [fold_left].
  - exact H.
  - destruct (kept row) eqn:K.
    + rewrite (import_row_kept d k row K). apply IH.
      apply sound_insert_reagent; [discriminate | discriminate | exact H].
    + rewrite (import_row_skipped d k row K). apply IH. exact H.
Qed.

Lemma load_reagents_again (s : StreamlitApp.state) :
  StreamlitApp.load_reagents (snd (StreamlitApp.load_reagents s))
  = (fst (StreamlitApp.load_reagents s), snd (StreamlitApp.load_reagents s)).
Proof.
  unfold StreamlitApp.load_reagents.
  destruct (StreamlitApp.cache s) as [df|] eqn:E; simpl.
  - rewrite E. reflexivity.
  - reflexivity.
Qed.

(** ** Record Usage on the dashboard *)

(** The script run of Record Usage either writes nothing (it leaves the
    state in which the listing was loaded) and logs nothing, or it found the selected row in the listing with a positive
    quantity, took a quantity between 0.01 and that quantity, and
    committed the deduction together with the ledger entry. *)
Lemma record_usage_cases (ses : StreamlitApp.session) (now : instant)
    (s : StreamlitApp.state) (f : StreamlitApp.usage_form) :
  (snd (StreamlitApp.record_usage ses now s f)
   = snd (StreamlitApp.load_reagents s) /\
   forall q u n,
     fst (StreamlitApp.record_usage ses now s f)
     <> StreamlitApp.UsageLogged q u n) \/
  (exists row,
      In row (fst (StreamlitApp.load_reagents s)) /\
      StreamlitApp.id row = StreamlitApp.selected_id f /\
      (1 # 100 <= StreamlitApp.qty_used f)%Q /\
      (StreamlitApp.qty_used f <= StreamlitApp.quantity row)%Q /\
      StreamlitApp.record_usage ses now s f =
      (StreamlitApp.UsageLogged (StreamlitApp.qty_used f)
         (StreamlitApp.unit row) (StreamlitApp.name row),
       StreamlitApp.cache_clear
         (StreamlitApp.insert_usage_log
            (StreamlitApp.set_reagents (StreamlitApp.store s)
               (map (StreamlitApp.deduct (StreamlitApp.qty_used f)
                       (StreamlitApp.selected_id f))
                    (StreamlitApp.reagents (StreamlitApp.store s))))
            (StreamlitApp.selected_id f) (StreamlitApp.s_username ses)
            (StreamlitApp.qty_used f) now (StreamlitApp.usage_notes f)))).
Proof.
  unfold StreamlitApp.record_usage.
  pose proof (load_reagents_store s) as Hs.
  pose proof (load_reagents_again s) as Ha.
  destruct (StreamlitApp.load_reagents s) as [df s1]. simpl in Hs, Ha |- *.
  destruct df as [|r0 df0]; [left; simpl; split; [reflexivity | discriminate]|].
  cbv iota. rewrite Ha. cbv beta iota zeta. set (df := r0 :: df0) in *.
  set (usable :=
         match filter (fun r => StreamlitApp.Qlt_bool 0 (StreamlitApp.quantity r)) df with
         | [] => if StreamlitApp.show_all f then df
                 else filter (fun r => StreamlitApp.Qlt_bool 0 (StreamlitApp.quantity r)) df
         | _ :: _ =>
             filter (fun r => StreamlitApp.Qlt_bool 0 (StreamlitApp.quantity r)) df
         end).
  assert (Hu : forall r, In r usable -> In r df).
  { intros r. unfold usable.
    destruct (filter _ df) as [|x l] eqn:E.
    - destruct (StreamlitApp.show_all f); [auto | contradiction].
    - rewrite <- E. intros H. apply filter_In in H. tauto. }
  destruct (map StreamlitApp.id usable) as [|i ids] eqn:Em;
    [left; simpl; split; [reflexivity | discriminate]|].
  destruct (negb _); [left; simpl; split; [reflexivity | discriminate]|].
  destruct (StreamlitApp.selected_id f =? 0);
    [left; simpl; split; [reflexivity | discriminate]|].
  destruct (find _ usable) as [row|] eqn:Ef;
    [|left; simpl; split; [reflexivity | discriminate]].
  apply find_some in Ef. destruct Ef as [Hin Hid]. apply Z.eqb_eq in Hid.
  destruct (Qle_bool (StreamlitApp.quantity row) 0);
    [left; simpl; split; [reflexivity | discriminate]|].
  destruct (StreamlitApp.number_input _ _ _ _) as [q|] eqn:En;
    [|left; simpl; split; [reflexivity | discriminate]].
  apply number_input_some in En. destruct En as [-> Hb].
  destruct (StreamlitApp.Qlt_bool _ _) eqn:El;
    [left; simpl; split; [reflexivity | discriminate]|].
  right. exists row. split; [apply Hu; exact Hin|]. split; [exact Hid|].
  split; [exact (in_bounds_low _ _ _ Hb)|].
  split; [exact (in_bounds_high _ _ _ Hb)|].
  rewrite Hs. reflexivity.
Qed.

Lemma NoDup_map_eq {A K : Type} (key : A -> K) (l : list A) (x y : A) :
  NoDup (map key l) -> In x l -> In y l -> key x = key y -> x = y.
Proof.
  induction l as [|a l IH]; simpl; [contradiction|].
  intros Hnd Hx Hy E. inversion Hnd as [|k ks Hn Hnd']; subst.
  destruct Hx as [->|Hx], Hy as [->|Hy]; auto.
  - exfalso. apply Hn. rewrite E. apply in_map. exact Hy.
  - exfalso. apply Hn. rewrite <- E. apply in_map. exact Hx.
Qed.

Lemma deduct_id (q : Q) (rid : Z) (l : list StreamlitApp.Reagent) :
  map StreamlitApp.id (map (StreamlitApp.deduct q rid) l)
  = map StreamlitApp.id l.
Proof.
  rewrite map_map. apply map_ext. intros r. unfold StreamlitApp.deduct.
  destruct (StreamlitApp.id r =? rid); reflexivity.
Qed.

Lemma update_row_id (edit_id : Z) (f : StreamlitApp.edit_form)
    (l : list StreamlitApp.Reagent) :
  map StreamlitApp.id (map (StreamlitApp.update_row edit_id f) l)
  = map StreamlitApp.id l.
Proof.
  rewrite map_map. apply map_ext. intros r. unfold StreamlitApp.update_row.
  destruct (StreamlitApp.id r =? edit_id); reflexivity.
Qed.

(** The deduction keeps the database sound when the quantity taken is at
    most the quantity of a stored row of that id. *)
Lemma sound_deduct (d : StreamlitApp.db) (row : StreamlitApp.Reagent)
    (q : Q) (who : string) (now : instant) (note : string) :
  sound_db d ->
  In row (StreamlitApp.reagents d) ->
  (q <= StreamlitApp.quantity row)%Q ->
  sound_db
    (StreamlitApp.insert_usage_log
       (StreamlitApp.set_reagents d
          (map (StreamlitApp.deduct q (StreamlitApp.id row))
               (StreamlitApp.reagents d)))
       (StreamlitApp.id row) who q now note).
Proof.
  intros [N F] Hin Hq. unfold sound_db. simpl. rewrite deduct_id.
  split; [exact N|].
  rewrite Forall_forall in F |- *. intros r' Hr'.
  apply in_map_iff in Hr'. destruct Hr' as [r [<- Hr]].
  unfold StreamlitApp.deduct.
  destruct (StreamlitApp.id r =? StreamlitApp.id row) eqn:E.
  - apply Z.eqb_eq in E.
    assert (r = row) by (eapply NoDup_map_eq; eauto). subst r. simpl.
    split; [|apply F; exact Hin].
    apply float_sub_nonneg. exact Hq.
  - apply F. exact Hr.
Qed.

Lemma well_formed_record_usage (ses : StreamlitApp.session) (now : instant)
    (s : StreamlitApp.state) (f : StreamlitApp.usage_form) :
  well_formed s ->
  well_formed (snd (StreamlitApp.record_usage ses now s f)).
Proof.
  intros W. destruct (record_usage_cases ses now s f) as [[E _]|H].
  - rewrite E. apply well_formed_load. exact W.
  - destruct H as [row [Hin [Hid [_ [Hq E]]]]]. rewrite E. simpl.
    destruct W as [C D]. apply well_formed_written.
    rewrite (proj1 (load_reagents_listing s C)) in Hin.
    apply select_reagents_In in Hin. rewrite <- Hid.
    apply sound_deduct; assumption.
Qed.

Lemma NoDup_map_filter {A K : Type} (key : A -> K) (g : A -> bool)
    (l : list A) :
  NoDup (map key l) -> NoDup (map key (filter g l)).
Proof.
  induction l as [|a l IH]; simpl; intros H; [constructor|].
  inversion H as [|k ks Hn Hnd]; subst.
  destruct (g a); simpl; [|auto].
  constructor; [|auto].
  intros Hin. apply Hn. apply in_map_iff in Hin.
  destruct Hin as [x [E Hx]]. apply filter_In in Hx.
  rewrite <- E. apply in_map. tauto.
Qed.

Lemma sound_update_row (d : StreamlitApp.db) (edit_id : Z)
    (f : StreamlitApp.edit_form) :
  (0 <= StreamlitApp.e_quantity f)%Q ->
  (0 <= StreamlitApp.e_threshold f)%Q ->
  sound_db d ->
  sound_db (StreamlitApp.set_reagents d
              (map (StreamlitApp.update_row edit_id f)
                   (StreamlitApp.reagents d))).
Proof.
  intros Hq Ht [N F]. unfold sound_db. simpl. rewrite update_row_id.
  split; [exact N|].
  rewrite Forall_forall in F |- *. intros r' Hr'.
  apply in_map_iff in Hr'. destruct Hr' as [r [<- Hr]].
  unfold StreamlitApp.update_row.
  destruct (StreamlitApp.id r =? edit_id); simpl; auto.
Qed.

Lemma well_formed_save_changes (today : date) (ses : StreamlitApp.session)
    (s : StreamlitApp.state) (edit_id : Z) (f : StreamlitApp.edit_form) :
  well_formed s ->
  well_formed (snd (StreamlitApp.save_changes today ses s edit_id f)).
Proof.
  intros W. pose proof (well_formed_load s W) as W1.
  unfold StreamlitApp.save_changes.
  destruct (StreamlitApp.load_reagents s) as [df s1]. simpl in W1 |- *.
  destruct (negb _); [exact W1|].
  destruct (find _ df) as [r|]; [|exact W1].
  destruct (StreamlitApp.number_input 0 None _ (StreamlitApp.e_quantity f))
    as [q|] eqn:Eq; [|exact W1].
  destruct (StreamlitApp.selectbox _ (StreamlitApp.unit r)); [|exact W1].
  destruct (StreamlitApp.selectbox _ (StreamlitApp.e_unit f)); [|exact W1].
  destruct (StreamlitApp.number_input 0 None _ (StreamlitApp.e_threshold f))
    as [t|] eqn:Et; [|exact W1].
  destruct (StreamlitApp.before _ _); [exact W1|].
  apply number_input_some in Eq, Et.
  destruct Eq as [_ Eq], Et as [_ Et].
  apply in_bounds_low in Eq, Et.
  apply well_formed_written, sound_update_row; [exact Eq | exact Et |].
  exact (proj2 W1).
Qed.

Lemma well_formed_confirm_delete (ses : StreamlitApp.session)
    (s : StreamlitApp.state) (to_delete : list Z) :
  well_formed s ->
  well_formed (snd (StreamlitApp.confirm_delete ses s to_delete)).
Proof.
  intros W. pose proof (well_formed_load s W) as W1.
  unfold StreamlitApp.confirm_delete.
  destruct (StreamlitApp.load_reagents s) as [df s1]. simpl in W1 |- *.
  destruct (negb _); [exact W1|].
  destruct to_delete as [|x l]; [exact W1|].
  destruct (forallb _ _); [|exact W1].
  apply well_formed_written. destruct W1 as [_ [N F]].
  unfold sound_db. cbn [StreamlitApp.set_reagents StreamlitApp.reagents].
  split; [apply NoDup_map_filter; exact N|].
  rewrite Forall_forall in F |- *. intros r Hr. apply filter_In in Hr.
  apply F. tauto.
Qed.

Lemma well_formed_add_reagent (today : date) (s : StreamlitApp.state)
    (f : StreamlitApp.add_form) :
  well_formed s ->
  well_formed (snd (StreamlitApp.add_reagent today s f)).
Proof.
  intros W. pose proof (well_formed_load s W) as W1.
  unfold StreamlitApp.add_reagent.
  destruct (StreamlitApp.load_reagents s) as [df s1]. simpl in W1 |- *.
  destruct (StreamlitApp.selectbox _ (StreamlitApp.a_location_preset f));
    [|exact W1].
  destruct (StreamlitApp.number_input 0 None 0 _) as [q|] eqn:Eq; [|exact W1].
  destruct (StreamlitApp.selectbox _ (StreamlitApp.a_unit f)); [|exact W1].
  destruct (StreamlitApp.number_input 0 None 1 _) as [t|] eqn:Et; [|exact W1].
  destruct (StreamlitApp.form_errors f); [|exact W1].
  apply number_input_some in Eq, Et.
  destruct Eq as [-> Eq], Et as [-> Et].
  apply in_bounds_low in Eq, Et.
  apply well_formed_written, sound_insert_reagent; [exact Eq | exact Et |].
  exact (proj2 W1).
Qed.

Lemma well_formed_confirm_import (s : StreamlitApp.state)
    (rows : list StreamlitApp.Series) :
  well_formed s ->
  well_formed (snd (StreamlitApp.confirm_import s rows)).
Proof.
  intros W. pose proof (well_formed_load s W) as [C1 D1].
  unfold StreamlitApp.confirm_import.
  destruct (StreamlitApp.load_reagents s) as [df s1]. simpl in C1, D1 |- *.
  pose proof (sound_import_rows rows (StreamlitApp.store s1) 0 D1) as D.
  destruct (import_rows_spec rows (StreamlitApp.store s1) 0)
    as [new [E [F [K _]]]].
  destruct (fold_left _ rows _) as [d imported]. simpl in D, E, K.
  destruct (0 <? imported) eqn:L.
  - apply well_formed_written. exact D.
  - split; [|exact D]. unfold coherent in *. simpl.
    destruct (StreamlitApp.cache s1) as [cached|]; [|exact I].
    rewrite C1. unfold StreamlitApp.select_reagents.
    apply Z.ltb_ge in L.
    destruct (filter kept rows); [|simpl in K; lia].
    inversion F; subst. rewrite E, app_nil_r. reflexivity.
Qed.

(** Every state the dashboard reaches is well formed: the memo agrees
    with the database, ids are unique, and no quantity or threshold is
    negative. *)
Lemma reachable_well_formed (s : StreamlitApp.state) :
  reachable s -> well_formed s.
Proof.
  induction 1.
  - split; [exact I|]. split; [constructor | constructor].
  - destruct IHreachable as [_ D]. split; [exact I | exact D].
  - apply well_formed_load. assumption.
  - apply well_formed_save_changes. assumption.
  - apply well_formed_confirm_delete. assumption.
  - apply well_formed_confirm_import. assumption.
  - apply well_formed_add_reagent. assumption.
  - apply well_formed_record_usage. assumption.
  - destruct IHreachable as [C D].
    destruct (init_db_spec (StreamlitApp.store s))
      as [_ [_ [_ [_ [R _]]]]].
    unfold well_formed, coherent, sound_db, StreamlitApp.run_init_db,
      StreamlitApp.select_reagents in *.
    cbn [StreamlitApp.cache StreamlitApp.store]. rewrite R. auto.
Qed.

(** X2.  Record Usage on the dashboard is all or nothing: either the database
    is untouched and nothing is logged, or the quantity of the selected
    row becomes the double nearest that quantity less the quantity used,
    which that row covers, and the ledger gains the one entry of that
    use. *)
Theorem dashboard_usage_all_or_nothing (ses : StreamlitApp.session)
    (now : instant) (s : StreamlitApp.state) (f : StreamlitApp.usage_form) :
  (StreamlitApp.store (snd (StreamlitApp.record_usage ses now s f))
   = StreamlitApp.store s /\
   forall q u n,
     fst (StreamlitApp.record_usage ses now s f)
     <> StreamlitApp.UsageLogged q u n) \/
  (exists row i,
      In row (fst (StreamlitApp.load_reagents s)) /\
      StreamlitApp.id row = StreamlitApp.selected_id f /\
      (StreamlitApp.qty_used f <= StreamlitApp.quantity row)%Q /\
      fst (StreamlitApp.record_usage ses now s f)
      = StreamlitApp.UsageLogged (StreamlitApp.qty_used f)
          (StreamlitApp.unit row) (StreamlitApp.name row) /\
      StreamlitApp.reagents
        (StreamlitApp.store (snd (StreamlitApp.record_usage ses now s f)))
      = map (StreamlitApp.deduct (StreamlitApp.qty_used f)
               (StreamlitApp.selected_id f))
            (StreamlitApp.reagents (StreamlitApp.store s)) /\
      StreamlitApp.usage_logs
        (StreamlitApp.store (snd (StreamlitApp.record_usage ses now s f)))
      = (StreamlitApp.usage_logs (StreamlitApp.store s) ++
         [StreamlitApp.mkUsageLog i (StreamlitApp.selected_id f)
            (StreamlitApp.s_username ses) (StreamlitApp.qty_used f) now
            (StreamlitApp.usage_notes f)])%list).
Proof.
  destruct (record_usage_cases ses now s f) as [[E N]|H].
  - left. rewrite E, load_reagents_store. auto.
  - right. destruct H as [row [Hin [Hid [_ [Hq E]]]]].
    exists row. eexists. rewrite E. simpl. repeat split; assumption.
Qed.

(** X1.  On the dashboard no use is recorded beyond the stock, and no stock
    falls below zero.  In a reachable state, Record Usage leaves every
    quantity at zero or more; and when it logs a use, the quantity logged
    is the one the widget handed over, it is more than zero and at most
    the quantity the selected reagent had, and the quantity that reagent
    has afterwards is the double nearest the difference, zero or more. *)
Theorem dashboard_usage_never_overdraws (ses : StreamlitApp.session)
    (now : instant) (s : StreamlitApp.state) (f : StreamlitApp.usage_form) :
  reachable s ->
  Forall (fun r => (0 <= StreamlitApp.quantity r)%Q)
    (StreamlitApp.reagents
       (StreamlitApp.store (snd (StreamlitApp.record_usage ses now s f)))) /\
  (forall q u n,
      fst (StreamlitApp.record_usage ses now s f)
      = StreamlitApp.UsageLogged q u n ->
      q = StreamlitApp.qty_used f /\
      exists row,
        In row (StreamlitApp.reagents (StreamlitApp.store s)) /\
        StreamlitApp.id row = StreamlitApp.selected_id f /\
        (0 < q)%Q /\
        (q <= StreamlitApp.quantity row)%Q /\
        forall r,
          In r (StreamlitApp.reagents
                  (StreamlitApp.store
                     (snd (StreamlitApp.record_usage ses now s f)))) ->
          StreamlitApp.id r = StreamlitApp.selected_id f ->
          StreamlitApp.quantity r = Float.sub (StreamlitApp.quantity row) q /\
          (0 <= StreamlitApp.quantity r)%Q).
Proof.
  intros R.
  pose proof (reachable_well_formed _ (reach_usage ses now s f R))
    as [_ [_ F']].
  rewrite Forall_forall in F'. split.
  - rewrite Forall_forall. intros r Hr. apply (F' r Hr).
  - intros q u n Hout.
    destruct (reachable_well_formed s R) as [C [N _]].
    destruct (record_usage_cases ses now s f) as [[_ Hn]|H];
      [exfalso; exact (Hn q u n Hout)|].
    destruct H as [row [Hin [Hid [Hlo [Hq E]]]]].
    rewrite (proj1 (load_reagents_listing s C)) in Hin.
    apply select_reagents_In in Hin.
    assert (Eq : q = StreamlitApp.qty_used f).
    { rewrite E in Hout. cbn [fst] in Hout. injection Hout as <- _ _.
      reflexivity. }
    split; [exact Eq|]. subst q. exists row.
    split; [exact Hin|]. split; [exact Hid|].
    split; [eapply Qlt_le_trans; [|exact Hlo]; reflexivity|].
    split; [exact Hq|].
    intros r Hr Hr_id.
    assert (Q0 : (0 <= StreamlitApp.quantity r)%Q) by exact (proj1 (F' r Hr)).
    split; [|exact Q0].
    rewrite E in Hr.
    cbn [snd StreamlitApp.cache_clear StreamlitApp.store
         StreamlitApp.insert_usage_log StreamlitApp.set_reagents
         StreamlitApp.reagents] in Hr.
    apply in_map_iff in Hr. destruct Hr as [r0 [Er Hr0]].
    assert (I0 : StreamlitApp.id r0 = StreamlitApp.id r).
    { rewrite <- Er. unfold StreamlitApp.deduct.
      destruct (StreamlitApp.id r0 =? StreamlitApp.selected_id f);
        reflexivity. }
    assert (r0 = row).
    { eapply NoDup_map_eq; eauto. congruence. }
    subst r0. rewrite <- Er. unfold StreamlitApp.deduct.
    rewrite Hid, Z.eqb_refl. reflexivity.
Qed.

Lemma dash_nacl_reachable : reachable dash_nacl.
Proof. apply reach_add, reach_fresh. Qed.

(** The theorem on the dashboard holding 100 g of NaCl, for a use of
    95 g: it is logged, 95 is at most the 100 in stock, and 5 g remain. *)
Lemma dashboard_usage_never_overdraws_witness :
  reachable dash_nacl /\
  fst (StreamlitApp.record_usage user_session 7 dash_nacl
         (StreamlitApp.mkUsageForm false 1 95 ""))
  = StreamlitApp.UsageLogged 95 "g" "NaCl" /\
  map StreamlitApp.quantity
    (StreamlitApp.reagents
       (StreamlitApp.store
          (snd (StreamlitApp.record_usage user_session 7 dash_nacl
                  (StreamlitApp.mkUsageForm false 1 95 ""))))) = [5%Q] /\
  exists row,
    In row (StreamlitApp.reagents (StreamlitApp.store dash_nacl)) /\
    (95 <= StreamlitApp.quantity row)%Q.
Proof.
  assert (E : fst (StreamlitApp.record_usage user_session 7 dash_nacl
                     (StreamlitApp.mkUsageForm false 1 95 ""))
              = StreamlitApp.UsageLogged 95 "g" "NaCl")
    by (vm_compute; reflexivity).
  split; [exact dash_nacl_reachable|]. split; [exact E|].
  split; [vm_compute; reflexivity|].
  destruct (dashboard_usage_never_overdraws user_session 7 dash_nacl
              (StreamlitApp.mkUsageForm false 1 95 "") dash_nacl_reachable)
    as [_ H].
  destruct (H 95%Q "g" "NaCl" E) as [_ [row [Hin [_ [_ [Hq _]]]]]].
  exists row. split; [exact Hin | exact Hq].
Defined.

(** The scenario of the specification on the dashboard: 100 g of NaCl
    with threshold 10; a use of 95 g leaves 5 g and raises the low-stock
    alert; the quantity widget then takes numbers from 0.01 to 5, and a
    use of the 5 g left empties the stock. *)
Example dashboard_scenario_nacl :
  let today := mkDate 2026 1 15 in
  let s1 := snd (StreamlitApp.record_usage user_session 7 dash_nacl
                   (StreamlitApp.mkUsageForm false 1 95 "")) in
  let s2 := snd (StreamlitApp.record_usage user_session 8 s1
                   (StreamlitApp.mkUsageForm false 1 5 "")) in
  map StreamlitApp.quantity (StreamlitApp.reagents (StreamlitApp.store s1))
  = [5%Q] /\
  StreamlitApp.alerts today (fst (StreamlitApp.load_reagents s1))
  = [StreamlitApp.LowStock "NaCl" 5 "g" 10] /\
  fst (StreamlitApp.record_usage user_session 8 s1
         (StreamlitApp.mkUsageForm false 1 5 ""))
  = StreamlitApp.UsageLogged 5 "g" "NaCl" /\
  map StreamlitApp.quantity (StreamlitApp.reagents (StreamlitApp.store s2))
  = [0%Q] /\
  List.length (StreamlitApp.usage_logs (StreamlitApp.store s2)) = 2%nat.
Proof. vm_compute. repeat split. Qed.

(** X5.  The states of the dashboard.  Whatever sequence of script runs led to
    it, a state of the dashboard has its memo equal to the listing of the
    database, its reagent ids distinct, and no negative quantity or
    threshold. *)
Theorem dashboard_states_well_formed (s : StreamlitApp.state) :
  reachable s ->
  coherent s /\
  NoDup (map StreamlitApp.id (StreamlitApp.reagents (StreamlitApp.store s))) /\
  Forall (fun r => (0 <= StreamlitApp.quantity r)%Q /\
                   (0 <= StreamlitApp.low_stock_threshold r)%Q)
         (StreamlitApp.reagents (StreamlitApp.store s)).
Proof. intros R. exact (reachable_well_formed s R). Qed.

Lemma dashboard_states_well_formed_witness :
  reachable dash_nacl /\
  Forall (fun r => (0 <= StreamlitApp.quantity r)%Q /\
                   (0 <= StreamlitApp.low_stock_threshold r)%Q)
         (StreamlitApp.reagents (StreamlitApp.store dash_nacl)).
Proof.
  split; [exact dash_nacl_reachable|].
  exact (proj2 (proj2 (dashboard_states_well_formed dash_nacl
                         dash_nacl_reachable))).
Defined.

(** X4.  The bulk import, row by row.  The reagents table gains, in the order
    of the sheet, one row for each sheet row whose name cell is not blank
    once converted to text and stripped; each new row has the location
    "Default Location", the quantity 1, the unit "bottles", no expiration
    date and the threshold 1; the count reported is the number of those
    rows. *)
Theorem bulk_import_one_reagent_per_kept_row (s : StreamlitApp.state)
    (rows : list StreamlitApp.Series) :
  exists new,
    StreamlitApp.reagents
      (StreamlitApp.store (snd (StreamlitApp.confirm_import s rows)))
    = (StreamlitApp.reagents (StreamlitApp.store s) ++ new)%list /\
    List.length new = List.length (filter kept rows) /\
    Forall2 (fun r row =>
               StreamlitApp.name r = name_of row /\
               StreamlitApp.location r = "Default Location" /\
               StreamlitApp.quantity r = 1%Q /\
               StreamlitApp.unit r = "bottles" /\
               StreamlitApp.expiration_date r = None /\
               StreamlitApp.low_stock_threshold r = 1%Q)
            new (filter kept rows) /\
    fst (StreamlitApp.confirm_import s rows)
    = (if 0 <? Z.of_nat (List.length (filter kept rows))
       then StreamlitApp.Imported (Z.of_nat (List.length (filter kept rows)))
       else StreamlitApp.NoValidRows).
Proof.
  destruct (confirm_import_spec s rows) as [new [E [F C]]].
  exists new. split; [exact E|]. split; [|split; [|exact C]].
  - exact (Forall2_length F).
  - clear E C. induction F as [|r row new rs [i ->] _ IH].
    + constructor.
    + constructor; [|exact IH]. simpl. repeat split.
Qed.

(** ** The web app: admin page, reagent page, new reagents, seeding *)

Lemma web_low_alert_count (today : date) (l : list App.Reagent) :
  List.length (filter web_is_low (flat_map (App.alerts_of today) l))
  = List.length (filter App.low_stock l) /\
  List.length (filter web_is_expired (flat_map (App.alerts_of today) l))
  = List.length (filter (App.expired today) l).
Proof.
  induction l as [|r l [IH1 IH2]]; simpl; [auto|].
  rewrite !filter_app, !length_app, IH1, IH2. unfold App.alerts_of.
  destruct (App.low_stock r), (App.expired today r); simpl; auto.
Qed.

(** X6.  The admin page of the web app.  A user whose role is not
    "admin" is turned away; an admin sees the number of reagents, and
    low-stock and expired counts that are exactly the numbers of low-stock
    and expired alerts the index page lists on the same day, which
    together are all its alerts. *)
Theorem web_admin_dashboard_counts_the_alerts
    (current_user : App.User) (today : date) (d : App.db) :
  App.admin_dashboard current_user today d =
  (if String.eqb (App.role current_user) "admin"
   then App.Dashboard
          (List.length (App.reagents d))
          (List.length (filter web_is_low (App.index_alerts today d)))
          (List.length (filter web_is_expired (App.index_alerts today d)))
   else App.AdminOnly) /\
  List.length (App.index_alerts today d)
  = (List.length (filter web_is_low (App.index_alerts today d)) +
     List.length (filter web_is_expired (App.index_alerts today d)))%nat /\
  (List.length (filter web_is_low (App.index_alerts today d))
   <= List.length (App.reagents d))%nat /\
  (List.length (filter web_is_expired (App.index_alerts today d))
   <= List.length (App.reagents d))%nat.
Proof.
  unfold App.admin_dashboard, App.index_alerts.
  destruct (web_low_alert_count today (App.reagents d)) as [L E].
  rewrite L, E. split; [destruct (String.eqb _ _); reflexivity|].
  split; [|split; apply filter_length_le].
  rewrite <- L, <- E. clear L E.
  induction (App.reagents d) as [|r l IH]; simpl; [reflexivity|].
  rewrite !filter_app, !length_app, IH. unfold App.alerts_of.
  destruct (App.low_stock r), (App.expired today r); simpl; lia.
Qed.

Lemma find_map_deduct (rid rid' : Z) (q : Q) (l : list App.Reagent) :
  find (fun r => App.id r =? rid') (map (App.deduct rid q) l)
  = option_map (App.deduct rid q) (find (fun r => App.id r =? rid') l).
Proof.
  induction l as [|r l IH]; simpl; [reflexivity|].
  assert (E : App.id (App.deduct rid q r) = App.id r).
  { unfold App.deduct. destruct (App.id r =? rid); reflexivity. }
  rewrite E. destruct (App.id r =? rid'); [reflexivity | exact IH].
Qed.

(** X7.  The reagent page after a use is logged, the difference of the
    stored quantity and the quantity used being within the range of the
    doubles.  When the page of a reagent exists, logging a use on it
    succeeds, and the page then shows the same reagent with, for its
    quantity, the double nearest the stored quantity less the quantity
    used, and the same logs followed by the new entry; the page of every
    other id is as before.  When the page answers 404, so does the
    logging, and no stored reagent has that id. *)
Theorem web_view_reagent_after_log_usage
    (d : App.db) (rid u : Z) (q : Q) (n : option string) (t : instant) :
  (forall r, App.get d rid = Some r -> Float.finite (App.quantity r - q)) ->
  match App.view_reagent d rid with
  | Ok (r, logs) =>
      exists d' i,
        App.log_usage d rid u q n t = Ok d' /\
        App.view_reagent d' rid =
        Ok (App.set_quantity r (Float.sub (App.quantity r) q),
            (logs ++ [App.mkUsageLog i rid u q t n])%list) /\
        forall rid', rid' <> rid ->
                     App.view_reagent d' rid' = App.view_reagent d rid'
  | Raise e =>
      e = App.NotFound404 /\
      App.log_usage d rid u q n t = Raise App.NotFound404 /\
      forall r, In r (App.reagents d) -> App.id r <> rid
  end.
Proof.
  intros _. unfold App.view_reagent.
  destruct (App.get d rid) as [r|] eqn:G.
  - rewrite (web_log_usage_known d rid u q n t r G).
    do 2 eexists. split; [reflexivity|].
    unfold App.get in *. simpl. split.
    + rewrite find_map_deduct, G. simpl.
      apply find_some in G. destruct G as [_ G].
      unfold App.deduct. rewrite G.
      rewrite filter_app. simpl. rewrite Z.eqb_refl. reflexivity.
    + intros rid' Hne. rewrite find_map_deduct.
      rewrite filter_app. simpl.
      destruct (rid =? rid') eqn:E; [apply Z.eqb_eq in E; congruence|].
      rewrite app_nil_r.
      destruct (find (fun r0 => App.id r0 =? rid') (App.reagents d))
        as [r'|] eqn:F; [|reflexivity].
      simpl. apply find_some in F. destruct F as [_ F].
      unfold App.deduct. apply Z.eqb_eq in F. rewrite F.
      destruct (rid' =? rid) eqn:E'; [apply Z.eqb_eq in E'; congruence|].
      reflexivity.
  - split; [reflexivity|]. split; [apply web_log_usage_unknown; exact G|].
    intros r Hin Hid. unfold App.get in G.
    apply (find_none _ _ G) in Hin. apply Z.eqb_neq in Hin. contradiction.
Qed.

(** The theorem on the store holding 100 g of NaCl, for a use of 0.3 g:
    the page shows the double 99.7. *)
Lemma web_view_reagent_after_log_usage_witness :
  (forall r, App.get web_nacl 1 = Some r ->
             Float.finite
               (App.quantity r - (5404319552844595 # 18014398509481984))) /\
  exists d' logs,
    App.log_usage web_nacl 1 2 (5404319552844595 # 18014398509481984) None 7
    = Ok d' /\
    App.view_reagent d' 1
    = Ok (App.mkReagent 1 "NaCl" (Some "7647-14-5") (Some "Sigma")
            (Some "Shelf A") (7015763794513101 # 70368744177664) "g" None 10,
          logs).
Proof.
  assert (F : forall r, App.get web_nacl 1 = Some r ->
                Float.finite
                  (App.quantity r - (5404319552844595 # 18014398509481984))).
  { intros r H. vm_compute in H. injection H as <-. vm_compute. reflexivity. }
  split; [exact F|].
  pose proof (web_view_reagent_after_log_usage web_nacl 1 2
                (5404319552844595 # 18014398509481984) None 7 F) as T.
  vm_compute in T. destruct T as [d' [i [L [V _]]]].
  exists d'. eexists. split; [exact L | exact V].
Defined.

Lemma find_append {A : Type} (f : A -> bool) (l1 l2 : list A) :
  find f (l1 ++ l2)
  = match find f l1 with Some x => Some x | None => find f l2 end.
Proof.
  induction l1 as [|a l1 IH]; simpl; [reflexivity|].
  destruct (f a); [reflexivity | exact IH].
Qed.

Lemma next_id_above (ids : list Z) (x : Z) :
  In x ids -> x < App.next_id ids.
Proof. intros H. apply max_ids_bound in H. unfold App.next_id. lia. Qed.

(** X8.  A reagent added in the web app.  It gets an id above every id
    in the table and is what a lookup of that id returns, field for field
    as posted; the lookup of every other id, the users and the usage logs
    are as before, and ids stay distinct. *)
Theorem web_add_reagent_then_get (d : App.db) (f : App.add_form) :
  let i := App.next_id (map App.id (App.reagents d)) in
  App.get (App.add_reagent d f) i
  = Some (App.mkReagent i (App.f_name f) (Some (App.f_cas_number f))
            (Some (App.f_supplier f)) (Some (App.f_location f))
            (App.f_quantity f) (App.f_unit f) (App.f_expiration_date f)
            (App.f_low_stock_threshold f)) /\
  (forall r, In r (App.reagents d) -> App.id r < i) /\
  (forall rid, rid <> i ->
               App.get (App.add_reagent d f) rid = App.get d rid) /\
  (NoDup (map App.id (App.reagents d)) ->
   NoDup (map App.id (App.reagents (App.add_reagent d f)))) /\
  App.users (App.add_reagent d f) = App.users d /\
  App.usage_logs (App.add_reagent d f) = App.usage_logs d.
Proof.
  intros i.
  assert (B : forall r, In r (App.reagents d) -> App.id r < i).
  { intros r Hr. apply next_id_above, in_map. exact Hr. }
  assert (N : find (fun r => App.id r =? i) (App.reagents d) = None).
  { destruct (find _ _) as [r|] eqn:F; [|reflexivity].
    apply find_some in F. destruct F as [Hin E]. apply Z.eqb_eq in E.
    specialize (B r Hin). lia. }
  unfold App.get, App.add_reagent. simpl. fold i.
  repeat split.
  - rewrite find_append, N. simpl. rewrite Z.eqb_refl. reflexivity.
  - exact B.
  - intros rid Hne. rewrite find_append. clear N.
    destruct (find (fun r => App.id r =? rid) (App.reagents d));
      [reflexivity|]. simpl.
    destruct (i =? rid) eqn:E; [apply Z.eqb_eq in E; congruence|].
    reflexivity.
  - intros Hnd. rewrite map_app. apply NoDup_snoc; [exact Hnd|].
    simpl. intros Hin. apply in_map_iff in Hin.
    destruct Hin as [r [E Hr]]. specialize (B r Hr). lia.
Qed.

Lemma find_user_some (us : list App.User) (u : string) (usr : App.User) :
  App.find_user us u = Some usr -> In usr us /\ App.username usr = u.
Proof.
  unfold App.find_user. intros H. apply find_some in H.
  destruct H as [Hin E]. apply String.eqb_eq in E. auto.
Qed.

Lemma find_user_none (us : list App.User) (u : string) :
  App.find_user us u = None -> ~ In u (map App.username us).
Proof.
  unfold App.find_user. intros H Hin. apply in_map_iff in Hin.
  destruct Hin as [x [E Hx]]. apply (find_none _ _ H) in Hx.
  apply String.eqb_neq in Hx. contradiction.
Qed.

(** X9.  Seeding the web app's users.  When [create_tables] goes
    through, running it again changes nothing; reagents and usage logs
    are untouched and the users already stored are kept as they are; an
    existing "admin" row stops it from writing anything, so a changed
    admin password is not reset; without one, the two seeded accounts are
    appended under fresh ids and can log in, and distinct user names and
    ids stay distinct.  It raises exactly when there is no "admin" but
    already a "user". *)
Theorem web_create_tables_seeds_once (d : App.db) :
  match App.create_tables d with
  | Ok d' =>
      App.create_tables d' = Ok d' /\
      App.reagents d' = App.reagents d /\
      App.usage_logs d' = App.usage_logs d /\
      (forall usr, App.find_user (App.users d) "admin" = Some usr ->
                   d' = d) /\
      (App.find_user (App.users d) "admin" = None ->
       exists i,
         App.users d' =
         (App.users d ++ [App.mkUser i "admin" "admin123" "admin";
                          App.mkUser (i + 1) "user" "user123" "user"])%list /\
         (forall usr, In usr (App.users d) -> App.u_id usr < i) /\
         App.login d' "admin" "admin123"
         = Some (App.mkUser i "admin" "admin123" "admin") /\
         App.login d' "user" "user123"
         = Some (App.mkUser (i + 1) "user" "user123" "user")) /\
      (NoDup (map App.username (App.users d)) ->
       NoDup (map App.username (App.users d'))) /\
      (NoDup (map App.u_id (App.users d)) ->
       NoDup (map App.u_id (App.users d')))
  | Raise e =>
      e = App.IntegrityError /\
      App.find_user (App.users d) "admin" = None /\
      App.find_user (App.users d) "user" <> None
  end.
Proof.
  unfold App.create_tables.
  destruct (App.find_user (App.users d) "admin") as [a|] eqn:A.
  - rewrite A. repeat split; auto. discriminate.
  - destruct (App.find_user (App.users d) "user") as [b|] eqn:B.
    + repeat split. discriminate.
    + set (i := App.next_id (map App.u_id (App.users d))).
      assert (Hi : forall usr, In usr (App.users d) -> App.u_id usr < i).
      { intros usr Hin. apply next_id_above, in_map. exact Hin. }
      assert (FA : App.find_user
                 (App.users d ++ [App.mkUser i "admin" "admin123" "admin";
                                  App.mkUser (i + 1) "user" "user123" "user"])
                 "admin" = Some (App.mkUser i "admin" "admin123" "admin")).
      { unfold App.find_user in *. rewrite find_append, A. reflexivity. }
      assert (FB : App.find_user
                 (App.users d ++ [App.mkUser i "admin" "admin123" "admin";
                                  App.mkUser (i + 1) "user" "user123" "user"])
                 "user" = Some (App.mkUser (i + 1) "user" "user123" "user")).
      { unfold App.find_user in *. rewrite find_append, B. reflexivity. }
      cbn [App.users App.reagents App.usage_logs]. rewrite FA.
      split; [reflexivity|]. split; [reflexivity|]. split; [reflexivity|].
      split; [discriminate|]. split.
      * intros _. exists i. split; [reflexivity|]. split; [exact Hi|].
        unfold App.login. cbn [App.users]. rewrite FA, FB. split; reflexivity.
      * apply find_user_none in A, B. split; intros Hnd; rewrite map_app.
        -- simpl. change (?l ++ [?x; ?y])%list with (l ++ [x] ++ [y])%list.
           rewrite app_assoc.
           apply NoDup_snoc; [apply NoDup_snoc; assumption|].
           intros Hin. apply in_app_or in Hin. destruct Hin as [Hin|[E|[]]].
           ++ contradiction.
           ++ discriminate E.
        -- simpl. change (?l ++ [?x; ?y])%list with (l ++ [x] ++ [y])%list.
           rewrite app_assoc.
           assert (Fi : forall k, i <= k -> ~ In k (map App.u_id (App.users d))).
           { intros k Hk Hin. apply in_map_iff in Hin.
             destruct Hin as [x [E Hx]]. specialize (Hi x Hx). lia. }
           apply NoDup_snoc; [apply NoDup_snoc; [exact Hnd|]|].
           ++ apply Fi. lia.
           ++ intros Hin. apply in_app_or in Hin.
              destruct Hin as [Hin|[E|[]]]; [|lia].
              revert Hin. apply Fi. lia.
Qed.

(** X10.  The user restored for a session.  With distinct user ids, the
    user [load_user] finds under the id of the user that [login] accepted
    is that same user. *)
Theorem web_login_then_load_user
    (d : App.db) (uname pw : string) (usr : App.User) :
  NoDup (map App.u_id (App.users d)) ->
  App.login d uname pw = Some usr ->
  App.load_user d (App.u_id usr) = Some usr.
Proof.
  intros Hnd H. apply web_login_sound in H. destruct H as [Hin _].
  unfold App.load_user.
  apply (find_unique_key App.u_id _ _ usr Hnd Hin).
  - apply Z.eqb_refl.
  - intros y _ Hy. apply Z.eqb_eq in Hy. exact Hy.
Qed.

Lemma web_login_then_load_user_witness :
  NoDup (map App.u_id (App.users web_fresh)) /\
  App.login web_fresh "admin" "admin123" = Some web_admin /\
  App.load_user web_fresh 1 = Some web_admin.
Proof.
  assert (H : NoDup (map App.u_id (App.users web_fresh))).
  { vm_compute. repeat constructor; simpl; intuition discriminate. }
  assert (L : App.login web_fresh "admin" "admin123" = Some web_admin)
    by reflexivity.
  split; [exact H|]. split; [exact L|].
  exact (web_login_then_load_user web_fresh "admin" "admin123" web_admin H L).
Defined.

(** ** The dashboard's handlers, case by case *)

Lemma selectbox_some (options : list string) (chosen x : string) :
  StreamlitApp.selectbox options chosen = Some x ->
  x = chosen /\ In chosen options.
Proof.
  unfold StreamlitApp.selectbox.
  destruct (existsb _ options) eqn:E; [|discriminate].
  intros H. injection H as <-. split; [reflexivity|].
  apply existsb_exists in E. destruct E as [y [Hy E]].
  apply String.eqb_eq in E. subst y. exact Hy.
Qed.

Lemma selectbox_in (options : list string) (chosen : string) :
  In chosen options -> StreamlitApp.selectbox options chosen = Some chosen.
Proof.
  intros H. unfold StreamlitApp.selectbox.
  assert (E : existsb (String.eqb chosen) options = true).
  { apply existsb_exists. exists chosen. split; [exact H|].
    apply String.eqb_refl. }
  rewrite E. reflexivity.
Qed.

Lemma number_input_unbounded (v x : Q) :
  (0 <= v)%Q -> (0 <= x)%Q -> StreamlitApp.number_input 0 None v x = Some x.
Proof.
  intros Hv Hx. unfold StreamlitApp.number_input, StreamlitApp.in_bounds.
  apply Qle_bool_iff in Hv, Hx. rewrite Hv, Hx. reflexivity.
Qed.

(** Save Changes either writes nothing, or it ran as an admin on a
    listed row with inputs the widgets hold and a date not in the past,
    and committed the update of that id. *)
Lemma save_changes_cases (today : date) (ses : StreamlitApp.session)
    (s : StreamlitApp.state) (edit_id : Z) (f : StreamlitApp.edit_form) :
  (snd (StreamlitApp.save_changes today ses s edit_id f)
   = snd (StreamlitApp.load_reagents s) /\
   fst (StreamlitApp.save_changes today ses s edit_id f)
   <> StreamlitApp.ReagentUpdated) \/
  (fst (StreamlitApp.save_changes today ses s edit_id f)
   = StreamlitApp.ReagentUpdated /\
   snd (StreamlitApp.save_changes today ses s edit_id f)
   = StreamlitApp.cache_clear
       (StreamlitApp.set_reagents (StreamlitApp.store s)
          (map (StreamlitApp.update_row edit_id f)
               (StreamlitApp.reagents (StreamlitApp.store s)))) /\
   StreamlitApp.s_role ses = "admin" /\
   (exists r, In r (fst (StreamlitApp.load_reagents s)) /\
              StreamlitApp.id r = edit_id) /\
   (0 <= StreamlitApp.e_quantity f)%Q /\
   (0 <= StreamlitApp.e_threshold f)%Q /\
   In (StreamlitApp.e_unit f) StreamlitApp.units /\
   StreamlitApp.before (StreamlitApp.e_exp f) today = false).
Proof.
  unfold StreamlitApp.save_changes.
  pose proof (load_reagents_store s) as Hs.
  destruct (StreamlitApp.load_reagents s) as [df s1]. simpl in Hs |- *.
  destruct (String.eqb (StreamlitApp.s_role ses) "admin") eqn:R; simpl;
    [|left; split; [reflexivity | discriminate]].
  apply String.eqb_eq in R.
  destruct (find _ df) as [r|] eqn:F;
    [|left; split; [reflexivity | discriminate]].
  apply find_some in F. destruct F as [Hin Hid]. apply Z.eqb_eq in Hid.
  destruct (StreamlitApp.number_input 0 None _ (StreamlitApp.e_quantity f))
    as [q|] eqn:Eq; [|left; split; [reflexivity | discriminate]].
  destruct (StreamlitApp.selectbox _ (StreamlitApp.unit r));
    [|left; split; [reflexivity | discriminate]].
  destruct (StreamlitApp.selectbox _ (StreamlitApp.e_unit f)) as [u|] eqn:Eu;
    [|left; split; [reflexivity | discriminate]].
  destruct (StreamlitApp.number_input 0 None _ (StreamlitApp.e_threshold f))
    as [t|] eqn:Et; [|left; split; [reflexivity | discriminate]].
  destruct (StreamlitApp.before _ _) eqn:B;
    [left; split; [reflexivity | discriminate]|].
  right. simpl. rewrite Hs.
  apply number_input_some in Eq, Et. apply selectbox_some in Eu.
  destruct Eq as [_ Eq], Et as [_ Et]. apply in_bounds_low in Eq, Et.
  repeat split; try assumption; try tauto. exists r. auto.
Qed.

Lemma confirm_delete_cases (ses : StreamlitApp.session)
    (s : StreamlitApp.state) (to_delete : list Z) :
  (snd (StreamlitApp.confirm_delete ses s to_delete)
   = snd (StreamlitApp.load_reagents s) /\
   fst (StreamlitApp.confirm_delete ses s to_delete)
   = StreamlitApp.DeleteNotOffered) \/
  (fst (StreamlitApp.confirm_delete ses s to_delete)
   = StreamlitApp.Deleted (List.length to_delete) /\
   snd (StreamlitApp.confirm_delete ses s to_delete)
   = StreamlitApp.cache_clear
       (StreamlitApp.set_reagents (StreamlitApp.store s)
          (filter (not_selected to_delete)
                  (StreamlitApp.reagents (StreamlitApp.store s)))) /\
   StreamlitApp.s_role ses = "admin" /\
   to_delete <> [] /\
   forall rid, In rid to_delete ->
               exists r, In r (fst (StreamlitApp.load_reagents s)) /\
                         StreamlitApp.id r = rid).
Proof.
  unfold StreamlitApp.confirm_delete.
  pose proof (load_reagents_store s) as Hs.
  destruct (StreamlitApp.load_reagents s) as [df s1]. simpl in Hs |- *.
  destruct (String.eqb (StreamlitApp.s_role ses) "admin") eqn:R; simpl;
    [|left; split; reflexivity].
  apply String.eqb_eq in R.
  destruct to_delete as [|x l]; [left; split; reflexivity|].
  destruct (forallb _ (x :: l)) eqn:A; [|left; split; reflexivity].
  right. cbn [fst snd]. rewrite Hs.
  split; [reflexivity|]. split; [reflexivity|]. split; [exact R|].
  split; [discriminate|].
  intros rid Hin. rewrite forallb_forall in A. specialize (A rid Hin).
  apply existsb_exists in A. destruct A as [r [Hr E]].
  apply Z.eqb_eq in E. exists r. auto.
Qed.

Lemma add_reagent_cases (today : date) (s : StreamlitApp.state)
    (f : StreamlitApp.add_form) :
  (snd (StreamlitApp.add_reagent today s f)
   = snd (StreamlitApp.load_reagents s) /\
   forall n l, snd (fst (StreamlitApp.add_reagent today s f))
               <> StreamlitApp.Added n l) \/
  (snd (fst (StreamlitApp.add_reagent today s f))
   = StreamlitApp.Added (Text.strip (StreamlitApp.a_name f))
       (StreamlitApp.final_location f) /\
   snd (StreamlitApp.add_reagent today s f)
   = StreamlitApp.cache_clear
       (StreamlitApp.insert_reagent (StreamlitApp.store s)
          (Text.strip (StreamlitApp.a_name f))
          (Text.or_None (StreamlitApp.a_cas f))
          (Text.or_None (StreamlitApp.a_supplier f))
          (StreamlitApp.final_location f) (StreamlitApp.a_quantity f)
          (StreamlitApp.a_unit f) (StreamlitApp.a_exp_date f)
          (StreamlitApp.a_threshold f)) /\
   StreamlitApp.form_errors f = [] /\
   In (StreamlitApp.a_location_preset f) StreamlitApp.location_presets /\
   (0 <= StreamlitApp.a_quantity f)%Q /\
   (0 <= StreamlitApp.a_threshold f)%Q /\
   In (StreamlitApp.a_unit f) StreamlitApp.units).
Proof.
  unfold StreamlitApp.add_reagent.
  pose proof (load_reagents_store s) as Hs.
  destruct (StreamlitApp.load_reagents s) as [df s1]. simpl in Hs |- *.
  destruct (StreamlitApp.selectbox _ (StreamlitApp.a_location_preset f))
    as [p|] eqn:Ep; [|left; split; [reflexivity | discriminate]].
  destruct (StreamlitApp.number_input 0 None 0 _) as [q|] eqn:Eq;
    [|left; split; [reflexivity | discriminate]].
  destruct (StreamlitApp.selectbox _ (StreamlitApp.a_unit f)) as [u|] eqn:Eu;
    [|left; split; [reflexivity | discriminate]].
  destruct (StreamlitApp.number_input 0 None 1 _) as [t|] eqn:Et;
    [|left; split; [reflexivity | discriminate]].
  destruct (StreamlitApp.form_errors f) eqn:Ef;
    [|left; split; [reflexivity | discriminate]].
  right. cbn [fst snd]. rewrite Hs.
  apply number_input_some in Eq, Et. apply selectbox_some in Ep, Eu.
  destruct Eq as [-> Eq], Et as [-> Et], Eu as [-> Eu], Ep as [_ Ep].
  apply in_bounds_low in Eq, Et. repeat split; assumption.
Qed.

Lemma confirm_import_store (s : StreamlitApp.state)
    (rows : list StreamlitApp.Series) :
  StreamlitApp.store (snd (StreamlitApp.confirm_import s rows))
  = fst (fold_left StreamlitApp.import_row rows (StreamlitApp.store s, 0)).
Proof.
  unfold StreamlitApp.confirm_import.
  pose proof (load_reagents_store s) as Hs.
  destruct (StreamlitApp.load_reagents s) as [df s1]. simpl in Hs |- *.
  rewrite Hs. destruct (fold_left _ rows _) as [d k].
  destruct (0 <? k); reflexivity.
Qed.

Lemma bulk_add_store (s : StreamlitApp.state) (columns : list string)
    (data : list (list StreamlitApp.cell)) (confirm : bool) :
  StreamlitApp.store (snd (StreamlitApp.bulk_add s columns data confirm))
  = StreamlitApp.store s \/
  exists rows,
    StreamlitApp.store (snd (StreamlitApp.bulk_add s columns data confirm))
    = fst (fold_left StreamlitApp.import_row rows (StreamlitApp.store s, 0)).
Proof.
  unfold StreamlitApp.bulk_add.
  destruct (negb _); [left; apply load_reagents_store|].
  destruct confirm; [|left; apply load_reagents_store].
  right.
  exists (map (StreamlitApp.series (StreamlitApp.excel_columns columns)) data).
  rewrite <- confirm_import_store.
  destruct (StreamlitApp.confirm_import s _). reflexivity.
Qed.

(** ** What the handlers write *)

Lemma writes_one (d d' : StreamlitApp.db) : written d d' -> writes d d'.
Proof. intros H. eapply writes_more; [exact H | apply writes_none]. Qed.

Lemma writes_trans (a b c : StreamlitApp.db) :
  writes a b -> writes b c -> writes a c.
Proof.
  induction 1 as [|d d' d'' W _ IH]; [auto|].
  intros H. eapply writes_more; [exact W | exact (IH H)].
Qed.

Lemma bottles_is_unit : In "bottles" StreamlitApp.units.
Proof. simpl. tauto. Qed.

Lemma import_rows_writes (rows : list StreamlitApp.Series) :
  forall (d : StreamlitApp.db) (k : Z),
    writes d (fst (fold_left StreamlitApp.import_row rows (d, k))).
Proof.
  induction rows as [|row rows IH]; intros d k; cbn [fold_left].
  - apply writes_none.
  - destruct (kept row) eqn:K.
    + rewrite (import_row_kept d k row K).
      eapply writes_more; [|apply IH].
      apply wr_insert; [discriminate | discriminate | exact bottles_is_unit].
    + rewrite (import_row_skipped d k row K). apply IH.
Qed.

Lemma save_changes_writes (today : date) (ses : StreamlitApp.session)
    (s : StreamlitApp.state) (edit_id : Z) (f : StreamlitApp.edit_form) :
  writes (StreamlitApp.store s)
    (StreamlitApp.store (snd (StreamlitApp.save_changes today ses s edit_id f))).
Proof.
  destruct (save_changes_cases today ses s edit_id f)
    as [[E _]|[_ [E [_ [_ [Hq [Ht [Hu _]]]]]]]]; rewrite E.
  - rewrite load_reagents_store. apply writes_none.
  - apply writes_one, wr_update; assumption.
Qed.

Lemma confirm_delete_writes (ses : StreamlitApp.session)
    (s : StreamlitApp.state) (to_delete : list Z) :
  writes (StreamlitApp.store s)
    (StreamlitApp.store (snd (StreamlitApp.confirm_delete ses s to_delete))).
Proof.
  destruct (confirm_delete_cases ses s to_delete) as [[E _]|[_ [E _]]];
    rewrite E.
  - rewrite load_reagents_store. apply writes_none.
  - apply writes_one, wr_delete.
Qed.

Lemma add_reagent_writes (today : date) (s : StreamlitApp.state)
    (f : StreamlitApp.add_form) :
  writes (StreamlitApp.store s)
    (StreamlitApp.store (snd (StreamlitApp.add_reagent today s f))).
Proof.
  destruct (add_reagent_cases today s f)
    as [[E _]|[_ [E [_ [_ [Hq [Ht Hu]]]]]]]; rewrite E.
  - rewrite load_reagents_store. apply writes_none.
  - apply writes_one, wr_insert; assumption.
Qed.

Lemma confirm_import_writes (s : StreamlitApp.state)
    (rows : list StreamlitApp.Series) :
  writes (StreamlitApp.store s)
    (StreamlitApp.store (snd (StreamlitApp.confirm_import s rows))).
Proof. rewrite confirm_import_store. apply import_rows_writes. Qed.

Lemma bulk_add_writes (s : StreamlitApp.state) (columns : list string)
    (data : list (list StreamlitApp.cell)) (confirm : bool) :
  writes (StreamlitApp.store s)
    (StreamlitApp.store (snd (StreamlitApp.bulk_add s columns data confirm))).
Proof.
  destruct (bulk_add_store s columns data confirm) as [E|[rows E]]; rewrite E.
  - apply writes_none.
  - apply import_rows_writes.
Qed.

Lemma record_usage_writes (ses : StreamlitApp.session) (now : instant)
    (s : StreamlitApp.state) (f : StreamlitApp.usage_form) :
  writes (StreamlitApp.store s)
    (StreamlitApp.store (snd (StreamlitApp.record_usage ses now s f))).
Proof.
  destruct (record_usage_cases ses now s f)
    as [[E _]|[row [_ [_ [Hlo [_ E]]]]]]; rewrite E.
  - rewrite load_reagents_store. apply writes_none.
  - apply writes_one, wr_deduct. exact Hlo.
Qed.

Lemma script_body_writes (ss : StreamlitApp.session_state)
    (s : StreamlitApp.state) (a : StreamlitApp.action) :
  writes (StreamlitApp.store s)
    (StreamlitApp.store (snd (StreamlitApp.script_body ss s a))).
Proof.
  unfold StreamlitApp.script_body.
  destruct ss as [ses|]; destruct a; cbn [snd];
    try apply writes_none;
    try (rewrite load_reagents_store; apply writes_none).
  - apply save_changes_writes.
  - apply confirm_delete_writes.
  - apply bulk_add_writes.
  - apply add_reagent_writes.
  - apply record_usage_writes.
Qed.

Lemma script_run_writes (ss : StreamlitApp.session_state)
    (s : StreamlitApp.state) (a : StreamlitApp.action) :
  writes (StreamlitApp.store s)
    (StreamlitApp.store (snd (StreamlitApp.script_run ss s a))).
Proof.
  unfold StreamlitApp.script_run.
  eapply writes_more; [apply wr_init|].
  exact (script_body_writes ss (StreamlitApp.run_init_db s) a).
Qed.

Lemma script_runs_writes (acts : list StreamlitApp.action) :
  forall (ss : StreamlitApp.session_state) (s : StreamlitApp.state),
    writes (StreamlitApp.store s)
      (StreamlitApp.store (snd (StreamlitApp.script_runs ss s acts))).
Proof.
  induction acts as [|a acts IH]; intros ss s; simpl.
  - apply writes_none.
  - pose proof (script_run_writes ss s a) as W.
    destruct (StreamlitApp.script_run ss s a) as [ss' s']. simpl in W.
    eapply writes_trans; [exact W | apply IH].
Qed.

Lemma bulk_add_reachable (s : StreamlitApp.state) (columns : list string)
    (data : list (list StreamlitApp.cell)) (confirm : bool) :
  reachable s ->
  reachable (snd (StreamlitApp.bulk_add s columns data confirm)).
Proof.
  intros R. unfold StreamlitApp.bulk_add.
  destruct (negb _); [apply reach_load; exact R|].
  destruct confirm; [|apply reach_load; exact R].
  pose proof (reach_import s
    (map (StreamlitApp.series (StreamlitApp.excel_columns columns)) data) R)
    as H.
  destruct (StreamlitApp.confirm_import s _). exact H.
Qed.

Lemma script_body_reachable (ss : StreamlitApp.session_state)
    (s : StreamlitApp.state) (a : StreamlitApp.action) :
  reachable s -> reachable (snd (StreamlitApp.script_body ss s a)).
Proof.
  intros R. unfold StreamlitApp.script_body.
  destruct ss as [ses|]; destruct a; cbn [snd]; try exact R;
    try (apply reach_load; exact R).
  - apply reach_save; exact R.
  - apply reach_delete; exact R.
  - apply bulk_add_reachable; exact R.
  - apply reach_add; exact R.
  - apply reach_usage; exact R.
Qed.

Lemma script_run_reachable (ss : StreamlitApp.session_state)
    (s : StreamlitApp.state) (a : StreamlitApp.action) :
  reachable s -> reachable (snd (StreamlitApp.script_run ss s a)).
Proof.
  intros R. unfold StreamlitApp.script_run.
  apply script_body_reachable, reach_init. exact R.
Qed.

Lemma script_runs_reachable (acts : list StreamlitApp.action) :
  forall (ss : StreamlitApp.session_state) (s : StreamlitApp.state),
    reachable s -> reachable (snd (StreamlitApp.script_runs ss s acts)).
Proof.
  induction acts as [|a acts IH]; intros ss s R; simpl; [exact R|].
  pose proof (script_run_reachable ss s a R) as R'.
  destruct (StreamlitApp.script_run ss s a) as [ss' s']. apply IH. exact R'.
Qed.

(** Every state the dashboard reaches comes from the fresh database by
    writes. *)
Lemma reachable_writes (s : StreamlitApp.state) :
  reachable s ->
  writes (StreamlitApp.store dash_fresh) (StreamlitApp.store s).
Proof.
  induction 1 as [|s R IH|s R IH|today ses s id f R IH|ses s td R IH
                  |s rows R IH|today s f R IH|ses now s f R IH|s R IH].
  - apply writes_none.
  - exact IH.
  - rewrite load_reagents_store. exact IH.
  - eapply writes_trans; [exact IH | apply save_changes_writes].
  - eapply writes_trans; [exact IH | apply confirm_delete_writes].
  - eapply writes_trans; [exact IH | apply confirm_import_writes].
  - eapply writes_trans; [exact IH | apply add_reagent_writes].
  - eapply writes_trans; [exact IH | apply record_usage_writes].
  - eapply writes_trans; [exact IH | apply writes_one, wr_init].
Qed.

(** A write appends to the ledger or leaves it, and adds to the users
    at most seeded accounts, none once both are stored. *)
Lemma written_frame (d d' : StreamlitApp.db) :
  written d d' ->
  (exists extra,
      StreamlitApp.users d' = (StreamlitApp.users d ++ extra)%list /\
      Forall seeded extra) /\
  (has_seeds d -> StreamlitApp.users d' = StreamlitApp.users d) /\
  exists l, StreamlitApp.usage_logs d' = (StreamlitApp.usage_logs d ++ l)%list.
Proof.
  intros W.
  destruct W as [edit_id f Hq Ht Hu|to_delete|n cas sup loc q u e t Hq Ht Hu
                 |sel q who now note Hlo|];
    cbn [StreamlitApp.users StreamlitApp.usage_logs StreamlitApp.set_reagents
         StreamlitApp.insert_reagent StreamlitApp.insert_usage_log].
  1-3: (split; [exists []; rewrite app_nil_r; split; [reflexivity|constructor]|];
        split; [reflexivity|]; exists []; rewrite app_nil_r; reflexivity).
  - split; [exists []; rewrite app_nil_r; split; [reflexivity|constructor]|].
    split; [reflexivity|]. eexists. reflexivity.
  - destruct (init_db_spec d) as [[extra [U X]] [_ [_ [_ [_ [_ [L _]]]]]]].
    split.
    { exists extra. split; [exact U|]. apply Forall_forall.
      intros x Hx. exact (proj1 (X x Hx)). }
    split; [apply init_db_seeded|].
    exists []. rewrite app_nil_r. exact L.
Qed.

Lemma writes_frame (d d' : StreamlitApp.db) :
  writes d d' ->
  (exists extra,
      StreamlitApp.users d' = (StreamlitApp.users d ++ extra)%list /\
      Forall seeded extra) /\
  (has_seeds d -> StreamlitApp.users d' = StreamlitApp.users d) /\
  exists l, StreamlitApp.usage_logs d' = (StreamlitApp.usage_logs d ++ l)%list.
Proof.
  induction 1 as [d|d d' d'' W _ [[e2 [U2 F2]] [S2 [l2 L2]]]].
  - split; [exists []; rewrite app_nil_r; split; [reflexivity|constructor]|].
    split; [reflexivity|]. exists []. rewrite app_nil_r. reflexivity.
  - destruct (written_frame d d' W) as [[e1 [U1 F1]] [S1 [l1 L1]]].
    split.
    { exists (e1 ++ e2)%list. split.
      - rewrite U2, U1, app_assoc. reflexivity.
      - apply Forall_app. auto. }
    split.
    { intros H. rewrite S2; [exact (S1 H)|].
      exact (has_seeds_users d d' (S1 H) H). }
    exists (l1 ++ l2)%list. rewrite L2, L1, app_assoc. reflexivity.
Qed.

(** Every entry a write appends to the ledger is a use of 0.01 or more. *)
Lemma written_ledger (d d' : StreamlitApp.db) :
  written d d' ->
  Forall positive_use (StreamlitApp.usage_logs d) ->
  Forall positive_use (StreamlitApp.usage_logs d').
Proof.
  intros W F.
  destruct W as [edit_id f Hq Ht Hu|to_delete|n cas sup loc q u e t Hq Ht Hu
                 |sel q who now note Hlo|];
    cbn [StreamlitApp.usage_logs StreamlitApp.set_reagents
         StreamlitApp.insert_reagent StreamlitApp.insert_usage_log];
    try exact F.
  - apply Forall_app. split; [exact F|]. constructor; [|constructor].
    unfold positive_use. cbn [StreamlitApp.quantity_used].
    split; [|exact Hlo]. eapply Qlt_le_trans; [|exact Hlo]. reflexivity.
Qed.

Lemma writes_ledger (d d' : StreamlitApp.db) :
  writes d d' ->
  Forall positive_use (StreamlitApp.usage_logs d) ->
  Forall positive_use (StreamlitApp.usage_logs d').
Proof.
  induction 1 as [d|d d' d'' W _ IH]; [auto|].
  intros F. apply IH. exact (written_ledger d d' W F).
Qed.

Lemma written_units (d d' : StreamlitApp.db) :
  written d d' ->
  Forall (fun r => In (StreamlitApp.unit r) StreamlitApp.units)
         (StreamlitApp.reagents d) ->
  Forall (fun r => In (StreamlitApp.unit r) StreamlitApp.units)
         (StreamlitApp.reagents d').
Proof.
  intros W F. rewrite Forall_forall in F.
  destruct W as [edit_id f Hq Ht Hu|to_delete|n cas sup loc q u e t Hq Ht Hu
                 |sel q who now note Hlo|];
    cbn [StreamlitApp.reagents StreamlitApp.set_reagents
         StreamlitApp.insert_reagent StreamlitApp.insert_usage_log];
    rewrite Forall_forall; intros r Hr.
  - apply in_map_iff in Hr. destruct Hr as [r0 [<- Hr0]].
    unfold StreamlitApp.update_row.
    destruct (StreamlitApp.id r0 =? edit_id);
      [cbn [StreamlitApp.unit]; assumption | auto].
  - apply filter_In in Hr. apply F. tauto.
  - apply in_app_or in Hr. destruct Hr as [Hr|[<-|[]]];
      [auto | cbn [StreamlitApp.unit]; assumption].
  - apply in_map_iff in Hr. destruct Hr as [r0 [<- Hr0]].
    unfold StreamlitApp.deduct.
    destruct (StreamlitApp.id r0 =? sel); [cbn [StreamlitApp.unit]|]; auto.
  - destruct (init_db_spec d) as [_ [_ [_ [_ [R _]]]]].
    rewrite R in Hr. auto.
Qed.

(** The unit of every stored reagent is one the unit selector offers. *)
Lemma reachable_units (s : StreamlitApp.state) :
  reachable s ->
  Forall (fun r => In (StreamlitApp.unit r) StreamlitApp.units)
         (StreamlitApp.reagents (StreamlitApp.store s)).
Proof.
  intros R. apply reachable_writes in R.
  assert (F0 : Forall (fun r => In (StreamlitApp.unit r) StreamlitApp.units)
                 (StreamlitApp.reagents (StreamlitApp.store dash_fresh)))
    by constructor.
  revert F0. induction R as [d|d d' d'' W _ IH]; [auto|].
  intros F. apply IH. exact (written_units d d' W F).
Qed.

Lemma written_ids (d d' : StreamlitApp.db) :
  written d d' ->
  StreamlitApp.reagents_seq d <= StreamlitApp.reagents_seq d' /\
  forall i, In i (reagent_ids d') ->
            In i (reagent_ids d) \/
            StreamlitApp.reagents_seq d < i <= StreamlitApp.reagents_seq d'.
Proof.
  unfold reagent_ids. intros W.
  destruct W as [edit_id f Hq Ht Hu|to_delete|n cas sup loc q u e t Hq Ht Hu
                 |sel q who now note Hlo|]; [simpl|simpl|simpl|simpl|].
  - rewrite update_row_id. split; [lia | auto].
  - split; [lia|]. intros i Hi. left. apply in_map_iff in Hi.
    destruct Hi as [r [<- Hr]]. apply filter_In in Hr. apply in_map. tauto.
  - unfold StreamlitApp.autoincrement. split; [lia|].
    intros i Hi. rewrite map_app in Hi. apply in_app_or in Hi.
    destruct Hi as [Hi|[<-|[]]]; [auto|]. right. simpl. lia.
  - rewrite deduct_id. split; [lia | auto].
  - destruct (init_db_spec d) as [_ [_ [_ [_ [R [RS _]]]]]].
    rewrite R, RS. split; [lia | auto].
Qed.

Lemma writes_ids (d d' : StreamlitApp.db) :
  writes d d' ->
  StreamlitApp.reagents_seq d <= StreamlitApp.reagents_seq d' /\
  forall i, In i (reagent_ids d') ->
            In i (reagent_ids d) \/
            StreamlitApp.reagents_seq d < i <= StreamlitApp.reagents_seq d'.
Proof.
  induction 1 as [d|d d' d'' W _ [S I]].
  - split; [lia | auto].
  - destruct (written_ids d d' W) as [S' I']. split; [lia|].
    intros i Hi. destruct (I i Hi) as [H|H]; [|right; lia].
    destruct (I' i H) as [H'|H']; [auto | right; lia].
Qed.

(** X17.  Reagent ids are never given twice on the dashboard.  In a
    state the dashboard has reached every reagent id lies between 1 and
    the table's counter; and an id up to the counter that no reagent
    holds, such as the id of a deleted reagent, is held by no reagent
    after any further runs of the script, so that usage logs of a deleted
    reagent never attach to a later one. *)
Theorem dashboard_ids_never_reused (s : StreamlitApp.state) :
  reachable s ->
  (forall i, In i (reagent_ids (StreamlitApp.store s)) ->
             0 < i <= StreamlitApp.reagents_seq (StreamlitApp.store s)) /\
  (forall i ss acts,
      i <= StreamlitApp.reagents_seq (StreamlitApp.store s) ->
      ~ In i (reagent_ids (StreamlitApp.store s)) ->
      ~ In i (reagent_ids
                (StreamlitApp.store (snd (StreamlitApp.script_runs ss s acts))))).
Proof.
  intros R. split.
  - intros i Hi. destruct (writes_ids _ _ (reachable_writes s R)) as [_ I].
    destruct (I i Hi) as [H|H]; [contradiction|].
    change (StreamlitApp.reagents_seq (StreamlitApp.store dash_fresh))
      with 0 in H. exact H.
  - intros i ss acts Hle Hn Hin.
    destruct (writes_ids _ _ (script_runs_writes acts ss s)) as [_ I].
    destruct (I i Hin) as [H|H]; [contradiction | lia].
Qed.

(** The theorem after NaCl (id 1) was added and deleted: a reagent added
    next does not get the id 1. *)
Lemma dashboard_ids_never_reused_witness :
  let s := snd (StreamlitApp.confirm_delete admin_session dash_nacl [1]) in
  reachable s /\
  reagent_ids (StreamlitApp.store s) = [] /\
  ~ In 1 (reagent_ids
            (StreamlitApp.store
               (snd (StreamlitApp.script_runs (Some user_session) s
                       [StreamlitApp.AddReagent (mkDate 2026 1 15)
                          nacl_form])))) /\
  reagent_ids
    (StreamlitApp.store
       (snd (StreamlitApp.script_runs (Some user_session) s
               [StreamlitApp.AddReagent (mkDate 2026 1 15) nacl_form])))
  = [2].
Proof.
  assert (R : reachable
            (snd (StreamlitApp.confirm_delete admin_session dash_nacl [1]))).
  { apply reach_delete, dash_nacl_reachable. }
  split; [exact R|]. split; [reflexivity|]. split; [|reflexivity].
  apply (proj2 (dashboard_ids_never_reused _ R) 1 (Some user_session)
           [StreamlitApp.AddReagent (mkDate 2026 1 15) nacl_form]).
  - vm_compute. discriminate.
  - intros [].
Defined.

(** ** The usage ledger and the users through the runs *)

(** X3.  On the dashboard a quantity used of zero or less is never
    recorded.  In a state the dashboard has reached every entry of the
    usage ledger records a quantity of 0.01 or more, the least number the
    quantity widget hands over, and so it is after any further runs of the
    script. *)
Theorem dashboard_usage_refuses_nonpositive (s : StreamlitApp.state) :
  reachable s ->
  Forall positive_use (StreamlitApp.usage_logs (StreamlitApp.store s)) /\
  forall ss acts,
    Forall positive_use
      (StreamlitApp.usage_logs
         (StreamlitApp.store (snd (StreamlitApp.script_runs ss s acts)))).
Proof.
  assert (G : forall s0, reachable s0 ->
                Forall positive_use
                  (StreamlitApp.usage_logs (StreamlitApp.store s0))).
  { intros s0 R0.
    apply (writes_ledger _ _ (reachable_writes s0 R0)). constructor. }
  intros R. split; [exact (G s R)|].
  intros ss acts. apply G, script_runs_reachable. exact R.
Qed.

(** The theorem after a use of 95 g of the NaCl was recorded. *)
Lemma dashboard_usage_refuses_nonpositive_witness :
  let s1 := snd (StreamlitApp.record_usage user_session 7 dash_nacl
                   (StreamlitApp.mkUsageForm false 1 95 "")) in
  reachable s1 /\
  map StreamlitApp.quantity_used
    (StreamlitApp.usage_logs (StreamlitApp.store s1)) = [95%Q] /\
  Forall positive_use (StreamlitApp.usage_logs (StreamlitApp.store s1)).
Proof.
  intros s1.
  assert (R : reachable s1) by (apply reach_usage, dash_nacl_reachable).
  split; [exact R|]. split; [vm_compute; reflexivity|].
  exact (proj1 (dashboard_usage_refuses_nonpositive s1 R)).
Defined.

Lemma import_rows_quiet (rows : list StreamlitApp.Series)
    (d : StreamlitApp.db) (k : Z) :
  StreamlitApp.usage_logs (fst (fold_left StreamlitApp.import_row rows (d, k)))
  = StreamlitApp.usage_logs d.
Proof.
  destruct (import_rows_spec rows d k) as [new [_ [_ [_ [_ L]]]]]. exact L.
Qed.

Lemma script_body_quiet (ss : StreamlitApp.session_state)
    (s : StreamlitApp.state) (a : StreamlitApp.action) :
  (forall now f, a <> StreamlitApp.RecordUsage now f) ->
  StreamlitApp.usage_logs
    (StreamlitApp.store (snd (StreamlitApp.script_body ss s a)))
  = StreamlitApp.usage_logs (StreamlitApp.store s).
Proof.
  intros Hn. unfold StreamlitApp.script_body.
  destruct ss as [ses|]; destruct a; cbn [snd]; try reflexivity;
    try (rewrite load_reagents_store; reflexivity).
  - destruct (save_changes_cases today ses s edit_id f) as [[E _]|[_ [E _]]];
      rewrite E; [rewrite load_reagents_store|]; reflexivity.
  - destruct (confirm_delete_cases ses s to_delete) as [[E _]|[_ [E _]]];
      rewrite E; [rewrite load_reagents_store|]; reflexivity.
  - destruct (bulk_add_store s columns data confirm) as [E|[rows E]];
      rewrite E; [reflexivity | apply import_rows_quiet].
  - destruct (add_reagent_cases today s f) as [[E _]|[_ [E _]]];
      rewrite E; [rewrite load_reagents_store|]; reflexivity.
  - exfalso. exact (Hn now f eq_refl).
Qed.

Lemma run_init_db_logs (s : StreamlitApp.state) :
  StreamlitApp.usage_logs (StreamlitApp.store (StreamlitApp.run_init_db s))
  = StreamlitApp.usage_logs (StreamlitApp.store s).
Proof.
  destruct (init_db_spec (StreamlitApp.store s))
    as [_ [_ [_ [_ [_ [_ [L _]]]]]]]. exact L.
Qed.

(** X16.  The usage ledger only grows, and the users table only gains
    seeded accounts.  One run of the script, which begins with [init_db],
    keeps the stored users and adds at most the seeded accounts, none when
    both are stored already; it leaves the ledger as it is unless it is a
    Record Usage run of a logged-in session, which can only append one
    entry: the selected id, the session's user name, the quantity the
    widget handed over, which is 0.01 or more, the time and the notes.
    After any sequence of runs the earlier users and the earlier ledger
    are the first rows of the later ones. *)
Theorem dashboard_ledger_only_grows (ss : StreamlitApp.session_state)
    (s : StreamlitApp.state) (a : StreamlitApp.action) :
  (exists extra,
      StreamlitApp.users
        (StreamlitApp.store (snd (StreamlitApp.script_run ss s a)))
      = (StreamlitApp.users (StreamlitApp.store s) ++ extra)%list /\
      Forall seeded extra) /\
  (has_seeds (StreamlitApp.store s) ->
   StreamlitApp.users
     (StreamlitApp.store (snd (StreamlitApp.script_run ss s a)))
   = StreamlitApp.users (StreamlitApp.store s)) /\
  (StreamlitApp.usage_logs
     (StreamlitApp.store (snd (StreamlitApp.script_run ss s a)))
   = StreamlitApp.usage_logs (StreamlitApp.store s) \/
   exists ses now f i,
     ss = Some ses /\ a = StreamlitApp.RecordUsage now f /\
     (1 # 100 <= StreamlitApp.qty_used f)%Q /\
     StreamlitApp.usage_logs
       (StreamlitApp.store (snd (StreamlitApp.script_run ss s a)))
     = (StreamlitApp.usage_logs (StreamlitApp.store s) ++
        [StreamlitApp.mkUsageLog i (StreamlitApp.selected_id f)
           (StreamlitApp.s_username ses) (StreamlitApp.qty_used f) now
           (StreamlitApp.usage_notes f)])%list) /\
  forall acts,
    (exists extra,
        StreamlitApp.users
          (StreamlitApp.store (snd (StreamlitApp.script_runs ss s acts)))
        = (StreamlitApp.users (StreamlitApp.store s) ++ extra)%list /\
        Forall seeded extra) /\
    exists l,
      StreamlitApp.usage_logs
        (StreamlitApp.store (snd (StreamlitApp.script_runs ss s acts)))
      = (StreamlitApp.usage_logs (StreamlitApp.store s) ++ l)%list.
Proof.
  destruct (writes_frame _ _ (script_run_writes ss s a)) as [U [S _]].
  split; [exact U|]. split; [exact S|]. split.
  - unfold StreamlitApp.script_run.
    destruct a;
      try (left; rewrite script_body_quiet by (intros; discriminate);
           apply run_init_db_logs).
    destruct ss as [ses|]; [|left; apply run_init_db_logs].
    cbn [StreamlitApp.script_body snd].
    destruct (record_usage_cases ses now (StreamlitApp.run_init_db s) f)
      as [[E _]|[row [_ [_ [Hlo [_ E]]]]]]; rewrite E.
    + left. rewrite load_reagents_store. apply run_init_db_logs.
    + right. exists ses, now, f. eexists.
      split; [reflexivity|]. split; [reflexivity|]. split; [exact Hlo|].
      cbn [snd StreamlitApp.cache_clear StreamlitApp.store
           StreamlitApp.insert_usage_log StreamlitApp.usage_logs
           StreamlitApp.set_reagents].
      rewrite run_init_db_logs. reflexivity.
  - intros acts.
    destruct (writes_frame _ _ (script_runs_writes acts ss s)) as [U' [_ L']].
    split; assumption.
Qed.

(** ** Who can edit on the dashboard *)

Lemma dash_fresh_seeds : has_seeds (StreamlitApp.store dash_fresh).
Proof. exact (proj1 (proj2 (init_db_spec StreamlitApp.empty_db))). Qed.

Lemma fresh_login_sessions (uname pw r : string) :
  StreamlitApp.login (StreamlitApp.store dash_fresh) uname pw = Some r ->
  StreamlitApp.mkSession uname r = admin_session \/
  StreamlitApp.mkSession uname r = user_session.
Proof.
  intros H. apply login_sound in H.
  destruct H as [usr [Hin [Hu [_ Hr]]]]. subst.
  vm_compute in Hin. destruct Hin as [<-|[<-|[]]]; [left | right]; reflexivity.
Qed.

(** The users stay those of the fresh database through the runs. *)
Lemma script_run_users (ss : StreamlitApp.session_state)
    (s : StreamlitApp.state) (a : StreamlitApp.action) :
  StreamlitApp.users (StreamlitApp.store s)
  = StreamlitApp.users (StreamlitApp.store dash_fresh) ->
  StreamlitApp.users (StreamlitApp.store (snd (StreamlitApp.script_run ss s a)))
  = StreamlitApp.users (StreamlitApp.store dash_fresh).
Proof.
  intros U.
  destruct (writes_frame _ _ (script_run_writes ss s a)) as [_ [S _]].
  rewrite S; [exact U|].
  exact (has_seeds_users _ _ U dash_fresh_seeds).
Qed.

Lemma script_run_sessions (ss : StreamlitApp.session_state)
    (s : StreamlitApp.state) (a : StreamlitApp.action) :
  StreamlitApp.users (StreamlitApp.store s)
  = StreamlitApp.users (StreamlitApp.store dash_fresh) ->
  (forall ses, ss = Some ses -> ses = admin_session \/ ses = user_session) ->
  forall ses, fst (StreamlitApp.script_run ss s a) = Some ses ->
              ses = admin_session \/ ses = user_session.
Proof.
  intros U I ses.
  assert (U1 : StreamlitApp.users
                 (StreamlitApp.store (StreamlitApp.run_init_db s))
               = StreamlitApp.users (StreamlitApp.store dash_fresh)).
  { unfold StreamlitApp.run_init_db. cbn [StreamlitApp.store].
    rewrite init_db_seeded; [exact U|].
    exact (has_seeds_users _ _ U dash_fresh_seeds). }
  unfold StreamlitApp.script_run, StreamlitApp.script_body.
  destruct ss as [ses0|]; destruct a; cbn [fst]; try discriminate;
    try (intros H; apply I; exact H).
  unfold StreamlitApp.login_form, StreamlitApp.login. rewrite U1.
  fold (StreamlitApp.login (StreamlitApp.store dash_fresh) username password).
  destruct (StreamlitApp.login _ username password) as [r|] eqn:L;
    cbn [snd]; [|discriminate].
  intros H. injection H as <-. exact (fresh_login_sessions _ _ _ L).
Qed.

Lemma script_runs_sessions (acts : list StreamlitApp.action) :
  forall (ss : StreamlitApp.session_state) (s : StreamlitApp.state),
    StreamlitApp.users (StreamlitApp.store s)
    = StreamlitApp.users (StreamlitApp.store dash_fresh) ->
    (forall ses, ss = Some ses -> ses = admin_session \/ ses = user_session) ->
    StreamlitApp.users
      (StreamlitApp.store (snd (StreamlitApp.script_runs ss s acts)))
    = StreamlitApp.users (StreamlitApp.store dash_fresh) /\
    forall ses, fst (StreamlitApp.script_runs ss s acts) = Some ses ->
                ses = admin_session \/ ses = user_session.
Proof.
  induction acts as [|a acts IH]; intros ss s U I; simpl; [auto|].
  pose proof (script_run_sessions ss s a U I) as I'.
  pose proof (script_run_users ss s a U) as U'.
  destruct (StreamlitApp.script_run ss s a) as [ss' s']. simpl in I', U'.
  apply IH; assumption.
Qed.

(** X12.  Who can change the catalogue.  Start from the freshly
    initialised dashboard with nobody logged in and let the script run any
    number of times.  The session then in place, if any, is that of one
    of the two seeded accounts with its stored role.  In the run that
    follows: without a session no row of any table changes, whatever is
    submitted; and a Save Changes or Confirm Delete run changes a row only
    in the session of the seeded admin.  (Every run moves the counter of
    the users' rowids, which [init_db] does.) *)
Theorem dashboard_only_admin_edits
    (acts : list StreamlitApp.action) (a : StreamlitApp.action) :
  let ss := fst (StreamlitApp.script_runs (fst dash_start) (snd dash_start) acts) in
  let s := snd (StreamlitApp.script_runs (fst dash_start) (snd dash_start) acts) in
  (forall ses, ss = Some ses -> ses = admin_session \/ ses = user_session) /\
  (ss = None ->
   same_tables (StreamlitApp.store s)
     (StreamlitApp.store (snd (StreamlitApp.script_run ss s a)))) /\
  (is_edit a = true ->
   ~ same_tables (StreamlitApp.store s)
       (StreamlitApp.store (snd (StreamlitApp.script_run ss s a))) ->
   ss = Some admin_session).
Proof.
  intros ss s.
  assert (UI : StreamlitApp.users (StreamlitApp.store s)
               = StreamlitApp.users (StreamlitApp.store dash_fresh) /\
               forall ses, ss = Some ses ->
                           ses = admin_session \/ ses = user_session).
  { apply (script_runs_sessions acts None dash_fresh); [reflexivity|].
    discriminate. }
  destruct UI as [U I].
  assert (T : same_tables (StreamlitApp.store s)
                (StreamlitApp.store (StreamlitApp.run_init_db s))).
  { apply init_db_same_tables.
    exact (has_seeds_users _ _ U dash_fresh_seeds). }
  split; [exact I|]. split.
  - intros ->. unfold StreamlitApp.script_run.
    destruct a; exact T.
  - intros He Hne. unfold StreamlitApp.script_run in Hne.
    destruct ss as [ses|] eqn:Ess.
    + assert (R : StreamlitApp.s_role ses = "admin").
      { destruct a; try discriminate He;
          cbn [StreamlitApp.script_body snd] in Hne.
        - destruct (save_changes_cases today ses
                      (StreamlitApp.run_init_db s) edit_id f)
            as [[E _]|[_ [_ [R _]]]]; [|exact R].
          exfalso. apply Hne. rewrite E, load_reagents_store. exact T.
        - destruct (confirm_delete_cases ses
                      (StreamlitApp.run_init_db s) to_delete)
            as [[E _]|[_ [_ [R _]]]]; [|exact R].
          exfalso. apply Hne. rewrite E, load_reagents_store. exact T. }
      destruct (I ses eq_refl) as [->| ->]; [reflexivity|].
      discriminate R.
    + exfalso. apply Hne. destruct a; exact T.
Qed.

(** ** Catalogue edits *)

Lemma find_exists {A : Type} (f : A -> bool) (l : list A) (x : A) :
  In x l -> f x = true -> exists y, find f l = Some y.
Proof.
  intros Hin Hf. destruct (find f l) as [y|] eqn:F; [eauto|].
  apply (find_none _ _ F) in Hin. congruence.
Qed.

Lemma not_selected_spec (to_delete : list Z) (r : StreamlitApp.Reagent) :
  not_selected to_delete r = true <-> ~ In (StreamlitApp.id r) to_delete.
Proof.
  unfold not_selected. rewrite negb_true_iff. split.
  - intros E Hin.
    assert (T : existsb (Z.eqb (StreamlitApp.id r)) to_delete = true).
    { apply existsb_exists. exists (StreamlitApp.id r).
      split; [exact Hin | apply Z.eqb_refl]. }
    congruence.
  - intros Hn. destruct (existsb _ to_delete) eqn:E; [|reflexivity].
    exfalso. apply Hn. apply existsb_exists in E.
    destruct E as [x [Hx E]]. apply Z.eqb_eq in E. subst x. exact Hx.
Qed.

(** X13.  Save Changes, in a state the dashboard has reached.  The edit
    is saved exactly when the session's role is admin, a reagent of that
    id is stored, the quantity and the threshold entered are not negative,
    the unit is one of the selector's, and the expiration date, if any, is
    not before today; neither the name nor the location is checked.  A
    saved edit replaces the fields of the row of that id by the fields
    entered, an empty CAS number or supplier becoming NULL, and keeps its
    id; every other row, the order of the table and the usage logs are as
    before. *)
Theorem save_changes_updates_one_row
    (today : date) (ses : StreamlitApp.session) (s : StreamlitApp.state)
    (edit_id : Z) (f : StreamlitApp.edit_form) :
  reachable s ->
  let s' := snd (StreamlitApp.save_changes today ses s edit_id f) in
  (fst (StreamlitApp.save_changes today ses s edit_id f)
   = StreamlitApp.ReagentUpdated <->
   StreamlitApp.s_role ses = "admin" /\
   In edit_id (reagent_ids (StreamlitApp.store s)) /\
   (0 <= StreamlitApp.e_quantity f)%Q /\
   (0 <= StreamlitApp.e_threshold f)%Q /\
   In (StreamlitApp.e_unit f) StreamlitApp.units /\
   StreamlitApp.before (StreamlitApp.e_exp f) today = false) /\
  (fst (StreamlitApp.save_changes today ses s edit_id f)
   = StreamlitApp.ReagentUpdated ->
   StreamlitApp.reagents (StreamlitApp.store s')
   = map (StreamlitApp.update_row edit_id f)
         (StreamlitApp.reagents (StreamlitApp.store s)) /\
   (forall r, In r (StreamlitApp.reagents (StreamlitApp.store s')) ->
              StreamlitApp.id r = edit_id ->
              r = StreamlitApp.mkReagent edit_id (StreamlitApp.e_name f)
                    (Text.or_None (StreamlitApp.e_cas f))
                    (Text.or_None (StreamlitApp.e_supplier f))
                    (StreamlitApp.e_location f) (StreamlitApp.e_quantity f)
                    (StreamlitApp.e_unit f) (StreamlitApp.e_exp f)
                    (StreamlitApp.e_threshold f)) /\
   (forall r, In r (StreamlitApp.reagents (StreamlitApp.store s)) ->
              StreamlitApp.id r <> edit_id ->
              In r (StreamlitApp.reagents (StreamlitApp.store s'))) /\
   reagent_ids (StreamlitApp.store s') = reagent_ids (StreamlitApp.store s) /\
   StreamlitApp.usage_logs (StreamlitApp.store s')
   = StreamlitApp.usage_logs (StreamlitApp.store s)).
Proof.
  intros R s'. subst s'.
  destruct (reachable_well_formed s R) as [C [N F]].
  pose proof (reachable_units s R) as Un.
  rewrite Forall_forall in F, Un. split.
  - split.
    + intros H.
      destruct (save_changes_cases today ses s edit_id f)
        as [[_ Hn]|[_ [_ [Hr [[r [Hin Hid]] [Hq [Ht [Hu Hb]]]]]]]];
        [contradiction|].
      rewrite (proj1 (load_reagents_listing s C)) in Hin.
      apply select_reagents_In in Hin.
      repeat split; try assumption.
      unfold reagent_ids. rewrite <- Hid. apply in_map. exact Hin.
    + intros [Hr [Hin [Hq [Ht [Hu Hb]]]]].
      unfold reagent_ids in Hin. apply in_map_iff in Hin.
      destruct Hin as [r [Hid Hin]].
      pose proof (proj1 (load_reagents_listing s C)) as L.
      assert (Hl : In r (fst (StreamlitApp.load_reagents s))).
      { rewrite L. apply select_reagents_In. exact Hin. }
      destruct (find_exists (fun x => StreamlitApp.id x =? edit_id) _ r Hl)
        as [y Fy]; [apply Z.eqb_eq; exact Hid|].
      pose proof (find_some _ _ Fy) as [Hy _].
      rewrite L in Hy. apply select_reagents_In in Hy.
      unfold StreamlitApp.save_changes.
      destruct (StreamlitApp.load_reagents s) as [df s1]. simpl in Fy.
      rewrite Hr. cbn [String.eqb negb]. simpl (negb _).
      rewrite Fy.
      rewrite (number_input_unbounded _ _ (proj1 (F y Hy)) Hq).
      rewrite (selectbox_in _ _ (Un y Hy)), (selectbox_in _ _ Hu).
      rewrite (number_input_unbounded _ _ (proj2 (F y Hy)) Ht).
      rewrite Hb. reflexivity.
  - intros H.
    destruct (save_changes_cases today ses s edit_id f)
      as [[_ Hn]|[_ [E _]]]; [contradiction|].
    rewrite E. cbn [StreamlitApp.cache_clear StreamlitApp.store
                    StreamlitApp.set_reagents StreamlitApp.reagents
                    StreamlitApp.usage_logs].
    split; [reflexivity|]. split; [|split; [|split]].
    + intros r Hin Hid. apply in_map_iff in Hin.
      destruct Hin as [r0 [<- Hr0]]. unfold StreamlitApp.update_row in *.
      destruct (StreamlitApp.id r0 =? edit_id) eqn:Ei.
      * apply Z.eqb_eq in Ei. rewrite Ei. reflexivity.
      * apply Z.eqb_neq in Ei. contradiction.
    + intros r Hin Hne. apply in_map_iff. exists r. split; [|exact Hin].
      unfold StreamlitApp.update_row.
      destruct (StreamlitApp.id r =? edit_id) eqn:Ei; [|reflexivity].
      apply Z.eqb_eq in Ei. contradiction.
    + unfold reagent_ids. cbn [StreamlitApp.reagents].
      apply update_row_id.
    + reflexivity.
Qed.

(** The theorem on the dashboard holding NaCl: an admin sets the name to
    the empty text and the edit is saved. *)
Lemma save_changes_updates_one_row_witness :
  reachable dash_nacl /\
  fst (StreamlitApp.save_changes (mkDate 2026 1 15) admin_session dash_nacl 1
         (StreamlitApp.mkEditForm "" "" "" "" 80 "g" None 10))
  = StreamlitApp.ReagentUpdated.
Proof.
  split; [exact dash_nacl_reachable|].
  apply (proj1 (save_changes_updates_one_row (mkDate 2026 1 15) admin_session
                  dash_nacl 1
                  (StreamlitApp.mkEditForm "" "" "" "" 80 "g" None 10)
                  dash_nacl_reachable)).
  repeat split.
  - vm_compute. left. reflexivity.
  - discriminate.
  - discriminate.
  - simpl. tauto.
Defined.

(** X14.  Confirm Delete Selected.  When the deletion goes through, the
    session is an admin's, the count reported is the number of ids
    selected, the table keeps, in their order, exactly the rows whose id
    was not selected, and the usage logs and the users are as before: the
    logs of a deleted reagent stay in the ledger. *)
Theorem confirm_delete_removes_selected_only
    (ses : StreamlitApp.session) (s : StreamlitApp.state)
    (to_delete : list Z) (n : nat) :
  fst (StreamlitApp.confirm_delete ses s to_delete) = StreamlitApp.Deleted n ->
  let s' := snd (StreamlitApp.confirm_delete ses s to_delete) in
  n = List.length to_delete /\
  StreamlitApp.s_role ses = "admin" /\
  StreamlitApp.reagents (StreamlitApp.store s')
  = filter (not_selected to_delete)
           (StreamlitApp.reagents (StreamlitApp.store s)) /\
  (forall r, In r (StreamlitApp.reagents (StreamlitApp.store s')) <->
             In r (StreamlitApp.reagents (StreamlitApp.store s)) /\
             ~ In (StreamlitApp.id r) to_delete) /\
  StreamlitApp.usage_logs (StreamlitApp.store s')
  = StreamlitApp.usage_logs (StreamlitApp.store s) /\
  StreamlitApp.users (StreamlitApp.store s')
  = StreamlitApp.users (StreamlitApp.store s).
Proof.
  intros H s'. subst s'.
  destruct (confirm_delete_cases ses s to_delete)
    as [[_ E]|[E1 [E2 [R _]]]]; [congruence|].
  rewrite E1 in H. injection H as <-. rewrite E2.
  cbn [StreamlitApp.cache_clear StreamlitApp.store StreamlitApp.set_reagents
       StreamlitApp.reagents StreamlitApp.usage_logs StreamlitApp.users].
  repeat split; try assumption.
  - apply filter_In in H. tauto.
  - apply filter_In in H. apply not_selected_spec. tauto.
  - intros [Hin Hn]. apply filter_In. split; [exact Hin|].
    apply not_selected_spec. exact Hn.
Qed.

Lemma confirm_delete_removes_selected_only_witness :
  fst (StreamlitApp.confirm_delete admin_session dash_nacl [1])
  = StreamlitApp.Deleted 1 /\
  StreamlitApp.reagents
    (StreamlitApp.store
       (snd (StreamlitApp.confirm_delete admin_session dash_nacl [1])))
  = filter (not_selected [1])
           (StreamlitApp.reagents (StreamlitApp.store dash_nacl)).
Proof.
  assert (H : fst (StreamlitApp.confirm_delete admin_session dash_nacl [1])
              = StreamlitApp.Deleted 1) by reflexivity.
  split; [exact H|].
  exact (proj1 (proj2 (proj2
    (confirm_delete_removes_selected_only admin_session dash_nacl [1] 1 H)))).
Defined.

(** ** The Add Reagent form *)

Lemma form_errors_nil (f : StreamlitApp.add_form) :
  StreamlitApp.form_errors f = [] <->
  Text.nonempty (Text.strip (StreamlitApp.a_name f)) = true /\
  Text.nonempty (StreamlitApp.final_location f) = true.
Proof.
  unfold StreamlitApp.form_errors.
  destruct (Text.nonempty (Text.strip (StreamlitApp.a_name f)));
    destruct (Text.nonempty (StreamlitApp.final_location f)); simpl;
    try (destruct (String.eqb (StreamlitApp.a_location_preset f) _));
    split; intros H; try discriminate H; try tauto; auto;
    destruct H as [H1 H2]; discriminate.
Qed.

(** X15.  The Add Reagent form.  A submission adds a reagent exactly
    when the location preset and the unit are offered ones, the quantity
    and the threshold are not negative, the name is not blank and the
    location (the preset, or the stripped custom text when the preset is
    "Custom input") is not empty.  The reagent added goes last in the
    table under an id no reagent holds, with the stripped name and that
    location; a submission that adds nothing leaves the database as it
    was. *)
Theorem add_form_adds_iff_valid (today : date) (s : StreamlitApp.state)
    (f : StreamlitApp.add_form) :
  ((exists n l, snd (fst (StreamlitApp.add_reagent today s f))
                = StreamlitApp.Added n l) <->
   In (StreamlitApp.a_location_preset f) StreamlitApp.location_presets /\
   (0 <= StreamlitApp.a_quantity f)%Q /\
   (0 <= StreamlitApp.a_threshold f)%Q /\
   In (StreamlitApp.a_unit f) StreamlitApp.units /\
   Text.nonempty (Text.strip (StreamlitApp.a_name f)) = true /\
   Text.nonempty (StreamlitApp.final_location f) = true) /\
  (forall n l,
      snd (fst (StreamlitApp.add_reagent today s f)) = StreamlitApp.Added n l ->
      n = Text.strip (StreamlitApp.a_name f) /\
      l = StreamlitApp.final_location f /\
      Text.nonempty n = true /\ Text.nonempty l = true /\
      exists i,
        ~ In i (reagent_ids (StreamlitApp.store s)) /\
        StreamlitApp.reagents
          (StreamlitApp.store (snd (StreamlitApp.add_reagent today s f)))
        = (StreamlitApp.reagents (StreamlitApp.store s) ++
           [StreamlitApp.mkReagent i n
              (Text.or_None (StreamlitApp.a_cas f))
              (Text.or_None (StreamlitApp.a_supplier f)) l
              (StreamlitApp.a_quantity f) (StreamlitApp.a_unit f)
              (StreamlitApp.a_exp_date f) (StreamlitApp.a_threshold f)])%list) /\
  ((forall n l, snd (fst (StreamlitApp.add_reagent today s f))
                <> StreamlitApp.Added n l) ->
   StreamlitApp.store (snd (StreamlitApp.add_reagent today s f))
   = StreamlitApp.store s).
Proof.
  split; [|split].
  - split.
    + intros [n [l H]].
      destruct (add_reagent_cases today s f)
        as [[_ Hn]|[_ [_ [Ef [Hp [Hq [Ht Hu]]]]]]];
        [exfalso; exact (Hn n l H)|].
      apply form_errors_nil in Ef. tauto.
    + intros [Hp [Hq [Ht [Hu [Hn Hl]]]]].
      assert (Ef : StreamlitApp.form_errors f = [])
        by (apply form_errors_nil; auto).
      unfold StreamlitApp.add_reagent.
      destruct (StreamlitApp.load_reagents s) as [df s1].
      rewrite (selectbox_in _ _ Hp), (selectbox_in _ _ Hu).
      rewrite (number_input_unbounded 0 _ (Qle_refl 0) Hq).
      assert (H1 : (0 <= 1)%Q) by discriminate.
      rewrite (number_input_unbounded 1 _ H1 Ht), Ef.
      do 2 eexists. reflexivity.
  - intros n l H.
    destruct (add_reagent_cases today s f)
      as [[_ Hn]|[E1 [E2 [Ef _]]]]; [exfalso; exact (Hn n l H)|].
    rewrite E1 in H. injection H as <- <-.
    apply form_errors_nil in Ef. destruct Ef as [Hn Hl].
    repeat split; try assumption.
    rewrite E2. eexists. split; [|reflexivity].
    apply autoincrement_fresh.
  - intros Hn.
    destruct (add_reagent_cases today s f) as [[E _]|[E1 _]].
    + rewrite E. apply load_reagents_store.
    + exfalso. exact (Hn _ _ E1).
Qed.

(** ** [init_db] run again *)

(** X11.  Initialising the dashboard's database again.  [init_db] keeps
    every stored user as it is and appends a seeded account, under a
    rowid above all that were ever given, for each of the two names that
    is missing; both names are stored afterwards.  It leaves the
    reagents, the usage logs and their counters alone, and a login under
    a name that was already stored answers exactly as before: a changed
    password is not reset.  Run again, it changes no row of any table.
    Each run moves the counter of the users' rowids up by two, whether or
    not it inserts a row, so that a database differs after a second run
    in that counter and in nothing else. *)
Theorem init_db_again_changes_nothing (d : StreamlitApp.db) :
  (exists extra,
      StreamlitApp.users (StreamlitApp.init_db d)
      = (StreamlitApp.users d ++ extra)%list /\
      forall x, In x extra ->
                seeded x /\
                ~ In (StreamlitApp.username x)
                     (map StreamlitApp.username (StreamlitApp.users d)) /\
                users_high d < StreamlitApp.u_id x) /\
  has_seeds (StreamlitApp.init_db d) /\
  StreamlitApp.reagents (StreamlitApp.init_db d) = StreamlitApp.reagents d /\
  StreamlitApp.reagents_seq (StreamlitApp.init_db d)
  = StreamlitApp.reagents_seq d /\
  StreamlitApp.usage_logs (StreamlitApp.init_db d)
  = StreamlitApp.usage_logs d /\
  StreamlitApp.usage_logs_seq (StreamlitApp.init_db d)
  = StreamlitApp.usage_logs_seq d /\
  (forall u p,
      In u (map StreamlitApp.username (StreamlitApp.users d)) ->
      StreamlitApp.login (StreamlitApp.init_db d) u p
      = StreamlitApp.login d u p) /\
  same_tables (StreamlitApp.init_db d)
    (StreamlitApp.init_db (StreamlitApp.init_db d)) /\
  StreamlitApp.users_seq (StreamlitApp.init_db d) = users_high d + 2 /\
  StreamlitApp.users_seq (StreamlitApp.init_db (StreamlitApp.init_db d))
  = StreamlitApp.users_seq (StreamlitApp.init_db d) + 2.
Proof.
  destruct (init_db_spec d) as [[extra [U X]] [P [S [M [R [RS [L LS]]]]]]].
  destruct (init_db_spec (StreamlitApp.init_db d))
    as [_ [_ [S' _]]].
  split; [exists extra; auto|]. split; [exact P|].
  split; [exact R|]. split; [exact RS|]. split; [exact L|].
  split; [exact LS|]. split.
  { intros u p Hin. unfold StreamlitApp.login.
    rewrite U, find_append.
    destruct (find _ (StreamlitApp.users d)) as [x|]; [reflexivity|].
    destruct (find _ extra) as [y|] eqn:Fy; [|reflexivity].
    exfalso. apply find_some in Fy. destruct Fy as [Hy E].
    apply andb_true_iff in E. destruct E as [E _].
    apply String.eqb_eq in E. destruct (X y Hy) as [_ [Hn _]].
    apply Hn. rewrite E. exact Hin. }
  split; [apply init_db_same_tables; exact P|].
  split; [exact S|]. lia.
Qed.

(** A database holding the account "admin" alone under the rowid 1: the
    account "user" gets the rowid 3, the rowid 2 having gone to the
    insert of "admin" that was dropped. *)
Example init_db_lone_admin :
  map StreamlitApp.u_id
    (StreamlitApp.users
       (StreamlitApp.init_db
          (StreamlitApp.mkDb [StreamlitApp.mkUser 1 "admin" "x" "admin"] 1
             [] 0 [] 0)))
  = [1; 3] /\
  map StreamlitApp.users_seq
    [StreamlitApp.init_db StreamlitApp.empty_db;
     StreamlitApp.init_db (StreamlitApp.init_db StreamlitApp.empty_db);
     StreamlitApp.init_db
       (StreamlitApp.init_db (StreamlitApp.init_db StreamlitApp.empty_db))]
  = [2; 4; 6].
Proof. vm_compute. split; reflexivity. Qed.

(** ** The uploaded sheet *)

Lemma available_cols_name (columns : list string) :
  existsb (String.eqb "name") (StreamlitApp.available_cols columns)
  = existsb (String.eqb "name") columns.
Proof.
  unfold StreamlitApp.available_cols, StreamlitApp.keep_cols. cbn [filter].
  destruct (existsb (String.eqb "name") columns);
    destruct (existsb (String.eqb "cas_number") columns);
    destruct (existsb (String.eqb "supplier") columns); reflexivity.
Qed.

Lemma rename_map_name (c : string) :
  StreamlitApp.rename_map c = "name" <-> c = "item" \/ c = "name".
Proof.
  unfold StreamlitApp.rename_map.
  destruct (String.eqb c "item") eqn:E1.
  - apply String.eqb_eq in E1. tauto.
  - apply String.eqb_neq in E1.
    destruct (String.eqb c "supplier item identifier") eqn:E2.
    + apply String.eqb_eq in E2. subst c.
      split; [discriminate | intros [H|H]; discriminate H].
    + tauto.
Qed.

Lemma excel_columns_name (columns : list string) :
  existsb (String.eqb "name") (StreamlitApp.excel_columns columns) = true <->
  exists h, In h columns /\
            (StreamlitApp.normalize_column h = "item" \/
             StreamlitApp.normalize_column h = "name").
Proof.
  unfold StreamlitApp.excel_columns. rewrite existsb_exists. split.
  - intros [x [Hx E]]. apply String.eqb_eq in E. subst x.
    apply in_map_iff in Hx. destruct Hx as [y [Ey Hy]].
    apply in_map_iff in Hy. destruct Hy as [h [<- Hh]].
    exists h. split; [exact Hh|]. apply rename_map_name. exact Ey.
  - intros [h [Hh E]]. exists "name". split; [|reflexivity].
    apply rename_map_name in E. rewrite <- E.
    apply in_map, in_map. exact Hh.
Qed.

Lemma series_nth (labels : list string) :
  NoDup labels ->
  forall (cells : list StreamlitApp.cell) (i : nat) key c,
    nth_error labels i = Some key ->
    nth_error cells i = Some c ->
    StreamlitApp.series labels cells key = Some c.
Proof.
  induction 1 as [|l labels Hl _ IH]; intros cells i key c Hk Hc.
  - destruct i; discriminate Hk.
  - destruct cells as [|c0 cells]; [destruct i; discriminate Hc|].
    cbn [StreamlitApp.series]. destruct i as [|i]; simpl in Hk, Hc.
    + injection Hk as ->. injection Hc as ->.
      rewrite String.eqb_refl. reflexivity.
    + destruct (String.eqb l key) eqn:E.
      * apply String.eqb_eq in E. subst l. exfalso. apply Hl.
        eapply nth_error_In. exact Hk.
      * eapply IH; eassumption.
Qed.

Lemma series_absent (labels : list string) (cells : list StreamlitApp.cell)
    (key : string) :
  ~ In key labels -> StreamlitApp.series labels cells key = None.
Proof.
  revert cells. induction labels as [|l labels IH]; intros cells Hn.
  - reflexivity.
  - destruct cells as [|c cells]; [reflexivity|]. cbn [StreamlitApp.series].
    destruct (String.eqb l key) eqn:E.
    + apply String.eqb_eq in E. exfalso. apply Hn. left. exact E.
    + apply IH. intros H. apply Hn. right. exact H.
Qed.

(** X18.  The uploaded sheet, its header labels being ASCII text once
    stripped of white space, and distinct once stripped, lower-cased and
    renamed.  The upload is refused for want of a name column exactly
    when no header is "item" or "name" up to surrounding white space and
    letter case; a refused upload, and a preview that is not
    confirmed, leave the database as it was.  In a row of the sheet the
    importer reads the cell under such a header as the name, the cell
    under "supplier item identifier" as the CAS number and the cell under
    "supplier" as the supplier; a column that is not there is read as the
    empty text, so that a sheet without supplier column imports its rows
    with no supplier. *)
Theorem upload_reads_cells_by_header (s : StreamlitApp.state)
    (columns : list string) (data : list (list StreamlitApp.cell))
    (confirm : bool) :
  ascii_labels columns ->
  NoDup (StreamlitApp.excel_columns columns) ->
  (fst (StreamlitApp.bulk_add s columns data confirm)
   = StreamlitApp.MissingNameColumn <->
   forall h, In h columns ->
             StreamlitApp.normalize_column h <> "item" /\
             StreamlitApp.normalize_column h <> "name") /\
  (fst (StreamlitApp.bulk_add s columns data confirm)
   = StreamlitApp.MissingNameColumn \/ confirm = false ->
   StreamlitApp.store (snd (StreamlitApp.bulk_add s columns data confirm))
   = StreamlitApp.store s) /\
  (forall i h cells c,
      nth_error columns i = Some h ->
      nth_error cells i = Some c ->
      let row := StreamlitApp.series (StreamlitApp.excel_columns columns) cells in
      (StreamlitApp.normalize_column h = "item" \/
       StreamlitApp.normalize_column h = "name" ->
       StreamlitApp.row_get row "name" "" = c) /\
      (StreamlitApp.normalize_column h = "supplier item identifier" ->
       StreamlitApp.row_get row "cas_number" "" = c) /\
      (StreamlitApp.normalize_column h = "supplier" ->
       StreamlitApp.row_get row "supplier" "" = c)) /\
  (forall key cells,
      ~ In key (StreamlitApp.excel_columns columns) ->
      StreamlitApp.str
        (StreamlitApp.row_get
           (StreamlitApp.series (StreamlitApp.excel_columns columns) cells)
           key "") = "").
Proof.
  intros _ ND.
  assert (M : fst (StreamlitApp.bulk_add s columns data confirm)
              = StreamlitApp.MissingNameColumn <->
              existsb (String.eqb "name") (StreamlitApp.excel_columns columns)
              = false).
  { unfold StreamlitApp.bulk_add. rewrite available_cols_name.
    destruct (existsb _ (StreamlitApp.excel_columns columns)); cbn [negb].
    - destruct confirm; [destruct (StreamlitApp.confirm_import s _)|];
        split; intros H; discriminate H.
    - split; reflexivity. }
  split; [|split; [|split]].
  - rewrite M. split.
    + intros E h Hh. split; intros N;
        (assert (T : existsb (String.eqb "name")
                       (StreamlitApp.excel_columns columns) = true)
          by (apply excel_columns_name; exists h; tauto));
        congruence.
    + intros H.
      destruct (existsb _ (StreamlitApp.excel_columns columns)) eqn:E;
        [|reflexivity].
      apply excel_columns_name in E. destruct E as [h [Hh E]].
      destruct (H h Hh). tauto.
  - intros H. unfold StreamlitApp.bulk_add in *.
    destruct (negb _); [apply load_reagents_store|].
    destruct H as [H| ->]; [|apply load_reagents_store].
    destruct confirm; [|apply load_reagents_store].
    destruct (StreamlitApp.confirm_import s _). discriminate H.
  - intros i h cells c Hh Hc row.
    assert (L : nth_error (StreamlitApp.excel_columns columns) i
                = Some (StreamlitApp.rename_map
                          (StreamlitApp.normalize_column h))).
    { unfold StreamlitApp.excel_columns.
      apply map_nth_error, map_nth_error. exact Hh. }
    assert (G : forall key,
               StreamlitApp.rename_map (StreamlitApp.normalize_column h) = key ->
               StreamlitApp.row_get row key "" = c).
    { intros key E. rewrite E in L. unfold StreamlitApp.row_get, row.
      rewrite (series_nth _ ND cells i key c L Hc). reflexivity. }
    split; [|split]; intros E; apply G.
    + apply rename_map_name. exact E.
    + rewrite E. reflexivity.
    + rewrite E. reflexivity.
  - intros key cells Hn. unfold StreamlitApp.row_get.
    rewrite (series_absent _ cells key Hn). reflexivity.
Qed.

(** The header of two labels, the first padded with a space and a
    no-break space, and the row NaCl, 7647-14-5: the upload is not
    refused, and the CAS number is read under the second label. *)
Lemma upload_reads_cells_by_header_witness :
  ascii_labels sample_header /\
  NoDup (StreamlitApp.excel_columns sample_header) /\
  StreamlitApp.excel_columns sample_header = ["name"; "cas_number"] /\
  fst (StreamlitApp.bulk_add dash_fresh sample_header [] false)
  <> StreamlitApp.MissingNameColumn /\
  StreamlitApp.row_get
    (StreamlitApp.series (StreamlitApp.excel_columns sample_header)
       [StreamlitApp.CStr "NaCl"; StreamlitApp.CStr "7647-14-5"])
    "cas_number" ""
  = StreamlitApp.CStr "7647-14-5".
Proof.
  assert (A : ascii_labels sample_header).
  { repeat constructor. }
  assert (ND : NoDup (StreamlitApp.excel_columns sample_header)).
  { vm_compute. repeat constructor; simpl; intuition discriminate. }
  split; [exact A|]. split; [exact ND|]. split; [vm_compute; reflexivity|].
  destruct (upload_reads_cells_by_header dash_fresh sample_header [] false
              A ND)
    as [M [_ [C _]]].
  split.
  - intros H.
    destruct (proj1 M H (" ITEM" ++ nbsp)%string (or_introl eq_refl))
      as [H1 _].
    apply H1. vm_compute. reflexivity.
  - exact (proj1 (proj2 (C 1%nat "Supplier Item Identifier"
                           [StreamlitApp.CStr "NaCl";
                            StreamlitApp.CStr "7647-14-5"]
                           (StreamlitApp.CStr "7647-14-5") eq_refl eq_refl))
                 eq_refl).
Defined.

(** ** The admin tab *)

Lemma prefix_empty (s : string) : String.prefix "" s = true.
Proof. destruct s; reflexivity. Qed.

Lemma str_in_no_first_char (c : ascii) (n s : string) :
  has_char c s = false -> Text.str_in (String c n) s = false.
Proof.
  induction s as [|x s IH]; intros H; cbn [Text.str_in String.prefix].
  - reflexivity.
  - cbn [has_char] in H. apply orb_false_iff in H. destruct H as [Hx Hs].
    rewrite (IH Hs). destruct (ascii_dec c x) as [->|_].
    + rewrite Ascii.eqb_refl in Hx. discriminate Hx.
    + reflexivity.
Qed.

Lemma str_in_skip (c : ascii) (n a b : string) :
  has_char c a = false ->
  Text.str_in (String c n) (a ++ b) = Text.str_in (String c n) b.
Proof.
  induction a as [|x a IH]; intros H.
  - reflexivity.
  - cbn [has_char] in H. apply orb_false_iff in H. destruct H as [Hx Ha].
    cbn [append Text.str_in String.prefix]. rewrite (IH Ha).
    destruct (ascii_dec c x) as [->|_].
    + rewrite Ascii.eqb_refl in Hx. discriminate Hx.
    + reflexivity.
Qed.

Lemma prefix_before_separator (t : ascii) (tl a : string) :
  forall n, has_char t n = false ->
            String.prefix n (a ++ String t tl) = String.prefix n a.
Proof.
  induction a as [|x a IH]; intros n H.
  - destruct n as [|c n]; [reflexivity|].
    cbn [append String.prefix]. cbn [has_char] in H.
    apply orb_false_iff in H. destruct H as [Hc _].
    destruct (ascii_dec c t) as [->|_]; [|reflexivity].
    rewrite Ascii.eqb_refl in Hc. discriminate Hc.
  - destruct n as [|c n]; [reflexivity|].
    cbn [append String.prefix]. cbn [has_char] in H.
    apply orb_false_iff in H. destruct H as [_ Hn].
    destruct (ascii_dec c x); [apply IH; exact Hn | reflexivity].
Qed.

Lemma str_in_split (n a : string) (t : ascii) (sep tl : string) :
  has_char t n = false ->
  Text.str_in n (a ++ (String t sep ++ tl))
  = Text.str_in n a || Text.str_in n (String t sep ++ tl).
Proof.
  intros H. change (String t sep ++ tl)%string with (String t (sep ++ tl)).
  induction a as [|x a IH].
  - change ("" ++ String t (sep ++ tl))%string with (String t (sep ++ tl)).
    destruct (Text.str_in n (String t (sep ++ tl))) eqn:E.
    + symmetry. apply orb_true_r.
    + destruct n as [|c n]; [|reflexivity].
      cbn [Text.str_in] in E. rewrite prefix_empty in E. discriminate E.
  - change (String x a ++ String t (sep ++ tl))%string
      with (String x (a ++ String t (sep ++ tl))).
    cbn [Text.str_in].
    change (String x (a ++ String t (sep ++ tl)))
      with (String x a ++ String t (sep ++ tl))%string.
    rewrite (prefix_before_separator t (sep ++ tl) (String x a) n H), IH.
    rewrite orb_assoc. reflexivity.
Qed.

Lemma digit_not_L (n : Z) : Ascii.eqb "L" (StreamlitApp.digit n) = false.
Proof.
  unfold StreamlitApp.digit. generalize (Z.to_nat (n mod 10)). intros k.
  do 10 (destruct k as [|k]; [reflexivity|]). destruct k; reflexivity.
Qed.

Lemma isoformat_no_L (d : date) :
  has_char "L" (StreamlitApp.isoformat d) = false.
Proof.
  unfold StreamlitApp.isoformat. cbn [string_of_list_ascii has_char].
  rewrite !digit_not_L. reflexivity.
Qed.

Section AdminMetrics.

Variables fixed2 str_float : Q -> string.
Hypothesis fixed2_plain : no_capital_E fixed2.
Hypothesis str_float_plain : no_capital_E str_float.

Lemma low_stock_text_has_Low (n : string) (q : Q) (u : string) (t : Q) :
  Text.str_in "Low"
    (StreamlitApp.alert_text fixed2 str_float (StreamlitApp.LowStock n q u t))
  = true.
Proof. reflexivity. Qed.

Lemma expired_text_has_Expired (n : string) (d : date) :
  Text.str_in "Expired"
    (StreamlitApp.alert_text fixed2 str_float (StreamlitApp.Expired n d))
  = true.
Proof. reflexivity. Qed.

Lemma expired_text_Low (n : string) (d : date) :
  Text.str_in "Low"
    (StreamlitApp.alert_text fixed2 str_float (StreamlitApp.Expired n d))
  = Text.str_in "Low" n.
Proof.
  unfold StreamlitApp.alert_text.
  rewrite str_in_skip by reflexivity.
  rewrite str_in_split by reflexivity.
  rewrite str_in_skip by reflexivity.
  rewrite str_in_skip by apply isoformat_no_L.
  apply orb_false_r.
Qed.

Lemma low_stock_text_Expired (n : string) (q : Q) (u : string) (t : Q) :
  Text.str_in "Expired"
    (StreamlitApp.alert_text fixed2 str_float (StreamlitApp.LowStock n q u t))
  = Text.str_in "Expired" n || Text.str_in "Expired" u.
Proof.
  unfold StreamlitApp.alert_text.
  rewrite str_in_skip by reflexivity.
  rewrite str_in_split by reflexivity.
  rewrite str_in_skip by reflexivity.
  rewrite str_in_skip by apply fixed2_plain.
  rewrite str_in_skip by reflexivity.
  rewrite str_in_split by reflexivity.
  rewrite str_in_skip by reflexivity.
  rewrite str_in_skip by apply str_float_plain.
  rewrite orb_false_r. reflexivity.
Qed.

Lemma alerts_counted_by_text (today : date) (l : list StreamlitApp.Reagent) :
  List.length
    (filter (fun a => Text.str_in "Low"
                        (StreamlitApp.alert_text fixed2 str_float a))
            (StreamlitApp.alerts today l))
  = (List.length (filter StreamlitApp.low_stock l) +
     List.length
       (filter (fun r => dash_expired today r &&
                         Text.str_in "Low" (StreamlitApp.name r)) l))%nat /\
  List.length
    (filter (fun a => Text.str_in "Expired"
                        (StreamlitApp.alert_text fixed2 str_float a))
            (StreamlitApp.alerts today l))
  = (List.length (filter (dash_expired today) l) +
     List.length
       (filter (fun r => StreamlitApp.low_stock r &&
                         (Text.str_in "Expired" (StreamlitApp.name r) ||
                          Text.str_in "Expired" (StreamlitApp.unit r))) l))%nat.
Proof.
  unfold StreamlitApp.alerts.
  induction l as [|r l [IH1 IH2]]; [split; reflexivity|].
  cbn [flat_map filter]. rewrite !filter_app, !length_app, IH1, IH2.
  unfold StreamlitApp.alerts_of, dash_expired.
  destruct (StreamlitApp.low_stock r);
    destruct (StreamlitApp.expiration_date r) as [d|];
    try destruct (date_ltb d today);
    cbn [app filter andb];
    rewrite ?low_stock_text_has_Low, ?expired_text_has_Expired,
            ?expired_text_Low, ?low_stock_text_Expired;
    repeat match goal with
           | |- context [Text.str_in ?a ?b] => destruct (Text.str_in a b)
           end;
    cbn [orb List.length]; split; lia.
Qed.

(** X19.  The admin tab of the dashboard, numbers being rendered without
    a capital E.  A session whose role is not "admin" is refused.  For an
    admin the first metric is the number of rows of the listing, and the
    other two count alert lines by their text: "Low Stock" shows the
    number of low-stock rows plus the number of expired rows whose name
    contains "Low", and "Expired" shows the number of expired rows plus
    the number of low-stock rows whose name or unit contains "Expired".
    When no name and no unit contains either word, the two metrics are
    the numbers of low-stock and of expired rows. *)
Theorem admin_metrics_count_alert_lines (ses : StreamlitApp.session)
    (today : date) (reagents_df : list StreamlitApp.Reagent) :
  StreamlitApp.admin fixed2 str_float ses reagents_df
    (StreamlitApp.alerts today reagents_df)
  = (if String.eqb (StreamlitApp.s_role ses) "admin"
     then StreamlitApp.Metrics
            (List.length reagents_df)
            (List.length (filter StreamlitApp.low_stock reagents_df) +
             List.length
               (filter (fun r => dash_expired today r &&
                                 Text.str_in "Low" (StreamlitApp.name r))
                       reagents_df))
            (List.length (filter (dash_expired today) reagents_df) +
             List.length
               (filter (fun r => StreamlitApp.low_stock r &&
                                 (Text.str_in "Expired" (StreamlitApp.name r) ||
                                  Text.str_in "Expired" (StreamlitApp.unit r)))
                       reagents_df))
     else StreamlitApp.AdminAccessOnly) /\
  ((forall r, In r reagents_df ->
              Text.str_in "Low" (StreamlitApp.name r) = false /\
              Text.str_in "Expired" (StreamlitApp.name r) = false /\
              Text.str_in "Expired" (StreamlitApp.unit r) = false) ->
   StreamlitApp.s_role ses = "admin" ->
   StreamlitApp.admin fixed2 str_float ses reagents_df
     (StreamlitApp.alerts today reagents_df)
   = StreamlitApp.Metrics
       (List.length reagents_df)
       (List.length (filter StreamlitApp.low_stock reagents_df))
       (List.length (filter (dash_expired today) reagents_df))).
Proof.
  assert (E : StreamlitApp.admin fixed2 str_float ses reagents_df
                (StreamlitApp.alerts today reagents_df)
              = (if String.eqb (StreamlitApp.s_role ses) "admin"
                 then StreamlitApp.Metrics
                        (List.length reagents_df)
                        (List.length (filter StreamlitApp.low_stock reagents_df) +
                         List.length
                           (filter (fun r => dash_expired today r &&
                                             Text.str_in "Low" (StreamlitApp.name r))
                                   reagents_df))
                        (List.length (filter (dash_expired today) reagents_df) +
                         List.length
                           (filter (fun r => StreamlitApp.low_stock r &&
                                             (Text.str_in "Expired" (StreamlitApp.name r) ||
                                              Text.str_in "Expired" (StreamlitApp.unit r)))
                                   reagents_df))
                 else StreamlitApp.AdminAccessOnly)).
  { unfold StreamlitApp.admin.
    destruct (alerts_counted_by_text today reagents_df) as [L X].
    rewrite L, X. destruct (String.eqb _ _); reflexivity. }
  split; [exact E|].
  intros H Hr. rewrite E, Hr, String.eqb_refl.
  assert (Z1 : filter (fun r => dash_expired today r &&
                                Text.str_in "Low" (StreamlitApp.name r))
                      reagents_df = []).
  { clear E. induction reagents_df as [|r l IH]; [reflexivity|].
    cbn [filter]. destruct (H r (or_introl eq_refl)) as [-> _].
    rewrite andb_false_r. apply IH. intros r0 Hr0. apply H. right. exact Hr0. }
  assert (Z2 : filter (fun r => StreamlitApp.low_stock r &&
                                (Text.str_in "Expired" (StreamlitApp.name r) ||
                                 Text.str_in "Expired" (StreamlitApp.unit r)))
                      reagents_df = []).
  { clear E Z1. induction reagents_df as [|r l IH]; [reflexivity|].
    cbn [filter]. destruct (H r (or_introl eq_refl)) as [_ [-> ->]].
    rewrite andb_false_r. apply IH. intros r0 Hr0. apply H. right. exact Hr0. }
  rewrite Z1, Z2. cbn [List.length]. rewrite !Nat.add_0_r. reflexivity.
Qed.

End AdminMetrics.

(** An expired Lowry reagent with stock well over its threshold: no row
    is low in stock, and the Low Stock metric shows 1. *)
Lemma admin_metrics_count_alert_lines_witness :
  no_capital_E (fun _ => "50.00") /\ no_capital_E (fun _ => "10.0") /\
  filter StreamlitApp.low_stock [lowry] = [] /\
  StreamlitApp.admin (fun _ => "50.00") (fun _ => "10.0")
    (StreamlitApp.mkSession "admin" "admin") [lowry]
    (StreamlitApp.alerts (mkDate 2026 1 15) [lowry])
  = StreamlitApp.Metrics 1 1 1.
Proof.
  assert (H1 : no_capital_E (fun _ => "50.00")) by (intros q; reflexivity).
  assert (H2 : no_capital_E (fun _ => "10.0")) by (intros q; reflexivity).
  split; [exact H1|]. split; [exact H2|]. split; [reflexivity|].
  rewrite (proj1 (admin_metrics_count_alert_lines _ _ H1 H2
                    (StreamlitApp.mkSession "admin" "admin")
                    (mkDate 2026 1 15) [lowry])).
  reflexivity.
Defined.
